(** * pet_lib: a shallow embedding of the Cyber-Pet helper library

    The development follows [src/v5.0/pet_lib.py] (and [src/v2.0/pet_lib.py]
    for the one presenter whose colour rule differs there).

    Conventions of the embedding:
    - a Python [str] is a Rocq [string] holding its UTF-8 bytes;
    - a Python [int] is a [Z]; the one place where the library computes
      with floats ([int(hp / max_hp * 100)]) uses the binary64 operations
      of [SpecFloat];
    - a record handed to a presenter is a [dict] object living in a store
      ([heap]), presenters receive its location;
    - console and display output is a chronological list of [event]s;
    - the file system is a finite map that tells what the system finds at
      each path (POSIX, no links, every file readable and writable): two
      paths are two keys, so nothing is said of a second name of one file;
    - a computation ends in [Return], in [Raise] (a Python exception that
      leaves the function) or in [Unmodelled] (the execution leaves the
      fragment of Python that is modelled here: formatting of containers,
      floats read from a JSON document, strings with lone surrogates,
      documents beyond the limits of the interpreter). *)

From Stdlib Require Import ZArith String Ascii List Bool Lia.
From Stdlib Require Import Floats.SpecFloat.
From Stdlib Require Import Decimal DecimalString DecimalZ DecimalPos DecimalFacts.
From stdpp Require Import gmap strings.
Import ListNotations.

Open Scope Z_scope.

(** ** Text helpers *)

Definition dquote : ascii := ascii_of_nat 34.
Definition newline : ascii := ascii_of_nat 10.
Definition nl : string := String newline EmptyString.

(** The markup templates of the source are full of double quotes. They are
    written here with an apostrophe in their place (no template of the
    modelled functions contains an apostrophe) and [q] puts the double
    quotes back, so that [q "<a href='x'>"] is the source text. *)
Fixpoint q (s : string) : string :=
  match s with
  | EmptyString => EmptyString
  | String c r => String (if Ascii.eqb c "'" then dquote else c) (q r)
  end.

(** [lines [l1; ...; ln]] is [l1], newline, ..., newline, [ln]: the lines of
    a triple-quoted template. *)
Fixpoint lines (ls : list string) : string :=
  match ls with
  | [] => EmptyString
  | [l] => l
  | l :: rest => l +:+ nl +:+ lines rest
  end.

Definition concat_strings (ls : list string) : string :=
  fold_right String.append EmptyString ls.

(** [str(n)] for an [int]. *)
Definition str_of_Z (n : Z) : string := NilZero.string_of_int (Z.to_int n).

Fixpoint starts_with (p s : string) : bool :=
  match p, s with
  | EmptyString, _ => true
  | String a p', String b s' => Ascii.eqb a b && starts_with p' s'
  | String _ _, EmptyString => false
  end.

(** ** Python values *)

(** The values a record field can hold. [VOpaque] stands for any object
    outside the JSON data model (a set, bytes, an instance of a class). *)
#[warnings="-register-all"]
Inductive pyval : Type :=
| VNone
| VBool (b : bool)
| VInt (n : Z)
| VStr (s : string)
| VList (l : list pyval)
| VDict (d : list (string * pyval))
| VOpaque.

(** A [dict] with [str] keys, in insertion order. *)
Abbreviation dict := (list (string * pyval)).

Fixpoint dict_lookup (d : dict) (k : string) : option pyval :=
  match d with
  | [] => None
  | (k', v) :: rest => if String.eqb k' k then Some v else dict_lookup rest k
  end.

(** [d.get(k, default)] *)
Definition dict_get (d : dict) (k : string) (default : pyval) : pyval :=
  match dict_lookup d k with
  | Some v => v
  | None => default
  end.

(** [d[k] = v]: an existing key keeps its position. *)
Fixpoint dict_set (d : dict) (k : string) (v : pyval) : dict :=
  match d with
  | [] => [(k, v)]
  | (k', v') :: rest =>
      if String.eqb k' k then (k', v) :: rest else (k', v') :: dict_set rest k v
  end.

(** [d.update(other)] *)
Definition dict_update (d other : dict) : dict :=
  fold_left (fun acc kv => dict_set acc (fst kv) (snd kv)) other d.

(** ** Exceptions, events, the world *)

Inductive exn : Type :=
| ZeroDivisionError
| TypeError
| ValueError
| OverflowError
| FileNotFoundError
| IsADirectoryError
| NotADirectoryError
| OSError
    (* an [OSError] of no more special class: here, a name that is too long *)
| UnicodeDecodeError
| JSONDecodeError.

Inductive event : Type :=
| Print (line : string)
    (* print(line) *)
| PrintExn (prefix : string) (e : exn)
    (* print(f"{prefix}{e}"): the text of [e] is left symbolic *)
| DisplayHTML (markup : string)
    (* display(HTML(markup)) *)
| DisplayAudio (url : string) (autoplay : bool).
    (* display(Audio(url=url, autoplay=autoplay)) *)

(** What the system finds at a path: a regular file, with its bytes, or a
    directory. The process may read and write every file, and search and
    add files to every directory, that a world describes; links, and files
    the process has no right to open, are not described. *)
Inductive node : Type :=
| File (content : string)
| Dir.

Abbreviation loc := nat.

Record world : Type := World {
  heap : gmap nat dict;
  disk : gmap string node;
  out : list event
}.

Inductive mode : Type := JUPYTER | TERMINAL.

Inductive outcome (A : Type) : Type :=
| Return (a : A)
| Raise (e : exn)
| Unmodelled.
Arguments Return {A} a.
Arguments Raise {A} e.
Arguments Unmodelled {A}.

Definition M (A : Type) : Type := world -> outcome A * world.

Definition ret {A} (a : A) : M A := fun w => (Return a, w).
Definition raise {A} (e : exn) : M A := fun w => (Raise e, w).
Definition unmodelled {A} : M A := fun w => (Unmodelled, w).

Definition bind {A B} (m : M A) (k : A -> M B) : M B :=
  fun w =>
    match m w with
    | (Return a, w') => k a w'
    | (Raise e, w') => (Raise e, w')
    | (Unmodelled, w') => (Unmodelled, w')
    end.

Declare Scope py_scope.
Delimit Scope py_scope with py.
Notation "x <- c1 ;; c2" := (bind c1 (fun x => c2))
  (at level 100, c1 at next level, right associativity) : py_scope.
Notation "c1 ;; c2" := (bind c1 (fun _ => c2))
  (at level 100, right associativity) : py_scope.
Open Scope py_scope.

(** A pure step that may raise. *)
Definition lift {A} (o : outcome A) : M A := fun w => (o, w).

(** [try: body except <classes selected by handler>: handler e]. The
    handler runs in the world the body left behind. *)
Definition try_except {A} (body : M A) (handler : exn -> option (M A)) : M A :=
  fun w =>
    match body w with
    | (Raise e, w') =>
        match handler e with
        | Some h => h w'
        | None => (Raise e, w')
        end
    | r => r
    end.

Definition emit (ev : event) : M unit :=
  fun w => (Return tt, World (heap w) (disk w) (out w ++ [ev])).

Definition print (line : string) : M unit := emit (Print line).
Definition print_exn (prefix : string) (e : exn) : M unit := emit (PrintExn prefix e).

(** What the interpreter finds behind a [dict] argument. *)
Definition deref (l : loc) : M dict :=
  fun w =>
    match heap w !! l with
    | Some d => (Return d, w)
    | None => (Unmodelled, w)
    end.

(** [pet_data.get(k, default)] on the object at [l]. *)
Definition get (l : loc) (k : string) (default : pyval) : M pyval :=
  d <- deref l ;; ret (dict_get d k default).

(** Allocation of a fresh [dict] object and in-place update. *)
Definition fresh_loc (h : gmap nat dict) : nat := fresh (dom h).

Definition alloc (d : dict) : M nat :=
  fun w =>
    let l := fresh_loc (heap w) in
    (Return l, World (<[l := d]> (heap w)) (disk w) (out w)).

Definition update_in_place (l : loc) (other : dict) : M unit :=
  fun w =>
    match heap w !! l with
    | Some d => (Return tt, World (<[l := dict_update d other]> (heap w)) (disk w) (out w))
    | None => (Unmodelled, w)
    end.

(** ** Arithmetic and formatting on Python values *)

Definition Z_of_bool (b : bool) : Z := if b then 1 else 0.

(** [value < k] for an [int] literal [k]: [bool] is a subclass of [int],
    every other modelled type raises [TypeError]. *)
Definition py_lt_int (v : pyval) (k : Z) : outcome bool :=
  match v with
  | VInt n => Return (n <? k)
  | VBool b => Return (Z_of_bool b <? k)
  | VOpaque => Unmodelled
  | _ => Raise TypeError
  end.

(** [value > k] *)
Definition py_gt_int (v : pyval) (k : Z) : outcome bool :=
  match v with
  | VInt n => Return (k <? n)
  | VBool b => Return (k <? Z_of_bool b)
  | VOpaque => Unmodelled
  | _ => Raise TypeError
  end.

(** [min(value, k)]: the builtin keeps its first argument unless the second
    one is smaller. *)
Definition py_min_with_int (v : pyval) (k : Z) : outcome pyval :=
  match v with
  | VInt n => Return (if k <? n then VInt k else VInt n)
  | VBool b => Return (if k <? Z_of_bool b then VInt k else VBool b)
  | VOpaque => Unmodelled
  | _ => Raise TypeError
  end.

(** [k - value] *)
Definition py_int_minus (k : Z) (v : pyval) : outcome pyval :=
  match v with
  | VInt n => Return (VInt (k - n))
  | VBool b => Return (VInt (k - Z_of_bool b))
  | VOpaque => Unmodelled
  | _ => Raise TypeError
  end.

(** [f"{v}"], that is [str(v)]. The [repr] of the items of a container is
    not modelled, nor is the limit that some interpreters put on the number
    of digits of an [int] they format (4300, [sys.int_max_str_digits]). *)
Definition py_str (v : pyval) : outcome string :=
  match v with
  | VNone => Return "None"%string
  | VBool true => Return "True"%string
  | VBool false => Return "False"%string
  | VInt n => Return (str_of_Z n)
  | VStr s => Return s
  | _ => Unmodelled
  end.

(** *** binary64 *)

Definition prec : Z := 53.
Definition emax : Z := 1024.

(** An integer as an exact (not yet rounded) operand. *)
Definition float_of_Z (n : Z) : spec_float :=
  match n with
  | Z0 => S754_zero false
  | Zpos p => S754_finite false p 0
  | Zneg p => S754_finite true p 0
  end.

(** [a / b] on [int]s: the correctly rounded quotient. *)
Definition int_true_div (a b : Z) : outcome spec_float :=
  if b =? 0 then Raise ZeroDivisionError
  else
    match SFdiv prec emax (float_of_Z a) (float_of_Z b) with
    | S754_infinity _ => Raise OverflowError
    | x => Return x
    end.

(** [a / b] on values *)
Definition py_true_div (a b : pyval) : outcome spec_float :=
  match a, b with
  | VOpaque, _ | _, VOpaque => Unmodelled
  | VInt x, VInt y => int_true_div x y
  | VInt x, VBool y => int_true_div x (Z_of_bool y)
  | VBool x, VInt y => int_true_div (Z_of_bool x) y
  | VBool x, VBool y => int_true_div (Z_of_bool x) (Z_of_bool y)
  | _, _ => Raise TypeError
  end.

(** [x * k] for a float [x] and an [int] literal [k] *)
Definition float_mul_int (x : spec_float) (k : Z) : spec_float :=
  SFmul prec emax x (float_of_Z k).

(** [int(x)]: truncation towards zero. *)
Definition int_of_float (x : spec_float) : outcome Z :=
  match x with
  | S754_zero _ => Return 0
  | S754_finite s m e =>
      let a := if 0 <=? e then Zpos m * 2 ^ e else Zpos m / 2 ^ (- e) in
      Return (if s then - a else a)
  | S754_infinity _ => Raise OverflowError
  | S754_nan => Raise ValueError
  end.

(** ** Files *)

Definition is_empty_string (s : string) : bool :=
  match s with EmptyString => true | _ => false end.

(** [os.path.exists(path)] *)
Definition path_exists (path : string) : M bool :=
  fun w =>
    (Return (negb (is_empty_string path) &&
             match disk w !! path with Some _ => true | None => false end), w).

(** *** Paths at which nothing is found

    The disk is read as the answer of the system at each path. Where it
    finds nothing, what [open] raises depends on the path itself and on what
    is found on the way to it. *)

Definition NUL : ascii := ascii_of_nat 0.

Fixpoint has_nul (s : string) : bool :=
  match s with
  | EmptyString => false
  | String c r => Ascii.eqb c NUL || has_nul r
  end.

(** The longest name and the longest path the system resolves (Linux). *)
Definition NAME_MAX : nat := 255.
Definition PATH_MAX : nat := 4096.

(** The length of the longest of the names that [s] is made of, [cur]
    being the length of the name that is being read. *)
Fixpoint longest_name (cur : nat) (s : string) : nat :=
  match s with
  | EmptyString => cur
  | String c r =>
      if Ascii.eqb c "/" then Nat.max cur (longest_name 0 r)
      else longest_name (S cur) r
  end.

Definition too_long (path : string) : bool :=
  (NAME_MAX <? longest_name 0 path)%nat || (PATH_MAX <=? String.length path)%nat.

Fixpoint has_slash (s : string) : bool :=
  match s with
  | EmptyString => false
  | String c r => Ascii.eqb c "/" || has_slash r
  end.

Fixpoint all_slashes (s : string) : bool :=
  match s with
  | EmptyString => true
  | String c r => Ascii.eqb c "/" && all_slashes r
  end.

(** [p[:p.rfind('/') + 1]] *)
Fixpoint head_part (p : string) : string :=
  match p with
  | EmptyString => EmptyString
  | String c r => if has_slash p then String c (head_part r) else EmptyString
  end.

(** [s.rstrip('/')] *)
Fixpoint rstrip_slash (s : string) : string :=
  match s with
  | EmptyString => EmptyString
  | String c r =>
      match rstrip_slash r with
      | EmptyString => if Ascii.eqb c "/" then EmptyString else String c EmptyString
      | r' => String c r'
      end
  end.

(** [os.path.dirname(p)] (POSIX): the directory a path is looked up in. *)
Definition dirname (p : string) : string :=
  let head := head_part p in
  if all_slashes head then head else rstrip_slash head.

(** A path made of nothing but [/], [.] and [..]: the current directory,
    the root, and the directories above. They always exist. *)
Fixpoint always_dir_from (dots : nat) (s : string) : bool :=
  match s with
  | EmptyString => true
  | String c r =>
      if Ascii.eqb c "/" then always_dir_from 0 r
      else if Ascii.eqb c "." then (dots <? 2)%nat && always_dir_from (S dots) r
      else false
  end.

Definition always_dir (s : string) : bool := always_dir_from 0 s.

(** The names a path is made of, [cur] being the name that is being
    read: [a/b] gives [a] and [b], a [/] at either end an empty name. *)
Fixpoint names (cur s : string) : list string :=
  match s with
  | EmptyString => [cur]
  | String c r =>
      if Ascii.eqb c "/" then cur :: names EmptyString r
      else names (cur +:+ String c EmptyString) r
  end.

(** Names that say where they lead without a look at the disk: none is
    empty or [.], [..] only stands where nothing but [..] stands before it
    ([above]), and the last one is the name of a file. *)
Fixpoint plain_names (above : bool) (l : list string) : bool :=
  match l with
  | [] => negb above
  | n :: rest =>
      if String.eqb n ".." then above && plain_names true rest
      else negb (is_empty_string n) && negb (String.eqb n ".") && plain_names false rest
  end.

(** A path in its plain form, like [save.json], [saves/pet.json],
    [../saves/pet.json] or [/tmp/pet.json]. Of a path in another form
    ([./save.json], [saves//pet.json], [saves/../pet.json]) a key that is
    missing from the disk does not tell that nothing is there, since the
    file may stand under its plain name. *)
Definition plain (path : string) : bool :=
  match names EmptyString path with
  | EmptyString :: (_ :: _) as rest => plain_names false rest
  | l => plain_names true l
  end.

(** Whether [seen ++ rest] runs through a regular file: a part of it that
    ends before a [/] is found to be a file. *)
Fixpoint through_file (d : gmap string node) (seen rest : string) : bool :=
  match rest with
  | EmptyString => false
  | String c r =>
      (Ascii.eqb c "/" &&
       match d !! seen with Some (File _) => true | _ => false end)
      || through_file d (seen +:+ String c EmptyString) r
  end.

(** What [open] raises at a path where nothing is found: [ValueError] for
    a NUL character (raised before the system is asked), [OSError] for a
    name that is too long, [NotADirectoryError] for a path through a regular
    file, [FileNotFoundError] otherwise, when the path is plain. *)
Definition absent_error (d : gmap string node) (path : string) : option exn :=
  if has_nul path then Some ValueError
  else if too_long path then Some OSError
  else if through_file d EmptyString path then Some NotADirectoryError
  else if plain path then Some FileNotFoundError
  else None.

Definition refuse {A} (d : gmap string node) (path : string) : outcome A :=
  match absent_error d path with
  | Some e => Raise e
  | None => Unmodelled
  end.

(** [open(path, 'r' or 'rb')] and [f.read()]: the bytes of the file. *)
Definition read_bytes (path : string) : M string :=
  fun w =>
    if is_empty_string path then (Raise FileNotFoundError, w)
    else
      match disk w !! path with
      | None => (refuse (disk w) path, w)
      | Some Dir => (Raise IsADirectoryError, w)
      | Some (File c) => (Return c, w)
      end.

(** What the system answers when a file is to be made in the directory
    [dir]. *)
Definition directory (d : gmap string node) (dir : string) : outcome unit :=
  if always_dir dir then Return tt
  else
    match d !! dir with
    | Some Dir => Return tt
    | Some (File _) => Raise NotADirectoryError
    | None => refuse d dir
    end.

(** What [open(path, 'w')] answers at a path where nothing is found: the
    file is made when its directory exists. *)
Definition create (d : gmap string node) (path : string) : outcome unit :=
  if has_nul path then Raise ValueError
  else if too_long path then Raise OSError
  else if negb (plain path) then Unmodelled
  else directory d (dirname path).

(** [open(path, 'w')]: the file is created or truncated. *)
Definition open_write (path : string) : M unit :=
  fun w =>
    if is_empty_string path then (Raise FileNotFoundError, w)
    else
      match disk w !! path with
      | Some Dir => (Raise IsADirectoryError, w)
      | Some (File _) =>
          (Return tt, World (heap w) (<[path := File EmptyString]> (disk w)) (out w))
      | None =>
          match create (disk w) path with
          | Return _ =>
              (Return tt, World (heap w) (<[path := File EmptyString]> (disk w)) (out w))
          | Raise e => (Raise e, w)
          | Unmodelled => (Unmodelled, w)
          end
      end.

(** [f.write(text)] on the file opened at [path] *)
Definition write (path text : string) : M unit :=
  fun w =>
    match disk w !! path with
    | Some (File c) =>
        (Return tt, World (heap w) (<[path := File (c +:+ text)]> (disk w)) (out w))
    | _ => (Unmodelled, w)
    end.

(** *** UTF-8 *)

Definition byte_in (c : ascii) (lo hi : N) : bool :=
  (lo <=? N_of_ascii c)%N && (N_of_ascii c <=? hi)%N.

Definition cont_byte (c : ascii) : bool := byte_in c 128 191.

Definition lead3 (b0 b1 : ascii) : bool :=
  (byte_in b0 224 224 && byte_in b1 160 191)
  || (byte_in b0 225 236 && cont_byte b1)
  || (byte_in b0 237 237 && byte_in b1 128 159)
  || (byte_in b0 238 239 && cont_byte b1).

Definition lead4 (b0 b1 : ascii) : bool :=
  (byte_in b0 240 240 && byte_in b1 144 191)
  || (byte_in b0 241 243 && cont_byte b1)
  || (byte_in b0 244 244 && byte_in b1 128 143).

(** Well-formed UTF-8 (no overlong forms, no surrogates, at most U+10FFFF):
    exactly the byte strings that are the encoding of a [str] a text file
    can hold. *)
Fixpoint valid_utf8 (s : string) : bool :=
  match s with
  | EmptyString => true
  | String b0 r0 =>
      if byte_in b0 0 127 then valid_utf8 r0
      else
        match r0 with
        | String b1 r1 =>
            if byte_in b0 194 223 then cont_byte b1 && valid_utf8 r1
            else
              match r1 with
              | String b2 r2 =>
                  if lead3 b0 b1 then cont_byte b2 && valid_utf8 r2
                  else
                    match r2 with
                    | String b3 r3 =>
                        lead4 b0 b1 && cont_byte b2 && cont_byte b3 && valid_utf8 r3
                    | EmptyString => false
                    end
              | EmptyString => false
              end
        | EmptyString => false
        end
  end.

(** [open(path, 'r', encoding='utf-8')] and [f.read()] *)
Definition read_text (path : string) : M string :=
  bytes <- read_bytes path ;;
  if valid_utf8 bytes then ret bytes else raise UnicodeDecodeError.

(** *** [os.path.join] (POSIX) *)

Fixpoint ends_with_slash (s : string) : bool :=
  match s with
  | EmptyString => false
  | String c EmptyString => Ascii.eqb c "/"
  | String _ r => ends_with_slash r
  end.

Definition path_join (a b : string) : string :=
  if starts_with "/" b then b
  else if is_empty_string a || ends_with_slash a then a +:+ b
  else a +:+ "/" +:+ b.

(** *** [base64.b64encode] *)

Definition b64_alphabet : string :=
  "ABCDEFGHIJKLMNOPQRSTUVWXYZabcdefghijklmnopqrstuvwxyz0123456789+/".

Definition b64_digit (n : N) : ascii :=
  match String.get (N.to_nat n) b64_alphabet with
  | Some c => c
  | None => "="%char
  end.

Fixpoint b64encode (s : string) : string :=
  match s with
  | EmptyString => EmptyString
  | String a EmptyString =>
      let x := N_of_ascii a in
      String (b64_digit (N.shiftr x 2))
        (String (b64_digit (N.shiftl (N.land x 3) 4)) "==")
  | String a (String b EmptyString) =>
      let x := N_of_ascii a in
      let y := N_of_ascii b in
      String (b64_digit (N.shiftr x 2))
        (String (b64_digit (N.lor (N.shiftl (N.land x 3) 4) (N.shiftr y 4)))
           (String (b64_digit (N.shiftl (N.land y 15) 2)) "="))
  | String a (String b (String c r)) =>
      let x := N_of_ascii a in
      let y := N_of_ascii b in
      let z := N_of_ascii c in
      String (b64_digit (N.shiftr x 2))
        (String (b64_digit (N.lor (N.shiftl (N.land x 3) 4) (N.shiftr y 4)))
           (String (b64_digit (N.lor (N.shiftl (N.land y 15) 2) (N.shiftr z 6)))
              (String (b64_digit (N.land z 63)) (b64encode r))))
  end.

(** ** The [json] module, as far as [save_pet] and [load_pet] use it

    [json.dump(obj, f, ensure_ascii=False, indent=2)] and [json.load(f)] of
    CPython, on the values of [pyval]. Floats are not values of the model:
    a document that holds one is answered with [Unsupported]. *)

Module json.

Definition backslash : ascii := ascii_of_nat 92.

Definition hex_digit (n : N) : ascii :=
  match String.get (N.to_nat n) "0123456789abcdef" with
  | Some c => c
  | None => "0"%char
  end.

(** [ESCAPE_DCT] of [json.encoder]: the replacement of one character by
    [py_encode_basestring] (the encoder used with [ensure_ascii=False]). *)
Definition escape_char (c : ascii) : string :=
  let n := N_of_ascii c in
  if Ascii.eqb c dquote then String backslash (String dquote EmptyString)
  else if Ascii.eqb c backslash then String backslash (String backslash EmptyString)
  else if (n =? 10)%N then String backslash "n"
  else if (n =? 13)%N then String backslash "r"
  else if (n =? 9)%N then String backslash "t"
  else if (n =? 8)%N then String backslash "b"
  else if (n =? 12)%N then String backslash "f"
  else if (n <? 32)%N then
    String backslash
      (String "u" (String "0" (String "0"
         (String (hex_digit (n / 16)) (String (hex_digit (n mod 16)) EmptyString)))))
  else String c EmptyString.

Fixpoint escape (s : string) : string :=
  match s with
  | EmptyString => EmptyString
  | String c r => escape_char c +:+ escape r
  end.

Definition encode_basestring (s : string) : string :=
  String dquote (escape s +:+ String dquote EmptyString).

Fixpoint spaces (n : nat) : string :=
  match n with
  | O => EmptyString
  | S n' => "  " +:+ spaces n'
  end.

(** [newline_indent = '\n' + _indent * _current_indent_level] *)
Definition newline_indent (level : nat) : string := nl +:+ spaces level.

(** The loop over the items of a list: the text produced and whether every
    item could be encoded. When an item cannot, the text is what the
    generator had yielded before [TypeError] was raised. *)
Fixpoint encode_items (enc : pyval -> string * bool) (separator : string)
    (first : bool) (l : list pyval) : string * bool :=
  match l with
  | [] => (EmptyString, true)
  | x :: rest =>
      let buf := if first then EmptyString else separator in
      let (sx, okx) := enc x in
      if okx then
        let (sr, okr) := encode_items enc separator false rest in
        (buf +:+ sx +:+ sr, okr)
      else (buf +:+ sx, false)
  end.

(** The loop over the items of a dict. *)
Fixpoint encode_pairs (enc : pyval -> string * bool) (separator : string)
    (first : bool) (d : list (string * pyval)) : string * bool :=
  match d with
  | [] => (EmptyString, true)
  | (k, x) :: rest =>
      let buf := if first then EmptyString else separator in
      let (sx, okx) := enc x in
      if okx then
        let (sr, okr) := encode_pairs enc separator false rest in
        (buf +:+ encode_basestring k +:+ ": " +:+ sx +:+ sr, okr)
      else (buf +:+ encode_basestring k +:+ ": " +:+ sx, false)
  end.

(** [_iterencode(o, level)], its chunks joined. *)
Fixpoint encode (level : nat) (v : pyval) : string * bool :=
  match v with
  | VNone => ("null"%string, true)
  | VBool true => ("true"%string, true)
  | VBool false => ("false"%string, true)
  | VInt n => (str_of_Z n, true)
  | VStr s => (encode_basestring s, true)
  | VList [] => ("[]"%string, true)
  | VList l =>
      let (body, ok) :=
        encode_items (encode (S level)) ("," +:+ newline_indent (S level)) true l in
      if ok then ("[" +:+ newline_indent (S level) +:+ body +:+ newline_indent level +:+ "]", true)
      else ("[" +:+ newline_indent (S level) +:+ body, false)
  | VDict [] => ("{}"%string, true)
  | VDict d =>
      let (body, ok) :=
        encode_pairs (encode (S level)) ("," +:+ newline_indent (S level)) true d in
      if ok then ("{" +:+ newline_indent (S level) +:+ body +:+ newline_indent level +:+ "}", true)
      else ("{" +:+ newline_indent (S level) +:+ body, false)
  | VOpaque => (EmptyString, false)
  end.

(** *** Decoding *)

Inductive parsed (A : Type) : Type :=
| Parsed (a : A) (rest : string)
| Malformed
    (* JSONDecodeError *)
| Unsupported.
    (* a float or a lone surrogate in the document (or no fuel left) *)
Arguments Parsed {A} a rest.
Arguments Malformed {A}.
Arguments Unsupported {A}.

Definition parsed_map {A B} (f : A -> B) (p : parsed A) : parsed B :=
  match p with
  | Parsed a rest => Parsed (f a) rest
  | Malformed => Malformed
  | Unsupported => Unsupported
  end.

(** [WHITESPACE = [ \t\n\r]*] *)
Definition is_ws (c : ascii) : bool :=
  let n := N_of_ascii c in
  (n =? 32)%N || (n =? 9)%N || (n =? 10)%N || (n =? 13)%N.

Fixpoint skip_ws (s : string) : string :=
  match s with
  | EmptyString => EmptyString
  | String c r => if is_ws c then skip_ws r else s
  end.

Definition hex_value (c : ascii) : option N :=
  let n := N_of_ascii c in
  if (48 <=? n)%N && (n <=? 57)%N then Some (n - 48)%N
  else if (97 <=? n)%N && (n <=? 102)%N then Some (n - 87)%N
  else if (65 <=? n)%N && (n <=? 70)%N then Some (n - 55)%N
  else None.

(** The four hexadecimal digits of a [\uXXXX] escape. *)
Definition hex4 (a b c d : ascii) : option N :=
  match hex_value a, hex_value b, hex_value c, hex_value d with
  | Some x, Some y, Some z, Some t => Some (((x * 16 + y) * 16 + z) * 16 + t)%N
  | _, _, _, _ => None
  end.

(** [chr(cp)], as UTF-8 *)
Definition utf8_encode (cp : N) : string :=
  if (cp <? 128)%N then String (ascii_of_N cp) EmptyString
  else if (cp <? 2048)%N then
    String (ascii_of_N (192 + cp / 64))
      (String (ascii_of_N (128 + cp mod 64)) EmptyString)
  else if (cp <? 65536)%N then
    String (ascii_of_N (224 + cp / 4096))
      (String (ascii_of_N (128 + (cp / 64) mod 64))
         (String (ascii_of_N (128 + cp mod 64)) EmptyString))
  else
    String (ascii_of_N (240 + cp / 262144))
      (String (ascii_of_N (128 + (cp / 4096) mod 64))
         (String (ascii_of_N (128 + (cp / 64) mod 64))
            (String (ascii_of_N (128 + cp mod 64)) EmptyString))).

Definition is_high_surrogate (cp : N) : bool := (55296 <=? cp)%N && (cp <=? 56319)%N.
Definition is_low_surrogate (cp : N) : bool := (56320 <=? cp)%N && (cp <=? 57343)%N.

(** [BACKSLASH] of [json.decoder] *)
Definition unescape (c : ascii) : option ascii :=
  if Ascii.eqb c dquote then Some dquote
  else if Ascii.eqb c backslash then Some backslash
  else if Ascii.eqb c "/" then Some "/"%char
  else if Ascii.eqb c "b" then Some (ascii_of_nat 8)
  else if Ascii.eqb c "f" then Some (ascii_of_nat 12)
  else if Ascii.eqb c "n" then Some (ascii_of_nat 10)
  else if Ascii.eqb c "r" then Some (ascii_of_nat 13)
  else if Ascii.eqb c "t" then Some (ascii_of_nat 9)
  else None.

Definition prepend (pre : string) (p : parsed string) : parsed string :=
  parsed_map (String.append pre) p.

(** [scanstring(s, end, strict=True)]: [s] is the text after the opening
    quote. A lone surrogate is a character no [string] of the model holds. *)
Fixpoint scanstring (s : string) : parsed string :=
  match s with
  | EmptyString => Malformed
  | String c r =>
      if Ascii.eqb c dquote then Parsed EmptyString r
      else if Ascii.eqb c backslash then
        match r with
        | EmptyString => Malformed
        | String e r1 =>
            if Ascii.eqb e "u" then
              match r1 with
              | String h1 (String h2 (String h3 (String h4 r5))) =>
                  match hex4 h1 h2 h3 h4 with
                  | None => Malformed
                  | Some cp =>
                      if is_high_surrogate cp then
                        match r5 with
                        | String b (String u r7) =>
                            if Ascii.eqb b backslash && Ascii.eqb u "u" then
                              match r7 with
                              | String k1 (String k2 (String k3 (String k4 r11))) =>
                                  match hex4 k1 k2 k3 k4 with
                                  | None => Malformed
                                  | Some cp2 =>
                                      if is_low_surrogate cp2 then
                                        prepend
                                          (utf8_encode
                                             (65536 + (cp - 55296) * 1024 + (cp2 - 56320)))
                                          (scanstring r11)
                                      else Unsupported
                                  end
                              | _ => Malformed
                              end
                            else Unsupported
                        | _ => Unsupported
                        end
                      else if is_low_surrogate cp then Unsupported
                      else prepend (utf8_encode cp) (scanstring r5)
                  end
              | _ => Malformed
              end
            else
              match unescape e with
              | Some ch => prepend (String ch EmptyString) (scanstring r1)
              | None => Malformed
              end
        end
      else if (N_of_ascii c <? 32)%N then Malformed
      else prepend (String c EmptyString) (scanstring r)
  end.

Definition digit_of_char (c : ascii) : option (uint -> uint) :=
  match c with
  | "0"%char => Some D0
  | "1"%char => Some D1
  | "2"%char => Some D2
  | "3"%char => Some D3
  | "4"%char => Some D4
  | "5"%char => Some D5
  | "6"%char => Some D6
  | "7"%char => Some D7
  | "8"%char => Some D8
  | "9"%char => Some D9
  | _ => None
  end.

Definition is_digit (c : ascii) : bool :=
  match digit_of_char c with Some _ => true | None => false end.

(** The longest run of digits at the head of [s]. *)
Fixpoint scan_digits (s : string) : uint * string :=
  match s with
  | EmptyString => (Nil, EmptyString)
  | String c r =>
      match digit_of_char c with
      | Some d => let (u, rest) := scan_digits r in (d u, rest)
      | None => (Nil, s)
      end
  end.

(** Whether the text after the integer part goes on with a fraction
    [\.[0-9]+] or an exponent [[eE][-+]?[0-9]+]: the number is a float. *)
Definition float_tail (s : string) : bool :=
  match s with
  | String c (String d r) =>
      if Ascii.eqb c "." then is_digit d
      else if Ascii.eqb c "e" || Ascii.eqb c "E" then
        is_digit d
        || ((Ascii.eqb d "+" || Ascii.eqb d "-")
            && match r with String d' _ => is_digit d' | EmptyString => false end)
      else false
  | _ => false
  end.

(** [NUMBER_RE] matched at the head of [s]: an optional minus sign, then
    either a single zero or a digit from one to nine followed by digits,
    then an optional fraction and an optional exponent. *)
Definition scan_number (s : string) : parsed pyval :=
  let (negative, s1) :=
    match s with
    | String c r => if Ascii.eqb c "-" then (true, r) else (false, s)
    | EmptyString => (false, s)
    end in
  match s1 with
  | EmptyString => Malformed
  | String c r =>
      if negb (is_digit c) then Malformed
      else
        let (u, rest) := if Ascii.eqb c "0" then (D0 Nil, r) else scan_digits s1 in
        if float_tail rest then Unsupported
        else Parsed (VInt (if negative then - Z.of_uint u else Z.of_uint u)) rest
  end.

Fixpoint drop (n : nat) (s : string) : string :=
  match n, s with
  | S n', String _ r => drop n' r
  | _, _ => s
  end.

(** [dict(pairs)]: of two entries with one key the later value stays, at the
    place of the first. *)
Definition dict_of_pairs (pairs : dict) : dict := dict_update [] pairs.

(** [scan_once], [JSONArray] and [JSONObject] of [json.decoder]. The
    recursion of the source is on the document; [fuel] bounds it here. *)
Fixpoint scan_once (fuel : nat) (s : string) : parsed pyval :=
  match fuel with
  | O => Unsupported
  | S fuel' =>
      match s with
      | EmptyString => Malformed
      | String c r =>
          if Ascii.eqb c dquote then parsed_map VStr (scanstring r)
          else if Ascii.eqb c "{" then
            match skip_ws r with
            | String c' r' =>
                if Ascii.eqb c' "}" then Parsed (VDict []) r'
                else if Ascii.eqb c' dquote then
                  parsed_map (fun pairs => VDict (dict_of_pairs pairs))
                    (object_items fuel' r')
                else Malformed
            | EmptyString => Malformed
            end
          else if Ascii.eqb c "[" then
            match skip_ws r with
            | String c' r' =>
                if Ascii.eqb c' "]" then Parsed (VList []) r'
                else parsed_map VList (array_items fuel' (String c' r'))
            | EmptyString => Malformed
            end
          else if starts_with "null" s then Parsed VNone (drop 4 s)
          else if starts_with "true" s then Parsed (VBool true) (drop 4 s)
          else if starts_with "false" s then Parsed (VBool false) (drop 5 s)
          else
            match scan_number s with
            | Malformed =>
                if starts_with "NaN" s || starts_with "Infinity" s
                   || starts_with "-Infinity" s
                then Unsupported else Malformed
            | other => other
            end
      end
  end

(** [s] is at the first character of an item. *)
with array_items (fuel : nat) (s : string) : parsed (list pyval) :=
  match fuel with
  | O => Unsupported
  | S fuel' =>
      match scan_once fuel' s with
      | Parsed v rest =>
          match skip_ws rest with
          | String c r =>
              if Ascii.eqb c "]" then Parsed [v] r
              else if Ascii.eqb c "," then
                parsed_map (cons v) (array_items fuel' (skip_ws r))
              else Malformed
          | EmptyString => Malformed
          end
      | Malformed => Malformed
      | Unsupported => Unsupported
      end
  end

(** [s] is the text after the opening quote of a key. *)
with object_items (fuel : nat) (s : string) : parsed dict :=
  match fuel with
  | O => Unsupported
  | S fuel' =>
      match scanstring s with
      | Parsed key rest =>
          match skip_ws rest with
          | String c r =>
              if Ascii.eqb c ":" then
                match scan_once fuel' (skip_ws r) with
                | Parsed v rest' =>
                    match skip_ws rest' with
                    | String c' r' =>
                        if Ascii.eqb c' "}" then Parsed [(key, v)] r'
                        else if Ascii.eqb c' "," then
                          match skip_ws r' with
                          | String c'' r'' =>
                              if Ascii.eqb c'' dquote then
                                parsed_map (cons (key, v)) (object_items fuel' r'')
                              else Malformed
                          | EmptyString => Malformed
                          end
                        else Malformed
                    | EmptyString => Malformed
                    end
                | Malformed => Malformed
                | Unsupported => Unsupported
                end
              else Malformed
          | EmptyString => Malformed
          end
      | Malformed => Malformed
      | Unsupported => Unsupported
      end
  end.

(** [json.loads(s)]: one value, white space around it, nothing else. *)
Definition loads (s : string) : parsed pyval :=
  match scan_once (2 * String.length s + 2) (skip_ws s) with
  | Parsed v rest =>
      match skip_ws rest with
      | EmptyString => Parsed v EmptyString
      | String _ _ => Malformed
      end
  | other => other
  end.

(** *** The limits of the interpreter

    An [int] of more than 4300 digits is neither written nor read
    ([sys.int_max_str_digits], [ValueError]), and a document nested too deep
    exhausts the stack ([RecursionError]), at a depth that depends on the
    caller. The model follows the encoder and the decoder on texts that stay
    clear of both: no run of more than [MAX_DIGITS] digits, and no more
    than [MAX_BRACKETS] opening brackets in all. *)

Definition MAX_DIGITS : nat := 4300.
Definition MAX_BRACKETS : nat := 200.

(** No run of more than [MAX_DIGITS] digits, [run] being the length of the
    run that is being read. *)
Fixpoint digit_runs_ok (run : nat) (s : string) : bool :=
  match s with
  | EmptyString => true
  | String c r =>
      if is_digit c then (run <? MAX_DIGITS)%nat && digit_runs_ok (S run) r
      else digit_runs_ok 0 r
  end.

Fixpoint brackets (s : string) : nat :=
  match s with
  | EmptyString => O
  | String c r =>
      if Ascii.eqb c "[" || Ascii.eqb c "{" then S (brackets r) else brackets r
  end.

Definition within_limits (s : string) : bool :=
  digit_runs_ok 0 s && (brackets s <=? MAX_BRACKETS)%nat.

End json.

(** [json.dump(obj, f, ensure_ascii=False, indent=2)] on the file opened for
    writing at [path]. *)
Definition json_dump (obj : pyval) (path : string) : M unit :=
  let (text, complete) := json.encode 0 obj in
  if valid_utf8 text && json.within_limits text then
    write path text ;;
    if complete then ret tt else raise TypeError
  else unmodelled.

(** [json.load(f)] on the file at [path] opened for reading as UTF-8 text. *)
Definition json_load (path : string) : M pyval :=
  text <- read_text path ;;
  if json.within_limits text then
    match json.loads text with
    | json.Parsed v _ => ret v
    | json.Malformed => raise JSONDecodeError
    | json.Unsupported => unmodelled
    end
  else unmodelled.

(** [l[-n:]] *)
Definition last_n {A} (n : nat) (l : list A) : list A :=
  skipn (length l - n) l.

(** ** More of [str] *)

Fixpoint string_skip (n : nat) (s : string) : string :=
  match n, s with
  | S n', String _ r => string_skip n' r
  | _, _ => s
  end.

(** [s.endswith(suffix)] *)
Definition ends_with (suffix s : string) : bool :=
  (String.length suffix <=? String.length s)%nat
  && String.eqb (string_skip (String.length s - String.length suffix) s) suffix.

(** [s[:n]]: the first [n] characters of the text [s]. A character is a
    byte that is not a continuation byte, together with the continuation
    bytes that follow it. *)
Fixpoint take_chars (n : nat) (s : string) : string :=
  match s with
  | EmptyString => EmptyString
  | String c r =>
      if cont_byte c then String c (take_chars n r)
      else
        match n with
        | O => EmptyString
        | S n' => String c (take_chars n' r)
        end
  end.

(** ** Time and the display surface

    [time.sleep] and [clear_output] change neither the store nor the disk,
    and what they do is not an output: they are recorded, in between the
    outputs, on the [timeline] of a [stage]. *)

(** The argument of [time.sleep]: an [int] or a [float]. *)
Inductive number : Type :=
| IntNum (n : Z)
| FloatNum (x : spec_float).

Inductive action : Type :=
| Output (ev : event)
| Sleep (seconds : number)
    (* time.sleep(seconds) *)
| ClearOutput (wait : bool).
    (* clear_output(wait=wait) *)

Record stage : Type := Stage {
  scene : world;
  timeline : list action
}.

Definition Timed (A : Type) : Type := stage -> outcome A * stage.

Definition tret {A} (a : A) : Timed A := fun s => (Return a, s).

Definition tbind {A B} (m : Timed A) (k : A -> Timed B) : Timed B :=
  fun s =>
    match m s with
    | (Return a, s') => k a s'
    | (Raise e, s') => (Raise e, s')
    | (Unmodelled, s') => (Unmodelled, s')
    end.

Declare Scope timed_scope.
Delimit Scope timed_scope with timed.
Notation "x <- c1 ;; c2" := (tbind c1 (fun x => c2))
  (at level 100, c1 at next level, right associativity) : timed_scope.
Notation "c1 ;; c2" := (tbind c1 (fun _ => c2))
  (at level 100, right associativity) : timed_scope.

Definition log_action (a : action) : Timed unit :=
  fun s => (Return tt, Stage (scene s) (timeline s ++ [a])).

(** A computation on the world, on the stage: the outputs it adds to the
    world go onto the timeline (a computation only ever adds to [out]). *)
Definition perform {A} (m : M A) : Timed A :=
  fun s =>
    let (r, w') := m (scene s) in
    (r, Stage w' (timeline s ++ map Output (skipn (length (out (scene s))) (out w')))).

(** Whether the magnitude of the finite float [m * 2 ^ e] is below [2 ^ k]. *)
Definition magnitude_below (m : positive) (e k : Z) : bool :=
  if 0 <=? e - k then false
  else Zpos m <? 2 ^ (k - e).

(** [time.sleep(seconds)]. CPython turns the argument into a whole number of
    nanoseconds that must fit in 64 bits, then refuses a negative one. Two
    edges depend on the version of the interpreter and are left out: the
    magnitudes from [2 ^ 33] seconds on (about the bound of the 64 bits, NaN
    and the infinities included) and the negative floats above [- 2 ^ -29]
    (rounded to zero or to minus one nanosecond). *)
Definition time_sleep (seconds : number) : Timed unit :=
  match seconds with
  | IntNum n =>
      if Z.abs n <? 2 ^ 33 then
        if n <? 0 then fun s => (Raise ValueError, s)
        else log_action (Sleep seconds)
      else fun s => (Unmodelled, s)
  | FloatNum (S754_zero _) => log_action (Sleep seconds)
  | FloatNum (S754_finite sign m e) =>
      if magnitude_below m e 33 then
        if sign then
          if magnitude_below m e (-29) then fun s => (Unmodelled, s)
          else fun s => (Raise ValueError, s)
        else log_action (Sleep seconds)
      else fun s => (Unmodelled, s)
  | FloatNum _ => fun s => (Unmodelled, s)
  end.

(** [clear_output(wait=wait)] *)
Definition clear_output (wait : bool) : Timed unit := log_action (ClearOutput wait).

(** [for x in l: body(x)] *)
Fixpoint for_each {A} (l : list A) (body : A -> Timed unit) : Timed unit :=
  match l with
  | [] => tret tt
  | x :: rest => (body x ;; for_each rest body)%timed
  end.

(** The floats [0.5] and [2.0], the default pauses of the library. *)
Definition half_second : number := FloatNum (S754_finite false 4503599627370496 (-53)).
Definition two_seconds : number := FloatNum (S754_finite false 4503599627370496 (-51)).

(** ** [src/v5.0/pet_lib.py] *)

Module v5.

Definition ASSETS_DIR : string := path_join "assets" "images".

Definition SOUND_LIBRARY : list (string * string) :=
  [ ("attack", "https://commondatastorage.googleapis.com/codeskulptor-assets/Epoq-Lepidoptera.ogg");
    ("hit", "https://commondatastorage.googleapis.com/codeskulptor-assets/week7-brrring.m4a");
    ("level_up", "https://commondatastorage.googleapis.com/codeskulptor-demos/riceracer_assets/fx/win.ogg");
    ("game_over", "https://commondatastorage.googleapis.com/codeskulptor-assets/Evillaugh.ogg");
    ("bgm", "https://commondatastorage.googleapis.com/codeskulptor-demos/pyman_assets/ateapill.ogg");
    ("heal", "https://commondatastorage.googleapis.com/codeskulptor-demos/riceracer_assets/fx/engine-1.ogg")
  ]%string.

Definition _get_img_path (filename : string) : M (option string) :=
  let path := path_join ASSETS_DIR filename in
  found <- path_exists path ;;
  if found then ret (Some path)
  else
    let path := path_join (path_join (path_join ".." "..") ASSETS_DIR) filename in
    found <- path_exists path ;;
    if found then ret (Some path) else ret None.

Definition _render_html (MODE : mode) (html_content : string) : M unit :=
  match MODE with
  | JUPYTER => emit (DisplayHTML html_content)
  | TERMINAL => ret tt
  end.

Definition RED : string := "#ff4444".
Definition ORANGE : string := "#ffbb33".
Definition GREEN : string := "#00C851".

Definition _get_bar_color (value : pyval) : M string :=
  below <- lift (py_lt_int value 20) ;;
  if below then ret RED
  else
    below <- lift (py_lt_int value 50) ;;
    if below then ret ORANGE else ret GREEN.

Definition image_markup (width img_src : string) : string :=
  lines
    [ EmptyString;
      q "    <div style='display: flex; justify-content: center; align-items: center; width: "
        +:+ width +:+ "px; height: " +:+ width +:+ q "px; overflow: hidden;'>";
      q "        <img src='" +:+ img_src
        +:+ q "' style='max-width: 100%; max-height: 100%; object-fit: contain;'>";
      "    </div>";
      "    " ].

Definition show_image (MODE : mode) (filename : string) (width : Z) : M unit :=
  match MODE with
  | TERMINAL => print ("[IMAGE] " +:+ filename)
  | JUPYTER =>
      path <- _get_img_path filename ;;
      match path with
      | None => ret tt
      | Some path =>
          img_src <-
            try_except
              (bytes <- read_bytes path ;;
               let encoded := b64encode bytes in
               ret (Some ("data:image/png;base64," +:+ encoded)))
              (fun e => Some (print_exn "Error loading image: " e ;; ret None)) ;;
          match img_src with
          | None => ret tt
          | Some img_src => _render_html MODE (image_markup (str_of_Z width) img_src)
          end
      end
  end.

Definition show_pet (MODE : mode) (mood : pyval) : M unit :=
  match MODE with
  | TERMINAL =>
      m <- lift (py_str mood) ;;
      print ("(^." +:+ m +:+ ".^) [Pet is " +:+ m +:+ "]")
  | JUPYTER =>
      m <- lift (py_str mood) ;;
      show_image MODE (m +:+ ".png") 200
  end.

(** The text of one bar, with its four holes. *)
Definition bar_markup (label value color width : string) : string :=
  lines
    [ EmptyString;
      q "        <div style='margin-bottom: 5px;'>";
      "            <strong>" +:+ label +:+ ":</strong> " +:+ value +:+ "/100";
      q "            <div style='background-color: #ddd; border-radius: 5px; height: 10px; width: 100%;'>";
      q "                <div style='background-color: " +:+ color +:+ "; width: " +:+ width
        +:+ q "%; height: 100%; border-radius: 5px;'></div>";
      "            </div>";
      "        </div>";
      "        " ].

Definition title_markup (name : string) : string :=
  q "<h3 style='margin: 0 0 10px 0; text-align: center;'>🍱 " +:+ name +:+ "</h3>".

Definition container_markup (content_html : string) : string :=
  lines
    [ EmptyString;
      q "    <div style='border: 2px solid #333; border-radius: 10px; padding: 10px; width: 300px; background-color: #f0f0f0; font-family: Arial, sans-serif;'>";
      "        " +:+ content_html;
      "    </div>";
      "    " ].

Definition _create_bar_html (label : string) (value : pyval) : M string :=
  color <- _get_bar_color value ;;
  shown <- lift (py_str value) ;;
  clipped <- lift (py_min_with_int value 100) ;;
  width <- lift (py_str clipped) ;;
  ret (bar_markup label shown color width).

Definition show_stats (MODE : mode) (name hp hunger happiness : pyval) : M unit :=
  match MODE with
  | TERMINAL =>
      n <- lift (py_str name) ;;
      print ("--- " +:+ n +:+ " ---") ;;
      h <- lift (py_str hp) ;;
      print ("HP: " +:+ h +:+ "/100") ;;
      g <- lift (py_str hunger) ;;
      print ("Hunger: " +:+ g +:+ "/100") ;;
      match happiness with
      | VNone => ret tt
      | _ =>
          s <- lift (py_str happiness) ;;
          print ("Happy: " +:+ s +:+ "/100")
      end
  | JUPYTER =>
      n <- lift (py_str name) ;;
      let content_html := title_markup n in
      bar <- _create_bar_html "HP" hp ;;
      let content_html := content_html +:+ bar in
      bar <- _create_bar_html "Hunger" hunger ;;
      let content_html := content_html +:+ bar in
      content_html <-
        match happiness with
        | VNone => ret content_html
        | _ =>
            bar <- _create_bar_html "Happiness" happiness ;;
            ret (content_html +:+ bar)
        end ;;
      _render_html MODE (container_markup content_html)
  end.

Definition default (o : option pyval) (d : pyval) : pyval :=
  match o with Some v => v | None => d end.

(** [create_pet(name, hp=100, hunger=50, mood="normal", **kwargs)]; an
    argument left out is [None] here, and [kwargs] holds the keyword
    arguments other than the four named ones (Python binds those to the
    parameters). *)
Definition create_pet (name : pyval) (hp hunger mood : option pyval) (kwargs : dict)
    : M loc :=
  pet_data <-
    alloc [ ("name"%string, name);
            ("hp"%string, default hp (VInt 100));
            ("hunger"%string, default hunger (VInt 50));
            ("mood"%string, default mood (VStr "normal")) ] ;;
  update_in_place pet_data kwargs ;;
  ret pet_data.

Definition show_pet_dict (MODE : mode) (pet_data : loc) : M unit :=
  name <- get pet_data "name" (VStr "Unknown") ;;
  hp <- get pet_data "hp" (VInt 0) ;;
  hunger <- get pet_data "hunger" (VInt 0) ;;
  happiness <- get pet_data "happiness" VNone ;;
  mood <- get pet_data "mood" (VStr "normal") ;;
  show_pet MODE mood ;;
  show_stats MODE name hp hunger happiness.

Definition save_pet (pet_data : loc) (filename : string) : M unit :=
  try_except
    (open_write filename ;;
     d <- deref pet_data ;;
     json_dump (VDict d) filename ;;
     print ("✅ 寵物資料已儲存到 " +:+ filename))
    (fun e => Some (print_exn "❌ 儲存失敗: " e)).

Definition load_pet (filename : string) : M pyval :=
  try_except
    (data <- json_load filename ;;
     print ("✅ 成功讀取 " +:+ filename) ;;
     ret data)
    (fun e =>
       match e with
       | FileNotFoundError =>
           Some (print ("⚠️ 找不到存檔 " +:+ filename) ;; ret VNone)
       | _ =>
           Some (print_exn "❌ 讀取失敗: " e ;; ret VNone)
       end).

(** [min(100, max(0, int(hp / max_hp * 100)))] *)
Definition hud_percent (hp max_hp : pyval) : M Z :=
  ratio <- lift (py_true_div hp max_hp) ;;
  n <- lift (int_of_float (float_mul_int ratio 100)) ;;
  ret (Z.min 100 (Z.max 0 n)).

Definition hud_markup (name hp_color hp_percent hp max_hp gold : string) : string :=
  lines
    [ EmptyString;
      q "    <div style='background: rgba(0,0,0,0.8); color: white; padding: 10px; border-radius: 10px; display: flex; justify-content: space-between; align-items: center; width: 100%; max-width: 600px;'>";
      q "        <div style='font-weight: bold; font-size: 1.2em;'>👤 " +:+ name +:+ "</div>";
      q "        <div style='flex-grow: 1; margin: 0 20px;'>";
      q "            <div style='background: #333; height: 15px; border-radius: 10px; overflow: hidden;'>";
      q "                <div style='background: " +:+ hp_color +:+ "; width: " +:+ hp_percent
        +:+ q "%; height: 100%;'></div>";
      "            </div>";
      q "            <div style='font-size: 0.8em; text-align: center;'>HP: " +:+ hp +:+ "/"
        +:+ max_hp +:+ "</div>";
      "        </div>";
      q "        <div style='color: gold;'>💰 " +:+ gold +:+ " G</div>";
      "    </div>";
      "    " ].

Definition render_hud (MODE : mode) (player : loc) : M unit :=
  match MODE with
  | TERMINAL =>
      print "--- HUD ---" ;;
      name <- get player "name" (VStr "Player") ;;
      name <- lift (py_str name) ;;
      hp <- get player "hp" (VInt 0) ;;
      hp <- lift (py_str hp) ;;
      max_hp <- get player "max_hp" (VInt 100) ;;
      max_hp <- lift (py_str max_hp) ;;
      gold <- get player "gold" (VInt 0) ;;
      gold <- lift (py_str gold) ;;
      print (name +:+ " | HP: " +:+ hp +:+ "/" +:+ max_hp +:+ " | Gold: " +:+ gold)
  | JUPYTER =>
      name <- get player "name" (VStr "Player") ;;
      hp <- get player "hp" (VInt 100) ;;
      max_hp <- get player "max_hp" (VInt 100) ;;
      gold <- get player "gold" (VInt 0) ;;
      hp_percent <- hud_percent hp max_hp ;;
      let hp_color := if 50 <? hp_percent then GREEN else RED in
      name <- lift (py_str name) ;;
      hp <- lift (py_str hp) ;;
      max_hp <- lift (py_str max_hp) ;;
      gold <- lift (py_str gold) ;;
      _render_html MODE (hud_markup name hp_color (str_of_Z hp_percent) hp max_hp gold)
  end.

Definition card_markup (border bg img_tag name hp_color hp_percent hp max_hp : string)
    : string :=
  lines
    [ EmptyString;
      q "        <div style='border: " +:+ border +:+ "; background: " +:+ bg
        +:+ q "; border-radius: 10px; padding: 10px; width: 45%; display: flex; align-items: center;'>";
      q "            <div style='margin-right: 15px;'>" +:+ img_tag +:+ "</div>";
      q "            <div style='width: 100%;'>";
      q "                <div style='font-weight: bold; font-size: 1.1em; margin-bottom: 5px;'>"
        +:+ name +:+ "</div>";
      q "                <div style='background: #444; height: 10px; border-radius: 5px; width: 100%;'>";
      q "                    <div style='background: " +:+ hp_color +:+ "; width: " +:+ hp_percent
        +:+ q "%; height: 100%; border-radius: 5px;'></div>";
      "                </div>";
      q "                <div style='font-size: 0.8em; margin-top: 2px;'>HP: " +:+ hp +:+ "/"
        +:+ max_hp +:+ "</div>";
      "            </div>";
      "        </div>";
      "        " ].

(** The helper [_create_card] of [show_dashboard]. *)
Definition _create_card (entity : loc) (is_enemy : bool) : M string :=
  d <- deref entity ;;
  match d with
  | [] => ret EmptyString
  | _ =>
      name <- get entity "name" (VStr "Unknown") ;;
      hp <- get entity "hp" (VInt 100) ;;
      max_hp <- get entity "max_hp" (VInt 100) ;;
      mood <- get entity "mood" (VStr "normal") ;;
      mood_s <- lift (py_str mood) ;;
      let img_filename := mood_s +:+ ".png" in
      img_path <- _get_img_path img_filename ;;
      img_tag <-
        match img_path with
        | Some img_path =>
            bytes <- read_bytes img_path ;;
            let b64 := b64encode bytes in
            ret (q "<img src='data:image/png;base64," +:+ b64
                 +:+ q "' style='height: 80px; width: 80px; object-fit: contain;'>")
        | None =>
            ret (q "<div style='height: 80px; width: 80px; background: #ccc; display: flex; align-items: center; justify-content: center;'>"
                 +:+ mood_s +:+ "</div>")
        end ;;
      positive <- lift (py_gt_int max_hp 0) ;;
      hp_percent <-
        (if positive : bool then
           ratio <- lift (py_true_div hp max_hp) ;;
           lift (int_of_float (float_mul_int ratio 100))
         else ret 0) ;;
      let hp_color := if is_enemy then RED else GREEN in
      let border := if is_enemy then "2px solid #ff4444" else "2px solid #00C851" in
      let bg := if is_enemy then "rgba(50, 0, 0, 0.1)" else "rgba(0, 50, 0, 0.1)" in
      name <- lift (py_str name) ;;
      hp <- lift (py_str hp) ;;
      max_hp <- lift (py_str max_hp) ;;
      ret (card_markup border bg img_tag name hp_color (str_of_Z hp_percent) hp max_hp)
  end.

(** What stands in the place of the enemy card when there is no enemy. *)
Definition EMPTY_SLOT : string := q "<div style='width: 45%;'></div>".

Definition log_row (msg : string) : string :=
  q "<div style='border-bottom: 1px solid #eee; padding: 4px;'>" +:+ msg +:+ "</div>".

Definition dashboard_markup (player_card enemy_card log_html : string) : string :=
  lines
    [ EmptyString;
      q "    <div style='font-family: Arial, sans-serif; max-width: 600px; border: 1px solid #ccc; padding: 10px; border-radius: 10px; background: #fff;'>";
      q "        <div style='display: flex; justify-content: space-between; margin-bottom: 15px;'>";
      "            " +:+ player_card;
      "            " +:+ enemy_card;
      "        </div>";
      q "        <div style='background: #f9f9f9; padding: 10px; border-radius: 5px; height: 120px; overflow-y: auto; font-size: 0.9em;'>";
      "            <strong>📜 Battle Log</strong>";
      "            " +:+ log_html;
      "        </div>";
      "    </div>";
      "    " ].

(** [if enemy]: an absent enemy and an empty record are both false. *)
Definition truthy (enemy : option loc) : M bool :=
  match enemy with
  | None => ret false
  | Some l =>
      d <- deref l ;;
      ret (match d with [] => false | _ => true end)
  end.

Fixpoint print_each (prefix : string) (l : list string) : M unit :=
  match l with
  | [] => ret tt
  | x :: rest => print (prefix +:+ x) ;; print_each prefix rest
  end.

Definition show_dashboard (MODE : mode) (player : loc) (enemy : option loc)
    (logs : list string) : M unit :=
  match MODE with
  | TERMINAL =>
      print "--- DASHBOARD ---" ;;
      name <- get player "name" VNone ;;
      name <- lift (py_str name) ;;
      hp <- get player "hp" VNone ;;
      hp <- lift (py_str hp) ;;
      print ("Player: " +:+ name +:+ " | HP: " +:+ hp) ;;
      present <- truthy enemy ;;
      match enemy with
      | Some e =>
          if present : bool then
            name <- get e "name" VNone ;;
            name <- lift (py_str name) ;;
            hp <- get e "hp" VNone ;;
            hp <- lift (py_str hp) ;;
            print ("Enemy: " +:+ name +:+ " | HP: " +:+ hp)
          else ret tt
      | None => ret tt
      end ;;
      print "--- LOGS ---" ;;
      print_each "> " (last_n 3 logs)
  | JUPYTER =>
      player_card <- _create_card player false ;;
      present <- truthy enemy ;;
      enemy_card <-
        match enemy with
        | Some e => if present : bool then _create_card e true else ret EMPTY_SLOT
        | None => ret EMPTY_SLOT
        end ;;
      let log_html := concat_strings (map log_row (rev (last_n 5 logs))) in
      _render_html MODE (dashboard_markup player_card enemy_card log_html)
  end.

Fixpoint join (sep : string) (l : list string) : string :=
  match l with
  | [] => EmptyString
  | [x] => x
  | x :: rest => x +:+ sep +:+ join sep rest
  end.

Fixpoint lookup_sound (lib : list (string * string)) (tag : string) : option string :=
  match lib with
  | [] => None
  | (k, url) :: rest => if String.eqb k tag then Some url else lookup_sound rest tag
  end.

Definition play_sound (MODE : mode) (sound_name : string) : M unit :=
  match MODE with
  | TERMINAL => print ("[SOUND] Playing: " +:+ sound_name)
  | JUPYTER =>
      match lookup_sound SOUND_LIBRARY sound_name with
      | None =>
          print ("⚠️ Unknown sound: " +:+ sound_name) ;;
          print ("Available sounds: " +:+ join ", " (map fst SOUND_LIBRARY))
      | Some url =>
          try_except
            (emit (DisplayAudio url true))
            (fun e => Some (print_exn "❌ Failed to play sound: " e))
      end
  end.

(** *** v1.0: speech bubble and name tag *)

Definition say_markup (name message : string) : string :=
  lines
    [ EmptyString;
      q "    <div style='display: flex; align-items: center; margin-bottom: 10px;'>";
      q "        <div style='font-weight: bold; margin-right: 10px;'>" +:+ name +:+ ":</div>";
      q "        <div style='background-color: #fff; border: 2px solid #333; border-radius: 15px; padding: 8px 15px;'>";
      "            " +:+ message;
      "        </div>";
      "    </div>";
      "    " ].

Definition say (MODE : mode) (name message : string) : M unit :=
  match MODE with
  | TERMINAL => print (name +:+ ": " +:+ message)
  | JUPYTER => _render_html MODE (say_markup name message)
  end.

Definition label_markup (name : string) : string :=
  lines
    [ EmptyString;
      q "    <div style='background-color: #FFEB3B; padding: 5px 15px; border-radius: 15px; border: 3px solid #FBC02D; display: inline-block; font-weight: bold;'>";
      "        Hello, my name is " +:+ name;
      "    </div>";
      "    " ].

Definition set_label (MODE : mode) (name : string) : M unit :=
  match MODE with
  | TERMINAL => print ("[LABEL] Assigned Name: " +:+ name)
  | JUPYTER => _render_html MODE (label_markup name)
  end.

(** *** v3.0: battle log and animation *)

Definition battle_log_markup (log_html : string) : string :=
  lines
    [ EmptyString;
      q "    <div style='font-family: Arial, sans-serif; max-width: 600px; border: 2px solid #333; padding: 10px; border-radius: 10px; background: #f9f9f9;'>";
      q "        <div style='font-weight: bold; margin-bottom: 10px;'>📜 Battle Log</div>";
      q "        <div style='background: #fff; padding: 10px; border-radius: 5px; height: 150px; overflow-y: auto; font-size: 0.9em;'>";
      "            " +:+ log_html;
      "        </div>";
      "    </div>";
      "    " ].

Definition show_battle_log (MODE : mode) (messages : list string) : M unit :=
  match MODE with
  | TERMINAL =>
      print "--- BATTLE LOG ---" ;;
      print_each "> " (last_n 5 messages)
  | JUPYTER =>
      let log_html := concat_strings (map log_row (rev (last_n 10 messages))) in
      _render_html MODE (battle_log_markup log_html)
  end.

Definition show_animation (MODE : mode) (frames : list string) (delay : number)
    : Timed unit :=
  match MODE with
  | TERMINAL =>
      for_each frames (fun frame =>
        perform (print frame) ;;
        time_sleep delay)%timed
  | JUPYTER =>
      for_each frames (fun frame =>
        clear_output true ;;
        (if ends_with ".png" frame || ends_with ".jpg" frame
         then perform (show_image MODE frame 200)
         else perform (print frame)) ;;
        time_sleep delay)%timed
  end.

(** *** v4.0: chat *)

Definition chat_markup 
    (align_items align speaker bg_color margin_left margin_right message : string)
    : string :=
  lines
    [ EmptyString;
      q "    <div style='display: flex; flex-direction: column; align-items: " +:+ align_items +:+ q "; margin-bottom: 10px;'>";
      q "        <div style='font-size: 0.8em; color: #666; margin-bottom: 2px; margin-" +:+ align +:+ q ": 5px;'>" +:+ speaker +:+ "</div>";
      q "        <div style='";
      "            background-color: " +:+ bg_color +:+ "; ";
      "            padding: 8px 12px; ";
      "            border-radius: 15px; ";
      "            max-width: 70%; ";
      "            box-shadow: 1px 1px 2px rgba(0,0,0,0.1);";
      "            margin-left: " +:+ margin_left +:+ ";";
      "            margin-right: " +:+ margin_right +:+ ";";
      "            position: relative;";
      q "        '>";
      "            " +:+ message;
      "        </div>";
      "    </div>";
      "    " ].

Definition show_chat_bubble (MODE : mode) (speaker message : string) (is_user : bool)
    (style : string) : M unit :=
  match MODE with
  | TERMINAL =>
      let prefix := if is_user then "You" else speaker in
      print ("[" +:+ prefix +:+ "]: " +:+ message)
  | JUPYTER =>
      let align := if is_user then "right" else "left" in
      let bg_color :=
        if is_user then "#DCF8C6"
        else if String.eqb style "cute" then "#FFE5F0"
        else if String.eqb style "tech" then "#E3F2FD"
        else if String.eqb style "evil" then "#FFEBEE"
        else "#E8E8E8" in
      let margin_left := if is_user then "auto" else "0" in
      let margin_right := if is_user then "0" else "auto" in
      _render_html MODE
        (chat_markup (if is_user then "flex-end" else "flex-start") align speaker
           bg_color margin_left margin_right message)
  end.

Definition thinking_markup (prompt : string) : string :=
  lines
    [ EmptyString;
      q "    <div style='display: flex; align-items: center; color: #888; margin-bottom: 10px;'>";
      q "        <span style='margin-right: 10px;'>🧠 " +:+ prompt +:+ "</span>";
      q "        <div style='";
      "            width: 10px; height: 10px; background: #888; border-radius: 50%; ";
      q "            animation: pulse 1s infinite;'></div>";
      "    </div>";
      "    <style>";
      "    @keyframes pulse {";
      "        0%, 100% { opacity: 0.3; }";
      "        50% { opacity: 1; }";
      "    }";
      "    </style>";
      "    " ].

Definition show_thinking (MODE : mode) (prompt : string) (thinking_time : number)
    : Timed unit :=
  match MODE with
  | TERMINAL =>
      (perform (print ("Thinking about: '" +:+ prompt +:+ "'...")) ;;
       time_sleep thinking_time)%timed
  | JUPYTER =>
      (perform (_render_html MODE (thinking_markup prompt)) ;;
       time_sleep thinking_time ;;
       clear_output true)%timed
  end.

Definition mindset_markup (personality_text : string) : string :=
  lines
    [ EmptyString;
      q "    <div style='";
      "        border: 2px dashed #9C27B0; ";
      "        background: #F3E5F5; ";
      "        padding: 10px; ";
      "        border-radius: 8px; ";
      "        color: #4A148C; ";
      "        margin-bottom: 10px;";
      q "    '>";
      "        <strong>🧠 System Mindset Loaded:</strong><br>";
      q "        <em>'" +:+ personality_text +:+ q "'</em>";
      "    </div>";
      "    " ].

Definition set_mindset (MODE : mode) (personality_text : string) : M unit :=
  match MODE with
  | TERMINAL =>
      print ("[SYSTEM] Updating Mindset: " +:+ take_chars 20 personality_text +:+ "...")
  | JUPYTER => _render_html MODE (mindset_markup personality_text)
  end.

(** *** v5.0: the finale *)

Definition celebration_html : string :=
  lines
    [ EmptyString;
      q "    <div style='text-align: center; padding: 20px; background: linear-gradient(135deg, #667eea 0%, #764ba2 100%); border-radius: 15px; color: white; font-family: Arial, sans-serif;'>";
      q "        <div style='font-size: 3em; margin-bottom: 10px;'>🎉</div>";
      q "        <div style='font-size: 2em; font-weight: bold; margin-bottom: 10px;'>CONGRATULATIONS!</div>";
      q "        <div style='font-size: 1.2em;'>You did it! 🎊</div>";
      q "        <div style='margin-top: 20px; font-size: 4em;'>";
      "            🏆";
      "        </div>";
      "    </div>";
      "    " ].

Definition celebrate (MODE : mode) : M unit :=
  match MODE with
  | TERMINAL =>
      print "🎉 CONGRATULATIONS! 🎉" ;;
      print "      '._==_==_=_.'     " ;;
      print "      .-\:      /-.    " ;;
      print "     | (|:.     |) |    " ;;
      print "      '-|:.     |-'     " ;;
      print "        \::.    /      " ;;
      print "         '::. .'        " ;;
      print "           ) (          " ;;
      print "         _.' '._        " ;;
      print "[SOUND] Playing level_up sound."
  | JUPYTER =>
      _render_html MODE celebration_html ;;
      play_sound MODE "level_up"
  end.

(** The one line of the template below that holds apostrophes holds no
    double quote, and is written as it is. *)

Definition credits_markup (author_name : string) : string :=
  lines
    [ EmptyString;
      q "    <div style='";
      "        background: linear-gradient(to bottom, #1a1a2e, #16213e); ";
      "        color: #eee; ";
      "        padding: 30px; ";
      "        border-radius: 10px; ";
      "        font-family: 'Courier New', monospace;";
      "        text-align: center;";
      "        max-width: 500px;";
      "        margin: 0 auto;";
      q "    '>";
      q "        <div style='font-size: 2em; margin-bottom: 20px; color: #ffd700;'>✨ CREDITS ✨</div>";
      q "        <div style='font-size: 1.2em; line-height: 2em;'>";
      q "            <div style='margin: 10px 0;'><strong>Director:</strong> " +:+ author_name +:+ "</div>";
      q "            <div style='margin: 10px 0;'><strong>Art:</strong> Ys the Cat 🐱</div>";
      q "            <div style='margin: 10px 0;'><strong>Engine:</strong> Python 3 🐍</div>";
      q "            <div style='margin: 10px 0;'><strong>Library:</strong> pet_lib v5.0</div>";
      q "            <div style='margin: 10px 0;'><strong>Based on:</strong> Cyber-Pet Course</div>";
      "        </div>";
      q "        <div style='margin-top: 30px; font-size: 1.5em; color: #ffd700;'>";
      "            THANK YOU FOR PLAYING!";
      "        </div>";
      q "        <div style='margin-top: 20px; font-size: 2em;'>";
      "            🎮 🎯 🎨";
      "        </div>";
      "    </div>";
      "    " ].

Definition show_credits (MODE : mode) (author_name : string) : M unit :=
  match MODE with
  | TERMINAL =>
      let credit_lines :=
        [ "=== CREDITS ===";
          "Director: " +:+ author_name;
          "Art: Ys the Cat";
          "Engine: Python 3";
          "Library: pet_lib v5.0";
          "Based on: Cyber-Pet Course";
          "THANK YOU FOR PLAYING!" ] in
      print (join nl credit_lines) ;;
      print "[SOUND] Playing heal sound."
  | JUPYTER =>
      _render_html MODE (credits_markup author_name) ;;
      play_sound MODE "heal"
  end.

End v5.

(** ** [src/v2.0/pet_lib.py]: the stat panel with the reversed hunger colour *)

Module v2.

Definition _get_bar_color (value : pyval) : M string :=
  below <- lift (py_lt_int value 20) ;;
  if below then ret v5.RED
  else
    below <- lift (py_lt_int value 50) ;;
    if below then ret v5.ORANGE else ret v5.GREEN.

Definition _create_bar_html (label : string) (value : pyval) (reverse_color : bool)
    : M string :=
  color_value <- (if reverse_color then lift (py_int_minus 100 value) else ret value) ;;
  color <- _get_bar_color color_value ;;
  shown <- lift (py_str value) ;;
  clipped <- lift (py_min_with_int value 100) ;;
  width <- lift (py_str clipped) ;;
  ret (v5.bar_markup label shown color width).

Definition show_stats (MODE : mode) (name hp hunger happiness : pyval) : M unit :=
  match MODE with
  | TERMINAL =>
      n <- lift (py_str name) ;;
      print ("--- " +:+ n +:+ " ---") ;;
      h <- lift (py_str hp) ;;
      print ("HP: " +:+ h +:+ "/100") ;;
      g <- lift (py_str hunger) ;;
      print ("Hunger: " +:+ g +:+ "/100") ;;
      match happiness with
      | VNone => ret tt
      | _ =>
          s <- lift (py_str happiness) ;;
          print ("Happy: " +:+ s +:+ "/100")
      end
  | JUPYTER =>
      n <- lift (py_str name) ;;
      let content_html := v5.title_markup n in
      bar <- _create_bar_html "HP" hp false ;;
      let content_html := content_html +:+ bar in
      bar <- _create_bar_html "Hunger" hunger true ;;
      let content_html := content_html +:+ bar in
      content_html <-
        match happiness with
        | VNone => ret content_html
        | _ =>
            bar <- _create_bar_html "Happiness" happiness false ;;
            ret (content_html +:+ bar)
        end ;;
      v5._render_html MODE (v5.container_markup content_html)
  end.

End v2.

(** ** The classifications in the words of the specification *)

(** The stat panel: below 20 critical (red), below 50 warning (orange),
    otherwise nominal (green). *)
Inductive level : Type := Critical | Warning | Nominal.

Definition classify (v : Z) : level :=
  if v <? 20 then Critical else if v <? 50 then Warning else Nominal.

Definition level_color (l : level) : string :=
  match l with
  | Critical => "#ff4444"
  | Warning => "#ffbb33"
  | Nominal => "#00C851"
  end.

(** The world [w] after the events [evs] were written. *)
Definition emitted (w : world) (evs : list event) : world :=
  World (heap w) (disk w) (out w ++ evs).

(** The argument a caller passes for an optional [int]. *)
Definition optional_int (o : option Z) : pyval :=
  match o with
  | Some n => VInt n
  | None => VNone
  end.

(** ** Sample worlds *)

Definition empty_world : world := World ∅ ∅ [].

(** A store holding one record, at location 0. *)
Definition world_with (d : dict) : world := World {[ 0%nat := d ]} ∅ [].

Definition hero (hp max_hp : Z) : dict :=
  [ ("name"%string, VStr "Hero"); ("hp"%string, VInt hp);
    ("max_hp"%string, VInt max_hp); ("gold"%string, VInt 50) ].

(** Whether, for these [hp] and [max_hp], the percentage of the HUD is
    computed and exceeds 50 exactly when [hp] is at least 51 percent of
    [max_hp]. *)
Definition threshold_holds (max_hp hp : Z) : bool :=
  match v5.hud_percent (VInt hp) (VInt max_hp) empty_world with
  | (Return pct, _) => Bool.eqb (50 <? pct) (51 * max_hp <=? 100 * hp)
  | _ => false
  end.

(** [0, 1, ..., n - 1] *)
Definition upto (n : nat) : list Z := map Z.of_nat (seq 0 n).

(** ** Frame conditions

    [preserves R m]: whatever the world, the one [m] ends in is related to
    it by [R]. *)
Definition preserves {A} (R : world -> world -> Prop) (m : M A) : Prop :=
  forall w, R w (snd (m w)).

(** The store of records is the same. *)
Definition same_store (w w' : world) : Prop := heap w' = heap w.

(** The worlds differ by what was written to the console and the display. *)
Definition more_output (w w' : world) : Prop := exists evs, w' = emitted w evs.

(** ** JSON-representable records *)

Fixpoint distinct_keys (d : dict) : bool :=
  match d with
  | [] => true
  | (k, _) :: rest => negb (existsb (String.eqb k) (map fst rest)) && distinct_keys rest
  end.

(** A value of the JSON data model: [None], a [bool], an [int], a [str],
    a [list] of such values, a [dict] from [str] keys to such values. Every
    string is text (the UTF-8 encoding of a [str]) and, as in any [dict], no
    key occurs twice. *)
Fixpoint json_representable (v : pyval) : bool :=
  match v with
  | VNone | VBool _ | VInt _ => true
  | VStr s => valid_utf8 s
  | VList l => forallb json_representable l
  | VDict d =>
      distinct_keys d
      && forallb (fun kv => valid_utf8 (fst kv) && json_representable (snd kv)) d
  | VOpaque => false
  end.

(** Induction on values, with the items of a container. *)
Definition pyval_ind'
    (P : pyval -> Prop)
    (HNone : P VNone) (HBool : forall b, P (VBool b)) (HInt : forall n, P (VInt n))
    (HStr : forall s, P (VStr s))
    (HList : forall l, Forall P l -> P (VList l))
    (HDict : forall d, Forall (fun kv => P (snd kv)) d -> P (VDict d))
    (HOpaque : P VOpaque) : forall v, P v :=
  fix go (v : pyval) : P v :=
    match v with
    | VNone => HNone
    | VBool b => HBool b
    | VInt n => HInt n
    | VStr s => HStr s
    | VList l =>
        HList l
          ((fix all (l : list pyval) : Forall P l :=
              match l with
              | [] => List.Forall_nil P
              | x :: r => @List.Forall_cons _ P x r (go x) (all r)
              end) l)
    | VDict d =>
        HDict d
          ((fix all (d : dict) : Forall (fun kv => P (snd kv)) d :=
              match d with
              | [] => List.Forall_nil _
              | (k, x) :: r =>
                  @List.Forall_cons _ (fun kv => P (snd kv)) (k, x) r (go x) (all r)
              end) d)
    | VOpaque => HOpaque
    end.

(** The fuel [json.scan_once] uses on the encoding of a value. *)
Fixpoint need (v : pyval) : nat :=
  match v with
  | VList l => S (fold_right (fun x acc => S (Nat.max (need x) acc)) O l)
  | VDict d => S (fold_right (fun kv acc => S (Nat.max (need (snd kv)) acc)) O d)
  | _ => 1%nat
  end.

(** Text that cannot go on a number: the end, or a character that is
    neither a digit nor the start of a fraction or an exponent. *)
Definition ends_number (rest : string) : bool :=
  match rest with
  | EmptyString => true
  | String c _ =>
      negb (json.is_digit c) && negb (Ascii.eqb c ".")
      && negb (Ascii.eqb c "e") && negb (Ascii.eqb c "E")
  end.

(** Text whose first character can start a value. *)
Definition head_ok (s : string) : bool :=
  match s with
  | EmptyString => false
  | String c _ => negb (json.is_ws c) && negb (Ascii.eqb c "]")
  end.

(** The missing file: nothing is found at [path], a path in plain form,
    and nothing stands against the path itself (no NUL character, no name
    too long, no regular file on the way). There [open] raises
    [FileNotFoundError]. *)
Definition missing (w : world) (path : string) : bool :=
  match disk w !! path with
  | None =>
      negb (has_nul path) && negb (too_long path)
      && negb (through_file (disk w) EmptyString path) && plain path
  | Some _ => false
  end.

(** A path [open(path, 'w')] opens: a regular file that is there, or a
    place for one in a directory that is there. *)
Definition writable (w : world) (path : string) : bool :=
  negb (is_empty_string path)
  && match disk w !! path with
     | Some (File _) => true
     | Some Dir => false
     | None =>
         match create (disk w) path with
         | Return _ => true
         | _ => false
         end
     end.

Definition items_need (l : list pyval) : nat :=
  fold_right (fun x acc => S (Nat.max (need x) acc)) O l.

Definition pairs_need (d : dict) : nat :=
  fold_right (fun kv acc => S (Nat.max (need (snd kv)) acc)) O d.

(** A value whose encoding, at every nesting level and before every text
    that cannot go on a number, is complete and is read back as the value. *)
Definition round_trips (v : pyval) : Prop :=
  json_representable v = true ->
  forall (level fuel : nat) (rest : string),
    (need v <= fuel)%nat ->
    ends_number rest = true ->
    snd (json.encode level v) = true
    /\ json.scan_once fuel (fst (json.encode level v) +:+ rest) = json.Parsed v rest.

(** Text that can stand before any text without changing whether the whole
    is well-formed UTF-8. *)
Definition transparent (a : string) : Prop :=
  forall t, valid_utf8 (a +:+ t) = valid_utf8 t.

(** The record of the end-to-end scenario of the specification. *)
Definition byte_record : dict :=
  [ ("name"%string, VStr "Byte"); ("hp"%string, VInt 80);
    ("hunger"%string, VInt 30); ("mood"%string, VStr "happy") ].

(** The record [create_pet] builds before it adds the extra attributes. *)
Definition base_record (name : pyval) (hp hunger mood : option pyval) : dict :=
  [ ("name"%string, name);
    ("hp"%string, v5.default hp (VInt 100));
    ("hunger"%string, v5.default hunger (VInt 50));
    ("mood"%string, v5.default mood (VStr "normal")) ].

Definition optional_str (o : option string) : option pyval :=
  match o with
  | Some s => Some (VStr s)
  | None => None
  end.

Definition optional_Z (o : option Z) : option pyval :=
  match o with
  | Some n => Some (VInt n)
  | None => None
  end.

(** Whether, for [hp] out of 100, the percentage of the HUD is [hp] itself
    or, for 29, 57 and 58, one less. *)
Definition percent_of_hundred (hp : Z) : Z :=
  if (hp =? 29) || (hp =? 57) || (hp =? 58) then hp - 1 else hp.

Definition percent_of_hundred_holds (hp : Z) : bool :=
  match v5.hud_percent (VInt hp) (VInt 100) empty_world with
  | (Return pct, _) => pct =? percent_of_hundred hp
  | _ => false
  end.

(** The number of characters of a text: its bytes that are not
    continuation bytes. *)
Fixpoint char_count (s : string) : nat :=
  match s with
  | EmptyString => O
  | String c r => if cont_byte c then char_count r else S (char_count r)
  end.

(** ** The presenters, as calls

    One constructor for each function of [src/v5.0/pet_lib.py] that shows
    something and returns nothing, with its arguments; [present] makes the
    call. (The presenters that pause, [show_animation] and [show_thinking],
    are not among them: they act on a [stage].) *)
Inductive call : Type :=
| ShowImage (filename : string) (width : Z)
| ShowPet (mood : pyval)
| ShowStats (name hp hunger happiness : pyval)
| Say (name message : string)
| SetLabel (name : string)
| ShowPetDict (pet_data : loc)
| RenderHud (player : loc)
| ShowDashboard (player : loc) (enemy : option loc) (logs : list string)
| ShowBattleLog (messages : list string)
| PlaySound (sound_name : string)
| ShowChatBubble (speaker message : string) (is_user : bool) (style : string)
| SetMindset (personality_text : string)
| Celebrate
| ShowCredits (author_name : string).

Definition present (MODE : mode) (c : call) : M unit :=
  match c with
  | ShowImage filename width => v5.show_image MODE filename width
  | ShowPet mood => v5.show_pet MODE mood
  | ShowStats name hp hunger happiness => v5.show_stats MODE name hp hunger happiness
  | Say name message => v5.say MODE name message
  | SetLabel name => v5.set_label MODE name
  | ShowPetDict pet_data => v5.show_pet_dict MODE pet_data
  | RenderHud player => v5.render_hud MODE player
  | ShowDashboard player enemy logs => v5.show_dashboard MODE player enemy logs
  | ShowBattleLog messages => v5.show_battle_log MODE messages
  | PlaySound sound_name => v5.play_sound MODE sound_name
  | ShowChatBubble speaker message is_user style =>
      v5.show_chat_bubble MODE speaker message is_user style
  | SetMindset personality_text => v5.set_mindset MODE personality_text
  | Celebrate => v5.celebrate MODE
  | ShowCredits author_name => v5.show_credits MODE author_name
  end.

(** The presenters that compute with the fields they are given (a colour
    from a value, a percentage from two): the others only place their
    arguments in a text. *)
Definition computes (c : call) : bool :=
  match c with
  | ShowStats _ _ _ _ | ShowPetDict _ | RenderHud _ | ShowDashboard _ _ _ => true
  | _ => false
  end.

(** What goes to the console, as opposed to the display. *)
Definition console (ev : event) : Prop :=
  match ev with
  | Print _ | PrintExn _ _ => True
  | DisplayHTML _ | DisplayAudio _ _ => False
  end.

(** The worlds differ by outputs that all satisfy [P]. *)
Definition only (P : event -> Prop) (w w' : world) : Prop :=
  exists evs, w' = emitted w evs /\ Forall P evs.

(** No exception leaves the computation. *)
Definition never_raises {A} (m : M A) : Prop :=
  forall w e, fst (m w) <> Raise e.

(** A value that [str] formats whatever the settings of the interpreter:
    an [int] of more than 4300 digits is refused ([ValueError]) by the
    interpreters that limit the conversion. *)
Definition printable (v : pyval) : bool :=
  match v with
  | VInt n => Z.abs n <? 10 ^ 4300
  | _ => true
  end.

(** The values a call passes. *)
Definition arguments (c : call) : list pyval :=
  match c with
  | ShowImage _ width => [VInt width]
  | ShowPet mood => [mood]
  | ShowStats name hp hunger happiness => [name; hp; hunger; happiness]
  | _ => []
  end.

(** Every value the call can format, among its arguments and in the fields
    of the records of the store, is [printable]. *)
Definition printable_call (w : world) (c : call) : Prop :=
  Forall (fun v => printable v = true) (arguments c)
  /\ forall (l : loc) (d : dict),
       heap w !! l = Some d -> Forall (fun kv => printable (snd kv) = true) d.

(** ** Pauses *)

(** The pauses [time_sleep] accepts: from zero up to (not including)
    [2 ^ 33] seconds. *)
Definition accepted (seconds : number) : bool :=
  match seconds with
  | IntNum n => (0 <=? n) && (n <? 2 ^ 33)
  | FloatNum (S754_zero _) => true
  | FloatNum (S754_finite false m e) => magnitude_below m e 33
  | FloatNum _ => false
  end.

(** The pauses [time_sleep] refuses with [ValueError]: the negative ones,
    from [- 2 ^ -29] down to (not including) [- 2 ^ 33] seconds. *)
Definition refused (seconds : number) : bool :=
  match seconds with
  | IntNum n => (n <? 0) && (- 2 ^ 33 <? n)
  | FloatNum (S754_finite true m e) =>
      magnitude_below m e 33 && negb (magnitude_below m e (-29))
  | FloatNum _ => false
  end.

(** A frame that [show_animation] takes for the name of an image. *)
Definition is_image (frame : string) : bool :=
  ends_with ".png" frame || ends_with ".jpg" frame.

(** ** Records a program can hold *)

(** A value whose strings are all text and whose dicts have no key twice.
    Unlike a [json_representable] value it may hold objects from outside
    the JSON data model. *)
Fixpoint well_formed (v : pyval) : bool :=
  match v with
  | VNone | VBool _ | VInt _ | VOpaque => true
  | VStr s => valid_utf8 s
  | VList l => forallb well_formed l
  | VDict d =>
      distinct_keys d
      && forallb (fun kv => valid_utf8 (fst kv) && well_formed (snd kv)) d
  end.

(** A value whose encoding, when it is cut short by [TypeError], is
    rejected by the decoder. *)
Definition cut_short_is_rejected (v : pyval) : Prop :=
  well_formed v = true ->
  forall (level fuel : nat),
    snd (json.encode level v) = false ->
    (2 * String.length (fst (json.encode level v)) + 1 <= fuel)%nat ->
    json.scan_once fuel (fst (json.encode level v)) = json.Malformed.

(** * Properties *)

Ltac run :=
  cbv beta iota zeta delta
    [bind ret raise lift unmodelled emit print print_exn try_except emitted
     py_lt_int py_gt_int py_min_with_int py_int_minus py_str optional_int
     v5._render_html].

Lemma emitted_nil w : emitted w [] = w.
Proof. destruct w; unfold emitted; simpl. by rewrite app_nil_r. Qed.

Lemma emitted_app w evs evs' : emitted (emitted w evs) evs' = emitted w (evs ++ evs').
Proof. unfold emitted; simpl. by rewrite app_assoc. Qed.

Lemma min_clip (v : Z) : (if 100 <? v then 100 else v) = Z.min v 100.
Proof. destruct (Z.ltb_spec 100 v); lia. Qed.

Lemma append_cons (x : ascii) (a b : string) : String x a +:+ b = String x (a +:+ b).
Proof. reflexivity. Qed.

Lemma append_nil_l (b : string) : EmptyString +:+ b = b.
Proof. reflexivity. Qed.

Lemma append_assoc (a b c : string) : (a +:+ b) +:+ c = a +:+ (b +:+ c).
Proof.
  induction a as [| x a IH]; [reflexivity |].
  rewrite !append_cons. by rewrite IH.
Qed.

Lemma append_nil_r (a : string) : a +:+ EmptyString = a.
Proof.
  induction a as [| x a IH]; [reflexivity |].
  rewrite append_cons. by rewrite IH.
Qed.

Lemma length_append (a b : string) :
  String.length (a +:+ b) = (String.length a + String.length b)%nat.
Proof.
  induction a as [| x a IH]; [reflexivity |].
  rewrite append_cons. simpl. by rewrite IH.
Qed.

Lemma bind_return {A B} (m : M A) (k : A -> M B) (w w' : world) (a : A) :
  m w = (Return a, w') -> bind m k w = k a w'.
Proof. intros H. unfold bind. by rewrite H. Qed.

Lemma bind_raise {A B} (m : M A) (k : A -> M B) (w w' : world) (e : exn) :
  m w = (Raise e, w') -> bind m k w = (Raise e, w').
Proof. intros H. unfold bind. by rewrite H. Qed.

Lemma bind_unmodelled {A B} (m : M A) (k : A -> M B) (w w' : world) :
  m w = (Unmodelled, w') -> bind m k w = (Unmodelled, w').
Proof. intros H. unfold bind. by rewrite H. Qed.

(** One step of a sequence whose first computation returns. *)
Tactic Notation "step" "by" tactic3(t) :=
  erewrite bind_return by t; cbv beta.
Ltac step := step by (run; reflexivity).

Section StatPanel.

Lemma v5_get_bar_color_int (v : Z) (w : world) :
  v5._get_bar_color (VInt v) w = (Return (level_color (classify v)), w).
Proof.
  unfold v5._get_bar_color, classify. run.
  destruct (v <? 20); [reflexivity |].
  destruct (v <? 50); reflexivity.
Qed.

Lemma v5_create_bar_int (label : string) (v : Z) (w : world) :
  v5._create_bar_html label (VInt v) w =
  (Return (v5.bar_markup label (str_of_Z v) (level_color (classify v))
             (str_of_Z (Z.min v 100))), w).
Proof.
  unfold v5._create_bar_html.
  step by apply v5_get_bar_color_int. run.
  rewrite <- min_clip. destruct (100 <? v); reflexivity.
Qed.

Lemma v2_get_bar_color_int (v : Z) (w : world) :
  v2._get_bar_color (VInt v) w = (Return (level_color (classify v)), w).
Proof.
  unfold v2._get_bar_color, classify. run.
  destruct (v <? 20); [reflexivity |].
  destruct (v <? 50); reflexivity.
Qed.

Lemma v2_create_bar_int (label : string) (v : Z) (reverse_color : bool) (w : world) :
  v2._create_bar_html label (VInt v) reverse_color w =
  (Return (v5.bar_markup label (str_of_Z v)
             (level_color (classify (if reverse_color then 100 - v else v)))
             (str_of_Z (Z.min v 100))), w).
Proof.
  unfold v2._create_bar_html.
  destruct reverse_color.
  - step. step by apply v2_get_bar_color_int. run.
    rewrite <- min_clip. destruct (100 <? v); reflexivity.
  - step. step by apply v2_get_bar_color_int. run.
    rewrite <- min_clip. destruct (100 <? v); reflexivity.
Qed.

End StatPanel.

Lemma v5_show_stats_plain
    (name : string) (hp hunger : Z) (happiness : option Z) (w : world) :
  v5.show_stats TERMINAL (VStr name) (VInt hp) (VInt hunger) (optional_int happiness) w =
  (Return tt,
   emitted w
     ([Print ("--- " +:+ name +:+ " ---");
       Print ("HP: " +:+ str_of_Z hp +:+ "/100");
       Print ("Hunger: " +:+ str_of_Z hunger +:+ "/100")]
      ++ match happiness with
         | Some h => [Print ("Happy: " +:+ str_of_Z h +:+ "/100")]
         | None => []
         end)).
Proof.
  unfold v5.show_stats. destruct happiness as [h |]; run; cbn [heap disk out];
    rewrite <- ?app_assoc; reflexivity.
Qed.

Lemma v2_show_stats_plain
    (name : string) (hp hunger : Z) (happiness : option Z) (w : world) :
  v2.show_stats TERMINAL (VStr name) (VInt hp) (VInt hunger) (optional_int happiness) w =
  (Return tt,
   emitted w
     ([Print ("--- " +:+ name +:+ " ---");
       Print ("HP: " +:+ str_of_Z hp +:+ "/100");
       Print ("Hunger: " +:+ str_of_Z hunger +:+ "/100")]
      ++ match happiness with
         | Some h => [Print ("Happy: " +:+ str_of_Z h +:+ "/100")]
         | None => []
         end)).
Proof.
  unfold v2.show_stats. destruct happiness as [h |]; run; cbn [heap disk out];
    rewrite <- ?app_assoc; reflexivity.
Qed.

(** C7. In v2.0, [show_stats] colours the hunger bar by the three
    thresholds applied to [100 - hunger]; the HP bar and the happiness bar
    (when a happiness is given) are coloured by the thresholds applied to
    the value itself; each bar is filled to [min(value, 100)] percent.
    (Without a display surface the same call prints plain lines: there is
    no bar to colour.) *)
Theorem v2_show_stats_reverses_hunger_color
    (name : string) (hp hunger : Z) (happiness : option Z) (w : world) :
  v2.show_stats JUPYTER (VStr name) (VInt hp) (VInt hunger) (optional_int happiness) w =
  (Return tt,
   emitted w
     [DisplayHTML
        (v5.container_markup
           (v5.title_markup name
            +:+ v5.bar_markup "HP" (str_of_Z hp)
                  (level_color (classify hp)) (str_of_Z (Z.min hp 100))
            +:+ v5.bar_markup "Hunger" (str_of_Z hunger)
                  (level_color (classify (100 - hunger))) (str_of_Z (Z.min hunger 100))
            +:+ match happiness with
                | Some h =>
                    v5.bar_markup "Happiness" (str_of_Z h)
                      (level_color (classify h)) (str_of_Z (Z.min h 100))
                | None => EmptyString
                end))])
  /\ v2.show_stats TERMINAL (VStr name) (VInt hp) (VInt hunger) (optional_int happiness) w =
     (Return tt,
      emitted w
        ([Print ("--- " +:+ name +:+ " ---");
          Print ("HP: " +:+ str_of_Z hp +:+ "/100");
          Print ("Hunger: " +:+ str_of_Z hunger +:+ "/100")]
         ++ match happiness with
            | Some h => [Print ("Happy: " +:+ str_of_Z h +:+ "/100")]
            | None => []
            end)).
Proof.
  split; [| apply v2_show_stats_plain].
  unfold v2.show_stats.
  step. step by apply v2_create_bar_int. step by apply v2_create_bar_int.
  destruct happiness as [h |]; cbn [optional_int].
  - step by (step by (apply v2_create_bar_int); reflexivity).
    run. by rewrite !append_assoc.
  - run. by rewrite !append_assoc, append_nil_r.
Qed.

(** C3. For values between 0 and 100, every bar of the panel that
    [show_stats] displays is coloured by the three-level rule: red
    [#ff4444] below 20, orange [#ffbb33] from 20 up to but not including 50,
    green [#00C851] from 50 on. (The bar is filled to the value itself, since
    the value is at most 100. Without a display surface the same call
    prints plain lines: there is no bar to colour.) *)
Theorem show_stats_three_level_colors
    (name : string) (hp hunger : Z) (happiness : option Z) (w : world) :
  0 <= hp <= 100 ->
  0 <= hunger <= 100 ->
  (forall h, happiness = Some h -> 0 <= h <= 100) ->
  v5.show_stats JUPYTER (VStr name) (VInt hp) (VInt hunger) (optional_int happiness) w =
  (Return tt,
   emitted w
     [DisplayHTML
        (v5.container_markup
           (v5.title_markup name
            +:+ v5.bar_markup "HP" (str_of_Z hp) (level_color (classify hp)) (str_of_Z hp)
            +:+ v5.bar_markup "Hunger" (str_of_Z hunger)
                  (level_color (classify hunger)) (str_of_Z hunger)
            +:+ match happiness with
                | Some h =>
                    v5.bar_markup "Happiness" (str_of_Z h)
                      (level_color (classify h)) (str_of_Z h)
                | None => EmptyString
                end))])
  /\ (forall v : Z,
        0 <= v <= 100 ->
        (v < 20 -> level_color (classify v) = "#ff4444"%string)
        /\ (20 <= v < 50 -> level_color (classify v) = "#ffbb33"%string)
        /\ (50 <= v -> level_color (classify v) = "#00C851"%string))
  /\ v5.show_stats TERMINAL (VStr name) (VInt hp) (VInt hunger) (optional_int happiness) w =
     (Return tt,
      emitted w
        ([Print ("--- " +:+ name +:+ " ---");
          Print ("HP: " +:+ str_of_Z hp +:+ "/100");
          Print ("Hunger: " +:+ str_of_Z hunger +:+ "/100")]
         ++ match happiness with
            | Some h => [Print ("Happy: " +:+ str_of_Z h +:+ "/100")]
            | None => []
            end)).
Proof.
  intros Hhp Hhunger Hhappy. split; [| split; [| apply v5_show_stats_plain]].
  - unfold v5.show_stats.
    step. step by apply v5_create_bar_int. step by apply v5_create_bar_int.
    rewrite !Z.min_l by lia.
    destruct happiness as [h |]; cbn [optional_int].
    + step by (step by (apply v5_create_bar_int); reflexivity).
      rewrite Z.min_l by (specialize (Hhappy h eq_refl); lia).
      run. by rewrite !append_assoc.
    + run. by rewrite !append_assoc, append_nil_r.
  - intros v _. unfold classify. repeat split; intros Hv.
    + destruct (Z.ltb_spec v 20); [reflexivity | lia].
    + destruct (Z.ltb_spec v 20); [lia |].
      destruct (Z.ltb_spec v 50); [reflexivity | lia].
    + destruct (Z.ltb_spec v 20); [lia |].
      destruct (Z.ltb_spec v 50); [lia | reflexivity].
Qed.

Lemma show_stats_three_level_colors_witness :
  0 <= 80 <= 100 /\ 0 <= 30 <= 100 /\
  (forall h, Some 10 = Some h -> 0 <= h <= 100) /\
  v5.show_stats JUPYTER (VStr "Byte") (VInt 80) (VInt 30) (VInt 10) empty_world =
  (Return tt,
   emitted empty_world
     [DisplayHTML
        (v5.container_markup
           (v5.title_markup "Byte"
            +:+ v5.bar_markup "HP" "80" "#00C851" "80"
            +:+ v5.bar_markup "Hunger" "30" "#ffbb33" "30"
            +:+ v5.bar_markup "Happiness" "10" "#ff4444" "10"))]).
Proof.
  assert (H10 : forall h : Z, Some 10 = Some h -> 0 <= h <= 100)
    by (intros h [= <-]; lia).
  split; [lia |]. split; [lia |]. split; [exact H10 |].
  exact (proj1 (show_stats_three_level_colors "Byte" 80 30 (Some 10) empty_world
                  ltac:(lia) ltac:(lia) H10)).
Defined.

(** ** [play_sound] *)

(** C8, as amended. With a display surface ([JUPYTER]): a tag that is not
    in the sound library makes [play_sound] print a warning and the list of
    the available tags, play nothing and return; a known tag makes it hand
    the resource of the tag to the display surface, set to play by itself,
    and return nothing. Without one ([TERMINAL]): for every tag, known or
    not, it prints one [[SOUND] Playing:] line, plays nothing, prints no
    list and returns. It never raises. *)
Theorem play_sound_by_mode (sound_name : string) (w : world) :
  (v5.lookup_sound v5.SOUND_LIBRARY sound_name = None ->
   v5.play_sound JUPYTER sound_name w =
   (Return tt,
    emitted w
      [Print ("⚠️ Unknown sound: " +:+ sound_name);
       Print "Available sounds: attack, hit, level_up, game_over, bgm, heal"]))
  /\ (forall url,
        v5.lookup_sound v5.SOUND_LIBRARY sound_name = Some url ->
        v5.play_sound JUPYTER sound_name w =
        (Return tt, emitted w [DisplayAudio url true]))
  /\ v5.play_sound TERMINAL sound_name w =
     (Return tt, emitted w [Print ("[SOUND] Playing: " +:+ sound_name)]).
Proof.
  split; [| split].
  - intros Hunknown. unfold v5.play_sound. rewrite Hunknown.
    run. cbn [out heap disk]. by rewrite <- app_assoc.
  - intros url Hknown. unfold v5.play_sound. rewrite Hknown. reflexivity.
  - reflexivity.
Qed.

(** C8, the claim as it stands fails without a display surface: for the
    unknown tag [not_a_real_tag] the list of tags is not printed. *)
Lemma play_sound_terminal_prints_no_tag_list :
  v5.lookup_sound v5.SOUND_LIBRARY "not_a_real_tag" = None
  /\ v5.play_sound TERMINAL "not_a_real_tag" empty_world =
     (Return tt, emitted empty_world [Print "[SOUND] Playing: not_a_real_tag"])
  /\ ~ In (Print "Available sounds: attack, hit, level_up, game_over, bgm, heal")
         (out (snd (v5.play_sound TERMINAL "not_a_real_tag" empty_world))).
Proof.
  split; [reflexivity |]. split; [reflexivity |].
  intros [H | []]. discriminate H.
Qed.

(** ** [load_pet] *)

Lemma read_bytes_missing (path : string) (w : world) :
  missing w path = true -> read_bytes path w = (Raise FileNotFoundError, w).
Proof.
  unfold missing, read_bytes, refuse, absent_error. intros H.
  destruct (is_empty_string path); [reflexivity |].
  destruct (disk w !! path); [discriminate |].
  destruct (has_nul path); [discriminate |].
  destruct (too_long path); [discriminate |].
  destruct (through_file (disk w) EmptyString path); [discriminate |].
  destruct (plain path); [reflexivity | discriminate].
Qed.

Lemma read_bytes_file (path content : string) (w : world) :
  path <> EmptyString ->
  disk w !! path = Some (File content) -> read_bytes path w = (Return content, w).
Proof.
  intros Hne H. unfold read_bytes.
  destruct path; [congruence |]. cbn [is_empty_string]. by rewrite H.
Qed.

Lemma read_bytes_keeps_world (path : string) (w : world) :
  snd (read_bytes path w) = w.
Proof.
  unfold read_bytes. destruct (is_empty_string path); [reflexivity |].
  destruct (disk w !! path) as [[c |] |]; reflexivity.
Qed.

Lemma read_text_keeps_world (path : string) (w : world) :
  snd (read_text path w) = w.
Proof.
  unfold read_text, bind.
  pose proof (read_bytes_keeps_world path w) as H.
  destruct (read_bytes path w) as [[bytes | e |] w']; simpl in H; subst w'; try reflexivity.
  destruct (valid_utf8 bytes); reflexivity.
Qed.

Lemma json_load_keeps_world (path : string) (w : world) :
  snd (json_load path w) = w.
Proof.
  unfold json_load, bind.
  pose proof (read_text_keeps_world path w) as H.
  destruct (read_text path w) as [[text | e |] w']; simpl in H; subst w'; try reflexivity.
  destruct (json.within_limits text); [| reflexivity].
  unfold ret. destruct (json.loads text); reflexivity.
Qed.

Lemma json_load_raises (path : string) (e : exn) (w : world) :
  fst (read_bytes path w) = Raise e -> json_load path w = (Raise e, w).
Proof.
  intros H. unfold json_load, read_text.
  pose proof (read_bytes_keeps_world path w) as Hw.
  destruct (read_bytes path w) as [r w'] eqn:Hread. cbn in H, Hw. subst r w'.
  erewrite bind_raise; [reflexivity |].
  erewrite bind_raise; [reflexivity |]. exact Hread.
Qed.

Lemma json_load_missing (path : string) (w : world) :
  missing w path = true -> json_load path w = (Raise FileNotFoundError, w).
Proof.
  intros H. apply json_load_raises. by rewrite read_bytes_missing.
Qed.

Lemma json_load_malformed (path content : string) (w : world) :
  path <> EmptyString ->
  disk w !! path = Some (File content) ->
  valid_utf8 content = true ->
  json.within_limits content = true ->
  json.loads content = json.Malformed ->
  json_load path w = (Raise JSONDecodeError, w).
Proof.
  intros Hne Hfile Hutf8 Hlimits Hbad. unfold json_load, read_text.
  step by (step by (by apply read_bytes_file); rewrite Hutf8; reflexivity).
  by rewrite Hlimits, Hbad.
Qed.

(** C4. [load_pet] tells a missing file from malformed content: each has
    its own diagnostic, and both give [None]. A missing file is a path at
    which [open] finds nothing and raises [FileNotFoundError]; every other
    failure of [open] (a directory, a path that runs through a regular
    file, a name the system refuses) is reported like malformed content,
    with the text of its exception. Whenever the file cannot be opened the
    result is [None], and whatever the path and the state of the disk, no
    exception leaves [load_pet]. *)
Theorem load_pet_failures_give_none (filename : string) (w : world) :
  (missing w filename = true ->
   v5.load_pet filename w =
   (Return VNone, emitted w [Print ("⚠️ 找不到存檔 " +:+ filename)]))
  /\ (forall content,
        filename <> EmptyString ->
        disk w !! filename = Some (File content) ->
        valid_utf8 content = true ->
        json.within_limits content = true ->
        json.loads content = json.Malformed ->
        v5.load_pet filename w =
        (Return VNone, emitted w [PrintExn "❌ 讀取失敗: " JSONDecodeError]))
  /\ (forall e,
        fst (read_bytes filename w) = Raise e ->
        e <> FileNotFoundError ->
        v5.load_pet filename w =
        (Return VNone, emitted w [PrintExn "❌ 讀取失敗: " e]))
  /\ (forall e,
        fst (read_bytes filename w) = Raise e ->
        fst (v5.load_pet filename w) = Return VNone)
  /\ (forall e, fst (v5.load_pet filename w) <> Raise e).
Proof.
  split; [| split; [| split; [| split]]].
  - intros Hmissing. unfold v5.load_pet, try_except.
    erewrite bind_raise by (by apply json_load_missing). reflexivity.
  - intros content Hne Hfile Hutf8 Hlimits Hbad. unfold v5.load_pet, try_except.
    erewrite bind_raise by (by eapply json_load_malformed). reflexivity.
  - intros e Hopen Hclass. unfold v5.load_pet, try_except.
    erewrite bind_raise by (by apply json_load_raises).
    destruct e; try reflexivity. congruence.
  - intros e Hopen. unfold v5.load_pet, try_except.
    erewrite bind_raise by (by apply json_load_raises).
    destruct e; reflexivity.
  - intros e. unfold v5.load_pet, try_except.
    unfold bind at 1.
    destruct (json_load filename w) as [[data | e' |] w']; cbn.
    + discriminate.
    + destruct e'; discriminate.
    + discriminate.
Qed.

(** The failures of [load_pet], on a disk that holds one broken file: a
    path where nothing is, the broken file, a path that runs through it,
    and a path under a directory that is not there. *)
Example load_pet_failures_on_a_disk :
  let w := World ∅ {[ "save.json"%string := File "{ not json" ]} [] in
  v5.load_pet "nothing.json" w =
    (Return VNone, emitted w [Print "⚠️ 找不到存檔 nothing.json"])
  /\ v5.load_pet "save.json" w =
    (Return VNone, emitted w [PrintExn "❌ 讀取失敗: " JSONDecodeError])
  /\ v5.load_pet "save.json/pet" w =
    (Return VNone, emitted w [PrintExn "❌ 讀取失敗: " NotADirectoryError])
  /\ v5.load_pet "saves/pet.json" w =
    (Return VNone, emitted w [Print "⚠️ 找不到存檔 saves/pet.json"]).
Proof. repeat split; reflexivity. Qed.

(** ** [render_hud] *)

Lemma get_some (l : loc) (k : string) (default : pyval) (d : dict) (w : world) :
  heap w !! l = Some d -> get l k default w = (Return (dict_get d k default), w).
Proof. intros H. unfold get, deref, bind, ret. by rewrite H. Qed.

(** C2, where the code breaks the claim. With a display surface,
    [render_hud] divides [hp] by [max_hp] unguarded: a player record whose
    [max_hp] is 0 (and whose [hp] is an [int]) makes [ZeroDivisionError]
    leave [render_hud]. *)
Theorem render_hud_zero_max_hp_raises (player : loc) (d : dict) (hp : Z) (w : world) :
  heap w !! player = Some d ->
  dict_get d "hp" (VInt 100) = VInt hp ->
  dict_get d "max_hp" (VInt 100) = VInt 0 ->
  v5.render_hud JUPYTER player w = (Raise ZeroDivisionError, w).
Proof.
  intros Hd Hhp Hmax. unfold v5.render_hud.
  do 4 (step by (by apply get_some)).
  rewrite Hhp, Hmax. reflexivity.
Qed.

Lemma render_hud_zero_max_hp_raises_witness :
  heap (world_with (hero 40 0)) !! 0%nat = Some (hero 40 0)
  /\ dict_get (hero 40 0) "hp" (VInt 100) = VInt 40
  /\ dict_get (hero 40 0) "max_hp" (VInt 100) = VInt 0
  /\ v5.render_hud JUPYTER 0%nat (world_with (hero 40 0)) =
     (Raise ZeroDivisionError, world_with (hero 40 0)).
Proof.
  split; [reflexivity |]. split; [reflexivity |]. split; [reflexivity |].
  exact (render_hud_zero_max_hp_raises 0%nat (hero 40 0) 40 (world_with (hero 40 0))
           eq_refl eq_refl eq_refl).
Defined.

(** The twin of that division in [show_dashboard] is guarded: the same
    record gives a card whose bar is 0 percent wide, and nothing is
    raised. *)
Example show_dashboard_guards_zero_max_hp :
  v5.show_dashboard JUPYTER 0%nat None [] (world_with (hero 40 0)) =
  (Return tt,
   emitted (world_with (hero 40 0))
     [DisplayHTML
        (v5.dashboard_markup
           (v5.card_markup "2px solid #00C851" "rgba(0, 50, 0, 0.1)"
              (q "<div style='height: 80px; width: 80px; background: #ccc; display: flex; align-items: center; justify-content: center;'>normal</div>")
              "Hero" "#00C851" "0" "40" "0")
           v5.EMPTY_SLOT EmptyString)]).
Proof. reflexivity. Qed.

Lemma in_upto (n : nat) (z : Z) : 0 <= z < Z.of_nat n -> In z (upto n).
Proof.
  intros Hz. unfold upto. apply in_map_iff. exists (Z.to_nat z).
  split; [lia |]. apply in_seq. lia.
Qed.

Lemma hud_percent_any_world (hp max_hp : pyval) (w w' : world) :
  fst (v5.hud_percent hp max_hp w) = fst (v5.hud_percent hp max_hp w')
  /\ snd (v5.hud_percent hp max_hp w) = w.
Proof.
  unfold v5.hud_percent, bind, lift, ret.
  destruct (py_true_div hp max_hp) as [ratio | e |]; [| done | done].
  destruct (int_of_float (float_mul_int ratio 100)); done.
Qed.

(** On the range the library is used with ([max_hp] up to 100, [hp] up to
    twice that) rounding never moves the threshold: the percentage is
    computed, and it exceeds 50 exactly when [hp] is at least 51 percent of
    [max_hp]. *)
Lemma hud_threshold_on_small_range (hp max_hp : Z) (w : world) :
  0 < max_hp <= 100 ->
  0 <= hp <= 200 ->
  exists pct,
    v5.hud_percent (VInt hp) (VInt max_hp) w = (Return pct, w)
    /\ (50 < pct <-> 51 * max_hp <= 100 * hp).
Proof.
  intros Hmax Hhp.
  assert (Hall : forallb (fun m => forallb (threshold_holds (m + 1)) (upto 201))
                   (upto 100) = true) by (vm_compute; reflexivity).
  rewrite forallb_forall in Hall.
  specialize (Hall (max_hp - 1) ltac:(apply in_upto; lia)).
  rewrite forallb_forall in Hall.
  specialize (Hall hp ltac:(apply in_upto; lia)).
  replace (max_hp - 1 + 1) with max_hp in Hall by lia.
  unfold threshold_holds in Hall.
  destruct (hud_percent_any_world (VInt hp) (VInt max_hp) w empty_world) as [Hfst Hsnd].
  destruct (v5.hud_percent (VInt hp) (VInt max_hp) empty_world) as [[pct | e |] w0];
    try discriminate.
  destruct (v5.hud_percent (VInt hp) (VInt max_hp) w) as [r w1].
  simpl in Hfst, Hsnd. subst r w1. exists pct. split; [reflexivity |].
  apply Bool.eqb_prop in Hall.
  rewrite <- Z.ltb_lt, Hall, Z.leb_le. reflexivity.
Qed.

(** ** What a computation leaves of the world *)

Section Frame.

Variable R : world -> world -> Prop.
Hypothesis R_refl : forall w, R w w.
Hypothesis R_trans : forall w1 w2 w3, R w1 w2 -> R w2 w3 -> R w1 w3.
Hypothesis R_emit : forall w ev, R w (emitted w [ev]).
Hypothesis R_disk : forall w dk, R w (World (heap w) dk (out w)).

Lemma preserves_ret {A} (a : A) : preserves R (ret a).
Proof using R_refl. intros w. apply R_refl. Qed.

Lemma preserves_raise {A} (e : exn) : preserves R (@raise A e).
Proof using R_refl. intros w. apply R_refl. Qed.

Lemma preserves_unmodelled {A} : preserves R (@unmodelled A).
Proof using R_refl. intros w. apply R_refl. Qed.

Lemma preserves_lift {A} (o : outcome A) : preserves R (lift o).
Proof using R_refl. intros w. apply R_refl. Qed.

Lemma preserves_bind {A B} (m : M A) (k : A -> M B) :
  preserves R m -> (forall a, preserves R (k a)) -> preserves R (bind m k).
Proof using R_trans.
  intros Hm Hk w. unfold bind. specialize (Hm w).
  destruct (m w) as [[a | e |] w']; simpl in *; [| exact Hm | exact Hm].
  eapply R_trans; [exact Hm | apply Hk].
Qed.

Lemma preserves_try {A} (body : M A) (handler : exn -> option (M A)) :
  preserves R body ->
  (forall e h, handler e = Some h -> preserves R h) ->
  preserves R (try_except body handler).
Proof using R_trans.
  intros Hb Hh w. unfold try_except. specialize (Hb w).
  destruct (body w) as [[a | e |] w']; simpl in *; [exact Hb | | exact Hb].
  destruct (handler e) as [h |] eqn:He; [| exact Hb].
  eapply R_trans; [exact Hb | eapply Hh, He].
Qed.

Lemma preserves_deref (l : loc) : preserves R (deref l).
Proof using R_refl.
  intros w. unfold deref. destruct (heap w !! l); apply R_refl.
Qed.

Lemma preserves_path_exists (path : string) : preserves R (path_exists path).
Proof using R_refl. intros w. apply R_refl. Qed.

Lemma preserves_read_bytes (path : string) : preserves R (read_bytes path).
Proof using R_refl.
  intros w. rewrite read_bytes_keeps_world. apply R_refl.
Qed.

Lemma preserves_emit (ev : event) : preserves R (emit ev).
Proof using R_emit. intros w. apply R_emit. Qed.

Lemma preserves_open_write (path : string) : preserves R (open_write path).
Proof using R_refl R_disk.
  intros w. unfold open_write. destruct (is_empty_string path); [apply R_refl |].
  destruct (disk w !! path) as [[c |] |]; simpl; try first [apply R_refl | apply R_disk].
  destruct (create (disk w) path); first [apply R_refl | apply R_disk].
Qed.

Lemma preserves_write (path text : string) : preserves R (write path text).
Proof using R_refl R_disk.
  intros w. unfold write.
  destruct (disk w !! path) as [[c |] |]; simpl; first [apply R_refl | apply R_disk].
Qed.

End Frame.

(** Splits a computation into its steps, down to the primitives. *)
Ltac frame :=
  repeat first
    [ apply preserves_ret | apply preserves_raise | apply preserves_unmodelled
    | apply preserves_lift | apply preserves_deref | apply preserves_path_exists
    | apply preserves_read_bytes
    | apply preserves_emit; solve [auto]
    | apply preserves_open_write; solve [auto]
    | apply preserves_write; solve [auto]
    | apply preserves_bind; [solve [auto] | | intros ?]
    | apply preserves_try;
        [solve [auto] | | let e := fresh "e" in let h := fresh "h" in
                           intros e h; try destruct e; intros [= <-]]
    | match goal with
      | |- preserves _ (match ?x with _ => _ end) => destruct x
      | |- preserves _ (let (_, _) := ?x in _) => destruct x
      end
    | solve [auto] ].

Section FramePresenters.

Variable R : world -> world -> Prop.
Hypothesis R_refl : forall w, R w w.
Hypothesis R_trans : forall w1 w2 w3, R w1 w2 -> R w2 w3 -> R w1 w3.
Hypothesis R_emit : forall w ev, R w (emitted w [ev]).
Hypothesis R_disk : forall w dk, R w (World (heap w) dk (out w)).

Local Hint Resolve R_refl R_trans R_emit R_disk : core.

Lemma preserves_get (l : loc) (k : string) (default : pyval) :
  preserves R (get l k default).
Proof using R_refl R_trans. unfold get. frame. Qed.

Lemma preserves_get_img_path (filename : string) :
  preserves R (v5._get_img_path filename).
Proof using R_refl R_trans. unfold v5._get_img_path. frame. Qed.

Lemma preserves_hud_percent (hp max_hp : pyval) :
  preserves R (v5.hud_percent hp max_hp).
Proof using R_refl R_trans. unfold v5.hud_percent. frame. Qed.

Lemma preserves_truthy (enemy : option loc) : preserves R (v5.truthy enemy).
Proof using R_refl R_trans. unfold v5.truthy. frame. Qed.

Lemma preserves_get_bar_color (value : pyval) :
  preserves R (v5._get_bar_color value).
Proof using R_refl R_trans. unfold v5._get_bar_color. frame. Qed.

Lemma preserves_create_bar (label : string) (value : pyval) :
  preserves R (v5._create_bar_html label value).
Proof using R_refl R_trans.
  unfold v5._create_bar_html. pose proof preserves_get_bar_color. frame.
Qed.

Lemma preserves_create_card (entity : loc) (is_enemy : bool) :
  preserves R (v5._create_card entity is_enemy).
Proof using R_refl R_trans.
  unfold v5._create_card.
  pose proof preserves_get. pose proof preserves_get_img_path. frame.
Qed.

Lemma preserves_render_html (MODE : mode) (html_content : string) :
  preserves R (v5._render_html MODE html_content).
Proof using R_refl R_emit. unfold v5._render_html. frame. Qed.

Lemma preserves_show_image (MODE : mode) (filename : string) (width : Z) :
  preserves R (v5.show_image MODE filename width).
Proof using R_refl R_trans R_emit.
  unfold v5.show_image, print, print_exn.
  pose proof preserves_get_img_path. pose proof preserves_render_html. frame.
Qed.

Lemma preserves_show_pet (MODE : mode) (mood : pyval) :
  preserves R (v5.show_pet MODE mood).
Proof using R_refl R_trans R_emit.
  unfold v5.show_pet, print. pose proof preserves_show_image. frame.
Qed.

Lemma preserves_show_stats (MODE : mode) (name hp hunger happiness : pyval) :
  preserves R (v5.show_stats MODE name hp hunger happiness).
Proof using R_refl R_trans R_emit.
  unfold v5.show_stats, print.
  pose proof preserves_create_bar. pose proof preserves_render_html. frame.
Qed.

Lemma preserves_show_pet_dict (MODE : mode) (pet_data : loc) :
  preserves R (v5.show_pet_dict MODE pet_data).
Proof using R_refl R_trans R_emit.
  unfold v5.show_pet_dict.
  pose proof preserves_get. pose proof preserves_show_pet.
  pose proof preserves_show_stats. frame.
Qed.

Lemma preserves_render_hud (MODE : mode) (player : loc) :
  preserves R (v5.render_hud MODE player).
Proof using R_refl R_trans R_emit.
  unfold v5.render_hud, print.
  pose proof preserves_get. pose proof preserves_hud_percent.
  pose proof preserves_render_html. frame.
Qed.

Lemma preserves_print_each (prefix : string) (l : list string) :
  preserves R (v5.print_each prefix l).
Proof using R_refl R_trans R_emit.
  induction l as [| x rest IH]; simpl; unfold print; frame.
Qed.

Lemma preserves_show_dashboard
    (MODE : mode) (player : loc) (enemy : option loc) (logs : list string) :
  preserves R (v5.show_dashboard MODE player enemy logs).
Proof using R_refl R_trans R_emit.
  unfold v5.show_dashboard, print.
  pose proof preserves_get. pose proof preserves_truthy.
  pose proof preserves_create_card. pose proof preserves_render_html.
  pose proof preserves_print_each. frame.
Qed.

Lemma preserves_json_dump (obj : pyval) (path : string) :
  preserves R (json_dump obj path).
Proof using R_refl R_trans R_disk. unfold json_dump. frame. Qed.

Lemma preserves_save_pet (pet_data : loc) (filename : string) :
  preserves R (v5.save_pet pet_data filename).
Proof using R_refl R_trans R_emit R_disk.
  unfold v5.save_pet, print, print_exn. pose proof preserves_json_dump. frame.
Qed.

End FramePresenters.

(** C9. No presenter changes a record in place: after [show_pet_dict],
    [show_stats], [render_hud], [show_dashboard] or [save_pet], in either
    mode, the store of [dict] objects is what it was before the call, and so
    is the field mapping of every record in it. *)
Theorem presenters_leave_records_alone
    (MODE : mode) (w : world) (pet_data player : loc) (enemy : option loc)
    (logs : list string) (filename : string) (name hp hunger happiness : pyval) :
  heap (snd (v5.show_pet_dict MODE pet_data w)) = heap w
  /\ heap (snd (v5.show_stats MODE name hp hunger happiness w)) = heap w
  /\ heap (snd (v5.render_hud MODE player w)) = heap w
  /\ heap (snd (v5.show_dashboard MODE player enemy logs w)) = heap w
  /\ heap (snd (v5.save_pet pet_data filename w)) = heap w.
Proof.
  assert (Hrefl : forall w0, same_store w0 w0) by reflexivity.
  assert (Htrans : forall w1 w2 w3,
             same_store w1 w2 -> same_store w2 w3 -> same_store w1 w3)
    by (unfold same_store; congruence).
  assert (Hemit : forall w0 ev, same_store w0 (emitted w0 [ev])) by reflexivity.
  assert (Hdisk : forall w0 dk, same_store w0 (World (heap w0) dk (out w0)))
    by reflexivity.
  repeat split.
  - exact (preserves_show_pet_dict same_store Hrefl Htrans Hemit MODE pet_data w).
  - exact (preserves_show_stats same_store Hrefl Htrans Hemit MODE name hp hunger
             happiness w).
  - exact (preserves_render_hud same_store Hrefl Htrans Hemit MODE player w).
  - exact (preserves_show_dashboard same_store Hrefl Htrans Hemit MODE player enemy
             logs w).
  - exact (preserves_save_pet same_store Hrefl Htrans Hemit Hdisk pet_data filename w).
Qed.

(** The store is not a constant of the model: [create_pet] allocates a
    record and updates it in place. *)
Example create_pet_writes_the_store :
  v5.create_pet (VStr "Fluffy") None None None [("happiness"%string, VInt 70)]
    empty_world =
  (Return 0%nat,
   World {[ 0%nat := [ ("name"%string, VStr "Fluffy"); ("hp"%string, VInt 100);
                       ("hunger"%string, VInt 50); ("mood"%string, VStr "normal");
                       ("happiness"%string, VInt 70) ] ]} ∅ []).
Proof. vm_compute. reflexivity. Qed.

(** ** [show_pet_dict] *)

Lemma v5_show_stats_ints
    (name : string) (hp hunger : Z) (happiness : option Z) (w : world) :
  v5.show_stats JUPYTER (VStr name) (VInt hp) (VInt hunger) (optional_int happiness) w =
  (Return tt,
   emitted w
     [DisplayHTML
        (v5.container_markup
           (v5.title_markup name
            +:+ v5.bar_markup "HP" (str_of_Z hp)
                  (level_color (classify hp)) (str_of_Z (Z.min hp 100))
            +:+ v5.bar_markup "Hunger" (str_of_Z hunger)
                  (level_color (classify hunger)) (str_of_Z (Z.min hunger 100))
            +:+ match happiness with
                | Some h =>
                    v5.bar_markup "Happiness" (str_of_Z h)
                      (level_color (classify h)) (str_of_Z (Z.min h 100))
                | None => EmptyString
                end))]).
Proof.
  unfold v5.show_stats.
  step. step by apply v5_create_bar_int. step by apply v5_create_bar_int.
  destruct happiness as [h |]; cbn [optional_int].
  - step by (step by (apply v5_create_bar_int); reflexivity).
    run. by rewrite !append_assoc.
  - run. by rewrite !append_assoc, append_nil_r.
Qed.

(** ** The bar of the HUD and the bar of the stat panel *)

(** C6, as amended. With a display surface, for a player record whose
    [hp] and [max_hp] are [int]s, [render_hud] colours the bar by a
    two-level rule on the whole-number percentage
    [min(100, max(0, int(hp / max_hp * 100)))]: green [#00C851] exactly when
    it exceeds 50, red [#ff4444] otherwise. For [max_hp] from 1 to 100 and
    [hp] from 0 to 200 the percentage is computed and the bar is green
    exactly when [hp] is at least 51 percent of [max_hp]. In particular
    [hp = 40] of [max_hp = 100] gives a red bar, while [_get_bar_color]
    answers orange [#ffbb33] for the same 40, and [show_stats] displays it
    with an orange HP bar. *)
Theorem render_hud_two_level
    (player : loc) (d : dict) (name : string) (hp max_hp gold : Z) (w : world) :
  heap w !! player = Some d ->
  dict_get d "name" (VStr "Player") = VStr name ->
  dict_get d "hp" (VInt 100) = VInt hp ->
  dict_get d "max_hp" (VInt 100) = VInt max_hp ->
  dict_get d "gold" (VInt 0) = VInt gold ->
  (forall pct,
     v5.hud_percent (VInt hp) (VInt max_hp) w = (Return pct, w) ->
     v5.render_hud JUPYTER player w =
     (Return tt,
      emitted w
        [DisplayHTML
           (v5.hud_markup name
              (if 50 <? pct then "#00C851" else "#ff4444")
              (str_of_Z pct) (str_of_Z hp) (str_of_Z max_hp) (str_of_Z gold))]))
  /\ (0 < max_hp <= 100 ->
      0 <= hp <= 200 ->
      exists pct,
        v5.render_hud JUPYTER player w =
        (Return tt,
         emitted w
           [DisplayHTML
              (v5.hud_markup name
                 (if 51 * max_hp <=? 100 * hp then "#00C851" else "#ff4444")
                 (str_of_Z pct) (str_of_Z hp) (str_of_Z max_hp) (str_of_Z gold))]))
  /\ (hp = 40 ->
      max_hp = 100 ->
      v5.render_hud JUPYTER player w =
      (Return tt,
       emitted w
         [DisplayHTML (v5.hud_markup name "#ff4444" "40" "40" "100" (str_of_Z gold))]))
  /\ v5._get_bar_color (VInt 40) w = (Return "#ffbb33"%string, w)
  /\ (forall hunger,
        v5.show_stats JUPYTER (VStr name) (VInt 40) (VInt hunger) VNone w =
        (Return tt,
         emitted w
           [DisplayHTML
              (v5.container_markup
                 (v5.title_markup name
                  +:+ v5.bar_markup "HP" "40" "#ffbb33" "40"
                  +:+ v5.bar_markup "Hunger" (str_of_Z hunger)
                        (level_color (classify hunger))
                        (str_of_Z (Z.min hunger 100))))])).
Proof.
  intros Hd Hname Hhp Hmax Hgold.
  assert (Hrule : forall pct,
             v5.hud_percent (VInt hp) (VInt max_hp) w = (Return pct, w) ->
             v5.render_hud JUPYTER player w =
             (Return tt,
              emitted w
                [DisplayHTML
                   (v5.hud_markup name
                      (if 50 <? pct then "#00C851" else "#ff4444")
                      (str_of_Z pct) (str_of_Z hp) (str_of_Z max_hp) (str_of_Z gold))])).
  { intros pct Hpct. unfold v5.render_hud.
    do 4 (step by (by apply get_some)).
    rewrite Hname, Hhp, Hmax, Hgold.
    step by exact Hpct.
    reflexivity. }
  split; [exact Hrule |]. split; [| split; [| split]].
  - intros Hrange_max Hrange_hp.
    destruct (hud_threshold_on_small_range hp max_hp w Hrange_max Hrange_hp)
      as (pct & Hpct & Hiff).
    exists pct. rewrite (Hrule pct Hpct).
    replace (51 * max_hp <=? 100 * hp) with (50 <? pct); [reflexivity |].
    destruct (Z.ltb_spec 50 pct), (Z.leb_spec (51 * max_hp) (100 * hp));
      try reflexivity; lia.
  - intros -> ->. by rewrite (Hrule 40).
  - reflexivity.
  - intros hunger.
    change VNone with (optional_int None).
    rewrite (v5_show_stats_ints name 40 hunger None w). by rewrite append_nil_r.
Qed.

Lemma render_hud_two_level_witness :
  heap (world_with (hero 40 100)) !! 0%nat = Some (hero 40 100)
  /\ v5.render_hud JUPYTER 0%nat (world_with (hero 40 100)) =
     (Return tt,
      emitted (world_with (hero 40 100))
        [DisplayHTML (v5.hud_markup "Hero" "#ff4444" "40" "40" "100" "50")])
  /\ v5._get_bar_color (VInt 40) (world_with (hero 40 100)) =
     (Return "#ffbb33"%string, world_with (hero 40 100)).
Proof.
  pose proof (render_hud_two_level 0%nat (hero 40 100) "Hero" 40 100 50
                (world_with (hero 40 100))
                eq_refl eq_refl eq_refl eq_refl eq_refl) as (_ & _ & Hhud & Hbar & _).
  split; [reflexivity |]. split; [exact (Hhud eq_refl eq_refl) | exact Hbar].
Defined.

(** C6, the claim as it stands fails: 101 of 200 is more than 50 percent of
    the full [hp], yet the percentage is cut to the whole number 50 and the
    bar is red. *)
Lemma render_hud_red_above_half :
  50 * 200 < 100 * 101
  /\ v5.render_hud JUPYTER 0%nat (world_with (hero 101 200)) =
     (Return tt,
      emitted (world_with (hero 101 200))
        [DisplayHTML (v5.hud_markup "Hero" "#ff4444" "50" "101" "200" "50")]).
Proof. split; [lia | reflexivity]. Qed.

Lemma more_output_refl (w : world) : more_output w w.
Proof. exists []. by rewrite emitted_nil. Qed.

Lemma more_output_trans (w1 w2 w3 : world) :
  more_output w1 w2 -> more_output w2 w3 -> more_output w1 w3.
Proof.
  intros [evs ->] [evs' ->]. exists (evs ++ evs'). apply emitted_app.
Qed.

Lemma more_output_emit (w : world) (ev : event) : more_output w (emitted w [ev]).
Proof. by exists [ev]. Qed.

Lemma path_join_not_empty (a b : string) :
  a <> EmptyString -> is_empty_string (path_join a b) = false.
Proof.
  intros Ha. unfold path_join.
  destruct (starts_with "/" b) eqn:Hb.
  - destruct b; [discriminate | reflexivity].
  - destruct a as [| x a']; [done |].
    destruct (is_empty_string (String x a') || ends_with_slash (String x a'));
      reflexivity.
Qed.

Lemma path_exists_on_disk (a b : string) (w : world) :
  a <> EmptyString ->
  path_exists (path_join a b) w =
  (Return (match disk w !! path_join a b with Some _ => true | None => false end), w).
Proof.
  intros Ha. unfold path_exists. by rewrite path_join_not_empty.
Qed.

Lemma try_return {A} (body : M A) (handler : exn -> option (M A)) (w w' : world) (a : A) :
  body w = (Return a, w') -> try_except body handler w = (Return a, w').
Proof. intros H. unfold try_except. by rewrite H. Qed.

Lemma try_raise {A} (body h : M A) (handler : exn -> option (M A)) (w w' : world)
    (e : exn) :
  body w = (Raise e, w') -> handler e = Some h -> try_except body handler w = h w'.
Proof. intros H He. unfold try_except. by rewrite H, He. Qed.

Lemma get_img_path_result (filename : string) (w : world) :
  v5._get_img_path filename w =
  (Return
     (match disk w !! path_join v5.ASSETS_DIR filename with
      | Some _ => Some (path_join v5.ASSETS_DIR filename)
      | None =>
          match disk w !! path_join (path_join (path_join ".." "..") v5.ASSETS_DIR)
                            filename with
          | Some _ =>
              Some (path_join (path_join (path_join ".." "..") v5.ASSETS_DIR) filename)
          | None => None
          end
      end), w).
Proof.
  unfold v5._get_img_path.
  step by (by apply path_exists_on_disk).
  destruct (disk w !! path_join v5.ASSETS_DIR filename); [reflexivity |].
  step by (by apply path_exists_on_disk).
  destruct (disk w !! path_join (path_join (path_join ".." "..") v5.ASSETS_DIR) filename);
    reflexivity.
Qed.

Lemma read_bytes_found (path : string) (n : node) (w : world) :
  disk w !! path = Some n ->
  (exists c, read_bytes path w = (Return c, w))
  \/ (exists e, read_bytes path w = (Raise e, w)).
Proof.
  intros Hn. unfold read_bytes. destruct (is_empty_string path); [right; eauto |].
  rewrite Hn. destruct n; [left | right]; eauto.
Qed.

(** What [_get_img_path] returns is on the disk. *)
Lemma get_img_path_found (filename : string) (w : world) :
  exists r, v5._get_img_path filename w = (Return r, w)
    /\ forall p, r = Some p -> exists n, disk w !! p = Some n.
Proof.
  rewrite get_img_path_result. eexists. split; [reflexivity |].
  intros p.
  destruct (disk w !! path_join v5.ASSETS_DIR filename) as [n |] eqn:Hprimary.
  - intros [= <-]. eauto.
  - destruct (disk w !! path_join (path_join (path_join ".." "..") v5.ASSETS_DIR)
                          filename) as [n |] eqn:Hfallback; [| discriminate].
    intros [= <-]. eauto.
Qed.

(** Showing the portrait never fails: a missing or unreadable image is
    skipped or reported. *)
Lemma show_image_returns (MODE : mode) (filename : string) (width : Z) (w : world) :
  fst (v5.show_image MODE filename width w) = Return tt.
Proof.
  destruct MODE; [| reflexivity].
  unfold v5.show_image.
  destruct (get_img_path_found filename w) as (r & Hr & Hfound).
  step by exact Hr.
  destruct r as [path |]; [| reflexivity].
  destruct (Hfound path eq_refl) as [n Hn].
  destruct (read_bytes_found path n w Hn) as [[c Hc] | [e He]].
  - erewrite bind_return
      by (apply try_return; erewrite bind_return by exact Hc; reflexivity).
    reflexivity.
  - assert (Hbody : try_except
                      (bytes <- read_bytes path ;;
                       ret (Some ("data:image/png;base64," +:+ b64encode bytes)))
                      (fun e => Some (print_exn "Error loading image: " e ;; ret None)) w
                    = (Return None, emitted w [PrintExn "Error loading image: " e])).
    { erewrite try_raise;
        [| erewrite bind_raise by exact He; reflexivity | reflexivity].
      reflexivity. }
    erewrite bind_return by exact Hbody. reflexivity.
Qed.

Lemma show_pet_of_str (MODE : mode) (mood : string) (w : world) :
  exists evs, v5.show_pet MODE (VStr mood) w = (Return tt, emitted w evs).
Proof.
  destruct MODE.
  - unfold v5.show_pet. step.
    pose proof (show_image_returns JUPYTER (mood +:+ ".png") 200 w) as Hret.
    destruct (preserves_show_image more_output more_output_refl more_output_trans
                more_output_emit JUPYTER (mood +:+ ".png") 200 w) as [evs Hevs].
    destruct (v5.show_image JUPYTER (mood +:+ ".png") 200 w) as [r w'].
    simpl in Hret, Hevs. subst. by exists evs.
  - eexists. reflexivity.
Qed.

(** C10. [show_pet_dict] reads each of the five fields with a fixed
    default: ["Unknown"] for the name, 0 for hp, 0 for hunger, [None] for
    happiness, ["normal"] for the mood; an absent field is its default. So a
    record without hp and without happiness is shown with an HP bar of value
    0 (red, filled to 0 percent) and with no happiness bar; in plain text
    its HP line reads [HP: 0/100]. *)
Theorem show_pet_dict_defaults
    (MODE : mode) (pet_data : loc) (d : dict) (w : world) :
  heap w !! pet_data = Some d ->
  v5.show_pet_dict MODE pet_data w =
    (v5.show_pet MODE (dict_get d "mood" (VStr "normal")) ;;
     v5.show_stats MODE
       (dict_get d "name" (VStr "Unknown"))
       (dict_get d "hp" (VInt 0))
       (dict_get d "hunger" (VInt 0))
       (dict_get d "happiness" VNone)) w
  /\ (forall k default, dict_lookup d k = None -> dict_get d k default = default)
  /\ (forall name mood hunger,
        dict_lookup d "hp" = None ->
        dict_lookup d "happiness" = None ->
        dict_get d "name" (VStr "Unknown") = VStr name ->
        dict_get d "mood" (VStr "normal") = VStr mood ->
        dict_get d "hunger" (VInt 0) = VInt hunger ->
        (exists evs,
           v5.show_pet_dict JUPYTER pet_data w =
           (Return tt,
            emitted w
              (evs ++
               [DisplayHTML
                  (v5.container_markup
                     (v5.title_markup name
                      +:+ v5.bar_markup "HP" "0" "#ff4444" "0"
                      +:+ v5.bar_markup "Hunger" (str_of_Z hunger)
                            (level_color (classify hunger))
                            (str_of_Z (Z.min hunger 100))))])))
        /\ v5.show_pet_dict TERMINAL pet_data w =
           (Return tt,
            emitted w
              [Print ("(^." +:+ mood +:+ ".^) [Pet is " +:+ mood +:+ "]");
               Print ("--- " +:+ name +:+ " ---");
               Print "HP: 0/100";
               Print ("Hunger: " +:+ str_of_Z hunger +:+ "/100")])).
Proof.
  intros Hd.
  assert (Hunfold : forall MODE',
             v5.show_pet_dict MODE' pet_data w =
             (v5.show_pet MODE' (dict_get d "mood" (VStr "normal")) ;;
              v5.show_stats MODE'
                (dict_get d "name" (VStr "Unknown"))
                (dict_get d "hp" (VInt 0))
                (dict_get d "hunger" (VInt 0))
                (dict_get d "happiness" VNone)) w).
  { intros MODE'. unfold v5.show_pet_dict.
    do 5 (step by (by apply get_some)). reflexivity. }
  split; [apply Hunfold |]. split.
  - intros k default Hk. unfold dict_get. by rewrite Hk.
  - intros name mood hunger Hhp Hhappy Hname Hmood Hhunger.
    assert (Hhp' : dict_get d "hp" (VInt 0) = VInt 0)
      by (unfold dict_get; by rewrite Hhp).
    assert (Hhappy' : dict_get d "happiness" VNone = optional_int None)
      by (unfold dict_get; by rewrite Hhappy).
    split.
    + rewrite Hunfold, Hname, Hmood, Hhunger, Hhp', Hhappy'.
      destruct (show_pet_of_str JUPYTER mood w) as [evs Hevs].
      exists evs. step by exact Hevs.
      rewrite v5_show_stats_ints, emitted_app, append_nil_r. reflexivity.
    + rewrite Hunfold, Hname, Hmood, Hhunger, Hhp', Hhappy'.
      vm_compute optional_int. unfold v5.show_pet, v5.show_stats.
      run. cbn [heap disk out]. rewrite <- !app_assoc. reflexivity.
Qed.

Lemma show_pet_dict_defaults_witness :
  heap (world_with [("hunger"%string, VInt 30)]) !! 0%nat
    = Some [("hunger"%string, VInt 30)]
  /\ v5.show_pet_dict TERMINAL 0%nat (world_with [("hunger"%string, VInt 30)]) =
     (Return tt,
      emitted (world_with [("hunger"%string, VInt 30)])
        [Print "(^.normal.^) [Pet is normal]";
         Print "--- Unknown ---";
         Print "HP: 0/100";
         Print "Hunger: 30/100"]).
Proof.
  split; [reflexivity |].
  exact (proj2 (proj2 (proj2 (show_pet_dict_defaults TERMINAL 0%nat
                                [("hunger"%string, VInt 30)]
                                (world_with [("hunger"%string, VInt 30)]) eq_refl))
                  "Unknown"%string "normal"%string 30
                  eq_refl eq_refl eq_refl eq_refl eq_refl)).
Defined.

(** ** [show_dashboard] *)

Lemma print_each_prints (prefix : string) (l : list string) (w : world) :
  v5.print_each prefix l w =
  (Return tt, emitted w (map (fun x => Print (prefix +:+ x)) l)).
Proof.
  revert w. induction l as [| x rest IH]; intros w; simpl.
  - unfold ret. by rewrite emitted_nil.
  - step. rewrite IH. unfold emitted. cbn [heap disk out].
    by rewrite <- app_assoc.
Qed.

Lemma create_card_reads_only (entity : loc) (is_enemy : bool) (w : world) :
  snd (v5._create_card entity is_enemy w) = w.
Proof.
  symmetry.
  apply (preserves_create_card eq (fun w0 => eq_refl)
           (fun w1 w2 w3 H12 H23 => eq_trans H12 H23)).
Qed.

Lemma last_n_length {A} (n : nat) (l : list A) : (length (last_n n l) <= n)%nat.
Proof. unfold last_n. rewrite List.length_skipn. lia. Qed.

Lemma last_n_suffix {A} (n : nat) (l : list A) : exists older, l = older ++ last_n n l.
Proof.
  exists (firstn (length l - n) l). unfold last_n. symmetry. apply firstn_skipn.
Qed.

Lemma last_n_newest_first {A} (n : nat) (older : list A) (newest : A) :
  (0 < n)%nat ->
  rev (last_n n (older ++ [newest])) = newest :: rev (last_n (n - 1) older).
Proof.
  intros Hn. unfold last_n. rewrite List.length_app. simpl.
  rewrite List.skipn_app.
  replace (length older + 1 - n - length older)%nat with 0%nat by lia.
  simpl. rewrite rev_app_distr. simpl.
  replace (length older + 1 - n)%nat with (length older - (n - 1))%nat by lia.
  reflexivity.
Qed.

Lemma create_card_returns (entity : loc) (is_enemy : bool) (card : string) (w : world) :
  fst (v5._create_card entity is_enemy w) = Return card ->
  v5._create_card entity is_enemy w = (Return card, w).
Proof.
  intros Hcard. pose proof (create_card_reads_only entity is_enemy w) as Hw.
  destruct (v5._create_card entity is_enemy w) as [r w']. simpl in Hcard, Hw.
  by subst r w'.
Qed.

Lemma truthy_record (enemy : loc) (d : dict) (w : world) :
  heap w !! enemy = Some d ->
  v5.truthy (Some enemy) w = (Return (match d with [] => false | _ => true end), w).
Proof. intros Hd. unfold v5.truthy, deref, bind, ret. by rewrite Hd. Qed.

(** C5, as amended. With a display surface, for every player record whose
    card can be built, every enemy and every log, [show_dashboard] displays
    one dashboard: the player card; in the place of the enemy card, the
    card of the enemy when there is one, and otherwise (no enemy, or an
    enemy record without any field) the block
    [<div style="width: 45%;"></div>], empty but as wide as a card; and a
    log area that holds the last five entries of the log (all of them when
    there are fewer), the most recent first. Without a display surface it
    prints a header, the player line, the enemy line when there is an
    enemy, and the last three entries of the log, the oldest of them
    first. *)
Theorem show_dashboard_slot_and_log
    (player : loc) (d : dict) (card name hp : string) (logs : list string) (w : world) :
  heap w !! player = Some d ->
  fst (v5._create_card player false w) = Return card ->
  py_str (dict_get d "name" VNone) = Return name ->
  py_str (dict_get d "hp" VNone) = Return hp ->
  v5.show_dashboard JUPYTER player None logs w =
    (Return tt,
     emitted w
       [DisplayHTML
          (v5.dashboard_markup card (q "<div style='width: 45%;'></div>")
             (concat_strings (map v5.log_row (rev (last_n 5 logs)))))])
  /\ (forall enemy,
        heap w !! enemy = Some [] ->
        v5.show_dashboard JUPYTER player (Some enemy) logs w =
        (Return tt,
         emitted w
           [DisplayHTML
              (v5.dashboard_markup card (q "<div style='width: 45%;'></div>")
                 (concat_strings (map v5.log_row (rev (last_n 5 logs)))))]))
  /\ (forall enemy field rest enemy_card,
        heap w !! enemy = Some (field :: rest) ->
        fst (v5._create_card enemy true w) = Return enemy_card ->
        v5.show_dashboard JUPYTER player (Some enemy) logs w =
        (Return tt,
         emitted w
           [DisplayHTML
              (v5.dashboard_markup card enemy_card
                 (concat_strings (map v5.log_row (rev (last_n 5 logs)))))]))
  /\ (length (last_n 5 logs) <= 5)%nat
  /\ (exists older, logs = older ++ last_n 5 logs)
  /\ (forall older newest,
        logs = older ++ [newest] ->
        rev (last_n 5 logs) = newest :: rev (last_n 4 older))
  /\ v5.show_dashboard TERMINAL player None logs w =
     (Return tt,
      emitted w
        ([Print "--- DASHBOARD ---";
          Print ("Player: " +:+ name +:+ " | HP: " +:+ hp);
          Print "--- LOGS ---"]
         ++ map (fun entry => Print ("> " +:+ entry)) (last_n 3 logs)))
  /\ (forall enemy field rest enemy_name enemy_hp,
        heap w !! enemy = Some (field :: rest) ->
        py_str (dict_get (field :: rest) "name" VNone) = Return enemy_name ->
        py_str (dict_get (field :: rest) "hp" VNone) = Return enemy_hp ->
        v5.show_dashboard TERMINAL player (Some enemy) logs w =
        (Return tt,
         emitted w
           ([Print "--- DASHBOARD ---";
             Print ("Player: " +:+ name +:+ " | HP: " +:+ hp);
             Print ("Enemy: " +:+ enemy_name +:+ " | HP: " +:+ enemy_hp);
             Print "--- LOGS ---"]
            ++ map (fun entry => Print ("> " +:+ entry)) (last_n 3 logs)))).
Proof.
  intros Hd Hcard Hname Hhp.
  apply create_card_returns in Hcard.
  split; [| split; [| split; [| split; [| split; [| split; [| split]]]]]].
  - unfold v5.show_dashboard.
    step by exact Hcard. step. step. reflexivity.
  - intros enemy Henemy. unfold v5.show_dashboard.
    step by exact Hcard. step by (by apply truthy_record). step. reflexivity.
  - intros enemy field rest enemy_card Henemy Hecard.
    apply create_card_returns in Hecard. unfold v5.show_dashboard.
    step by exact Hcard. step by (by apply truthy_record).
    step by exact Hecard. reflexivity.
  - apply last_n_length.
  - apply last_n_suffix.
  - intros older newest ->. apply (last_n_newest_first 5 older newest). lia.
  - unfold v5.show_dashboard.
    step. step by (by apply get_some).
    step by (unfold lift; rewrite Hname; reflexivity).
    step by (by apply get_some).
    step by (unfold lift; rewrite Hhp; reflexivity).
    step. step. step. step.
    rewrite print_each_prints. unfold emitted; cbn [heap disk out].
    by rewrite <- !app_assoc.
  - intros enemy field rest enemy_name enemy_hp Henemy Hename Hehp.
    unfold v5.show_dashboard.
    step. step by (by apply get_some).
    step by (unfold lift; rewrite Hname; reflexivity).
    step by (by apply get_some).
    step by (unfold lift; rewrite Hhp; reflexivity).
    step. step by (by apply truthy_record).
    step by (step by (by apply get_some);
             step by (unfold lift; rewrite Hename; reflexivity);
             step by (by apply get_some);
             step by (unfold lift; rewrite Hehp; reflexivity);
             reflexivity).
    step.
    rewrite print_each_prints. unfold emitted; cbn [heap disk out].
    by rewrite <- !app_assoc.
Qed.

(** The hero of the specification, alone and then facing a slime, with a
    log of six entries. *)
Lemma show_dashboard_slot_and_log_witness :
  let w := World {[ 0%nat := hero 40 100;
                    1%nat := [("name"%string, VStr "Slime"); ("hp"%string, VInt 7);
                              ("max_hp"%string, VInt 10)] ]} ∅ [] in
  let logs := ["one"; "two"; "three"; "four"; "five"; "six"]%string in
  let hero_card :=
    v5.card_markup "2px solid #00C851" "rgba(0, 50, 0, 0.1)"
      (q "<div style='height: 80px; width: 80px; background: #ccc; display: flex; align-items: center; justify-content: center;'>normal</div>")
      "Hero" "#00C851" "40" "40" "100" in
  let slime_card :=
    v5.card_markup "2px solid #ff4444" "rgba(50, 0, 0, 0.1)"
      (q "<div style='height: 80px; width: 80px; background: #ccc; display: flex; align-items: center; justify-content: center;'>normal</div>")
      "Slime" "#ff4444" "70" "7" "10" in
  let newest_first :=
    v5.log_row "six" +:+ v5.log_row "five" +:+ v5.log_row "four"
    +:+ v5.log_row "three" +:+ v5.log_row "two" in
  v5.show_dashboard JUPYTER 0%nat None logs w =
    (Return tt,
     emitted w
       [DisplayHTML
          (v5.dashboard_markup hero_card (q "<div style='width: 45%;'></div>")
             newest_first)])
  /\ v5.show_dashboard JUPYTER 0%nat (Some 1%nat) logs w =
     (Return tt,
      emitted w [DisplayHTML (v5.dashboard_markup hero_card slime_card newest_first)]).
Proof.
  pose proof (show_dashboard_slot_and_log 0%nat (hero 40 100)
                (v5.card_markup "2px solid #00C851" "rgba(0, 50, 0, 0.1)"
                   (q "<div style='height: 80px; width: 80px; background: #ccc; display: flex; align-items: center; justify-content: center;'>normal</div>")
                   "Hero" "#00C851" "40" "40" "100")
                "Hero" "40"
                ["one"; "two"; "three"; "four"; "five"; "six"]%string
                (World {[ 0%nat := hero 40 100;
                          1%nat := [("name"%string, VStr "Slime"); ("hp"%string, VInt 7);
                                    ("max_hp"%string, VInt 10)] ]} ∅ [])
                eq_refl eq_refl eq_refl eq_refl) as (Halone & _ & Hfacing & _).
  split; [exact Halone |].
  exact (Hfacing 1%nat _ _ _ eq_refl eq_refl).
Defined.

(** C5, the claim as it stands fails without a display surface: of the log
    [first, second] the older entry is printed first, and nothing stands in
    for the enemy. *)
Lemma show_dashboard_terminal_oldest_first :
  v5.show_dashboard TERMINAL 0%nat None ["first"; "second"]%string
    (world_with (hero 40 100)) =
  (Return tt,
   emitted (world_with (hero 40 100))
     [Print "--- DASHBOARD ---";
      Print "Player: Hero | HP: 40";
      Print "--- LOGS ---";
      Print "> first";
      Print "> second"])
  /\ ~ (exists card,
          v5.show_dashboard TERMINAL 0%nat None ["first"; "second"]%string
            (world_with (hero 40 100)) =
          (Return tt,
           emitted (world_with (hero 40 100))
             [DisplayHTML
                (v5.dashboard_markup card v5.EMPTY_SLOT
                   (v5.log_row "second" +:+ v5.log_row "first"))])).
Proof.
  split; [reflexivity |].
  intros [card Hcard]. apply (f_equal (fun r => out (snd r))) in Hcard.
  vm_compute in Hcard. discriminate Hcard.
Qed.

(** ** The round trip through [json] *)

Lemma scanstring_escape_char (c : ascii) (tail : string) :
  json.scanstring (json.escape_char c +:+ tail) =
  json.prepend (String c EmptyString) (json.scanstring tail).
Proof. destruct c as [[] [] [] [] [] [] [] []]; reflexivity. Qed.

Lemma scanstring_escape (s rest : string) :
  json.scanstring (json.escape s +:+ String dquote rest) = json.Parsed s rest.
Proof.
  induction s as [| c s IH].
  - reflexivity.
  - change (json.escape (String c s)) with (json.escape_char c +:+ json.escape s).
    rewrite append_assoc, scanstring_escape_char, IH. reflexivity.
Qed.

Lemma scan_encode_basestring (fuel : nat) (s rest : string) :
  json.scan_once (S fuel) (json.encode_basestring s +:+ rest) = json.Parsed (VStr s) rest.
Proof.
  unfold json.encode_basestring. rewrite append_cons.
  cbn [json.scan_once]. rewrite Ascii.eqb_refl.
  rewrite append_assoc, append_cons, append_nil_l, scanstring_escape. reflexivity.
Qed.

Lemma ends_number_not_float (rest : string) :
  ends_number rest = true -> json.float_tail rest = false.
Proof.
  destruct rest as [| c [| d r]]; [reflexivity | reflexivity |].
  unfold ends_number, json.float_tail.
  destruct (Ascii.eqb c "."), (Ascii.eqb c "e"), (Ascii.eqb c "E");
    rewrite ?andb_false_r; simpl; intros; try discriminate; reflexivity.
Qed.

Lemma scan_digits_string_of_uint (u : uint) (rest : string) :
  ends_number rest = true ->
  json.scan_digits (NilEmpty.string_of_uint u +:+ rest) = (u, rest).
Proof.
  intros Hrest. induction u; cbn [NilEmpty.string_of_uint];
    rewrite ?append_cons; cbn [json.scan_digits json.digit_of_char];
    rewrite ?IHu; try reflexivity.
  rewrite append_nil_l. destruct rest as [| c r]; [reflexivity |].
  cbn [json.scan_digits]. unfold ends_number, json.is_digit in Hrest.
  destruct (json.digit_of_char c); [discriminate | reflexivity].
Qed.

(** The decimal digits of a positive number start with a digit that is
    not zero. *)
Lemma to_uint_head (p : positive) :
  match Pos.to_uint p with
  | Nil | D0 _ => False
  | _ => True
  end.
Proof.
  pose proof (DecimalPos.Unsigned.to_of (Pos.to_uint p)) as Hnorm.
  rewrite DecimalPos.Unsigned.of_to in Hnorm. simpl in Hnorm.
  pose proof (DecimalPos.Unsigned.to_uint_nonzero p) as Hnz.
  destruct (Pos.to_uint p) as [| u | | | | | | | | |] eqn:Hu; try exact I.
  - by apply (DecimalPos.Unsigned.to_uint_nonnil p).
  - unfold unorm in Hnorm. rewrite nzhead_D0 in Hnorm.
    destruct (nzhead u) eqn:Hhead; try (symmetry in Hnorm; discriminate Hnorm).
    + injection Hnorm as ->. by apply Hnz.
    + by apply (nzhead_nonzero u u0).
Qed.

Lemma digits_of_positive (p : positive) (rest : string) :
  ends_number rest = true ->
  exists c r,
    NilEmpty.string_of_uint (Pos.to_uint p) +:+ rest = String c r
    /\ NilZero.string_of_uint (Pos.to_uint p) = NilEmpty.string_of_uint (Pos.to_uint p)
    /\ json.is_digit c = true
    /\ Ascii.eqb c "0" = false
    /\ Ascii.eqb c "-" = false
    /\ json.scan_digits (String c r) = (Pos.to_uint p, rest).
Proof.
  intros Hrest. pose proof (to_uint_head p) as Hhead.
  pose proof (scan_digits_string_of_uint (Pos.to_uint p) rest Hrest) as Hscan.
  unfold NilZero.string_of_uint.
  destruct (Pos.to_uint p) as [| u | u | u | u | u | u | u | u | u | u];
    try contradiction;
    cbn [NilEmpty.string_of_uint] in *; rewrite append_cons in *;
    eexists _, _; repeat split; try reflexivity; exact Hscan.
Qed.

Lemma scan_number_str_of_Z (n : Z) (rest : string) :
  ends_number rest = true ->
  json.scan_number (str_of_Z n +:+ rest) = json.Parsed (VInt n) rest.
Proof.
  intros Hrest. pose proof (ends_number_not_float rest Hrest) as Hfloat.
  unfold str_of_Z. destruct n as [| p | p].
  - change (json.scan_number (String "0" rest) = json.Parsed (VInt 0) rest).
    unfold json.scan_number.
    cbn [Ascii.eqb Bool.eqb json.is_digit json.digit_of_char negb].
    by rewrite Hfloat.
  - destruct (digits_of_positive p rest Hrest)
      as (c & r & Htext & Hnz & Hdigit & Hzero & Hminus & Hscan).
    cbn [Z.to_int NilZero.string_of_int]. rewrite Hnz, Htext.
    unfold json.scan_number. rewrite Hminus, Hdigit, Hzero, Hscan, Hfloat.
    cbn [negb]. unfold Z.of_uint. by rewrite DecimalPos.Unsigned.of_to.
  - destruct (digits_of_positive p rest Hrest)
      as (c & r & Htext & Hnz & Hdigit & Hzero & Hminus & Hscan).
    cbn [Z.to_int NilZero.string_of_int]. rewrite Hnz, append_cons, Htext.
    unfold json.scan_number. cbn [Ascii.eqb Bool.eqb].
    rewrite Hdigit, Hzero, Hscan, Hfloat.
    cbn [negb]. unfold Z.of_uint. by rewrite DecimalPos.Unsigned.of_to.
Qed.

(** The first character of the text of a number. *)
Lemma str_of_Z_head (n : Z) (rest : string) :
  exists c r,
    str_of_Z n +:+ rest = String c r
    /\ (json.is_digit c || Ascii.eqb c "-") = true.
Proof.
  unfold str_of_Z. destruct n as [| p | p].
  - by exists "0"%char, rest.
  - destruct (digits_of_positive p EmptyString eq_refl)
      as (c & r & Htext & Hnz & Hdigit & _).
    rewrite append_nil_r in Htext.
    cbn [Z.to_int NilZero.string_of_int]. rewrite Hnz, Htext, append_cons.
    eexists _, _. split; [reflexivity |]. by rewrite Hdigit.
  - cbn [Z.to_int NilZero.string_of_int]. rewrite append_cons.
    eexists _, _. split; reflexivity.
Qed.

Lemma scan_once_number (fuel : nat) (c : ascii) (r : string) :
  (json.is_digit c || Ascii.eqb c "-") = true ->
  json.scan_once (S fuel) (String c r) =
  match json.scan_number (String c r) with
  | json.Malformed =>
      if starts_with "NaN" (String c r) || starts_with "Infinity" (String c r)
         || starts_with "-Infinity" (String c r)
      then json.Unsupported else json.Malformed
  | other => other
  end.
Proof.
  intros Hc.
  destruct c as [[] [] [] [] [] [] [] []]; try discriminate Hc; reflexivity.
Qed.

Lemma scan_once_str_of_Z (fuel : nat) (n : Z) (rest : string) :
  ends_number rest = true ->
  json.scan_once (S fuel) (str_of_Z n +:+ rest) = json.Parsed (VInt n) rest.
Proof.
  intros Hrest. pose proof (scan_number_str_of_Z n rest Hrest) as Hscan.
  destruct (str_of_Z_head n rest) as (c & r & Htext & Hc).
  rewrite Htext in *. rewrite scan_once_number by exact Hc. by rewrite Hscan.
Qed.
Lemma skip_ws_head_ok (s : string) : head_ok s = true -> json.skip_ws s = s.
Proof.
  destruct s as [| c r]; [reflexivity |]. unfold head_ok. cbn [json.skip_ws].
  destruct (json.is_ws c); [discriminate | reflexivity].
Qed.

Lemma skip_ws_newline_indent (level : nat) (s : string) :
  json.skip_ws (json.newline_indent level +:+ s) = json.skip_ws s.
Proof.
  unfold json.newline_indent. rewrite append_assoc.
  change (json.skip_ws (json.spaces level +:+ s) = json.skip_ws s).
  induction level as [| n IH]; [reflexivity |].
  cbn [json.spaces]. rewrite append_assoc. exact IH.
Qed.

Lemma head_ok_inv (s : string) :
  head_ok s = true ->
  exists c r, s = String c r /\ json.is_ws c = false /\ Ascii.eqb c "]" = false.
Proof.
  destruct s as [| c r]; [discriminate |]. unfold head_ok.
  destruct (json.is_ws c) eqn:Hws; [discriminate |].
  destruct (Ascii.eqb c "]") eqn:Hbracket; [discriminate |].
  intros _. by exists c, r.
Qed.

Lemma head_ok_number (c : ascii) (r : string) :
  (json.is_digit c || Ascii.eqb c "-") = true -> head_ok (String c r) = true.
Proof.
  intros Hc. destruct c as [[] [] [] [] [] [] [] []]; try discriminate Hc; reflexivity.
Qed.

Lemma head_ok_encode (v : pyval) (level : nat) (rest : string) :
  v <> VOpaque -> head_ok (fst (json.encode level v) +:+ rest) = true.
Proof.
  intros Hv. destruct v as [| [] | n | s | [| x xs] | [| [k x] d] |];
    try reflexivity; try congruence.
  - cbn [json.encode fst]. destruct (str_of_Z_head n rest) as (c & r & -> & Hc).
    by apply head_ok_number.
  - cbn [json.encode].
    destruct (json.encode_items _ _ _ _) as [body []]; reflexivity.
  - cbn [json.encode].
    destruct (json.encode_pairs _ _ _ _) as [body []]; reflexivity.
Qed.

Lemma representable_not_opaque (v : pyval) :
  json_representable v = true -> v <> VOpaque.
Proof. intros H ->. discriminate H. Qed.

Lemma array_items_round_trip (level : nat) (xs : list pyval) :
  Forall round_trips xs ->
  forallb json_representable xs = true ->
  forall (x : pyval) (fuel : nat) (rest : string),
    round_trips x ->
    json_representable x = true ->
    (items_need (x :: xs) <= fuel)%nat ->
    snd (json.encode_items (json.encode (S level))
           ("," +:+ json.newline_indent (S level)) false xs) = true
    /\ json.array_items fuel
         (fst (json.encode (S level) x)
          +:+ fst (json.encode_items (json.encode (S level))
                     ("," +:+ json.newline_indent (S level)) false xs)
          +:+ json.newline_indent level +:+ "]" +:+ rest)
       = json.Parsed (x :: xs) rest.
Proof.
  induction xs as [| y ys IH]; intros Hall Hrep x fuel rest Hx Hxrep Hfuel.
  - split; [reflexivity |].
    destruct fuel as [| fuel]; [cbn in Hfuel; lia |].
    cbn [items_need fold_right] in Hfuel.
    cbn [json.encode_items fst json.array_items].
    destruct (Hx Hxrep (S level) fuel
                (EmptyString +:+ json.newline_indent level +:+ "]" +:+ rest)
                ltac:(lia) eq_refl) as [_ ->].
    rewrite append_nil_l, skip_ws_newline_indent. reflexivity.
  - apply Forall_cons_1 in Hall as [Hy Hys].
    cbn [forallb] in Hrep. apply andb_prop in Hrep as [Hyrep Hysrep].
    destruct fuel as [| fuel]; [cbn in Hfuel; lia |].
    change (items_need (x :: y :: ys))
      with (S (Nat.max (need x) (items_need (y :: ys)))) in Hfuel.
    destruct (IH Hys Hysrep y fuel rest Hy Hyrep ltac:(lia)) as [Hok Hitems].
    destruct (Hy Hyrep (S level) (need y) EmptyString ltac:(lia) eq_refl) as [Hyok _].
    pose proof (head_ok_encode y (S level)
                  (fst (json.encode_items (json.encode (S level))
                          ("," +:+ json.newline_indent (S level)) false ys)
                   +:+ json.newline_indent level +:+ "]" +:+ rest)
                  (representable_not_opaque y Hyrep)) as Hhead.
    clear IH.
    cbn [json.encode_items].
    destruct (json.encode (S level) y) as [sy oky].
    destruct (json.encode_items (json.encode (S level))
                ("," +:+ json.newline_indent (S level)) false ys) as [sr okr].
    cbn [snd fst] in *. subst oky okr. split; [reflexivity |].
    cbn [json.array_items fst snd].
    rewrite !append_assoc.
    destruct (Hx Hxrep (S level) fuel
                ("," +:+ json.newline_indent (S level) +:+ sy +:+ sr
                 +:+ json.newline_indent level +:+ "]" +:+ rest)
                ltac:(lia) eq_refl) as [_ ->].
    change ("," +:+ json.newline_indent (S level) +:+ sy +:+ sr
            +:+ json.newline_indent level +:+ "]" +:+ rest)
      with (String "," (json.newline_indent (S level) +:+ sy +:+ sr
                        +:+ json.newline_indent level +:+ "]" +:+ rest)).
    change (json.skip_ws (String "," ?r)) with (String "," r).
    cbn [Ascii.eqb Bool.eqb].
    rewrite skip_ws_newline_indent, skip_ws_head_ok by exact Hhead.
    by rewrite Hitems.
Qed.

Create Rewrite HintDb strings.
#[local] Hint Rewrite append_assoc append_cons append_nil_l : strings.

Lemma object_items_round_trip (level : nat) (ys : dict) :
  Forall (fun kv => round_trips (snd kv)) ys ->
  forallb (fun kv => valid_utf8 (fst kv) && json_representable (snd kv)) ys = true ->
  forall (k : string) (x : pyval) (fuel : nat) (rest : string),
    round_trips x ->
    json_representable x = true ->
    (pairs_need ((k, x) :: ys) <= fuel)%nat ->
    snd (json.encode_pairs (json.encode (S level))
           ("," +:+ json.newline_indent (S level)) false ys) = true
    /\ json.object_items fuel
         (json.escape k
          +:+ String dquote
                (": " +:+ fst (json.encode (S level) x)
                 +:+ fst (json.encode_pairs (json.encode (S level))
                            ("," +:+ json.newline_indent (S level)) false ys)
                 +:+ json.newline_indent level +:+ "}" +:+ rest))
       = json.Parsed ((k, x) :: ys) rest.
Proof.
  induction ys as [| [k2 y] ys IH]; intros Hall Hrep k x fuel rest Hx Hxrep Hfuel.
  - split; [reflexivity |].
    destruct fuel as [| fuel]; [cbn in Hfuel; lia |].
    cbn [pairs_need fold_right snd] in Hfuel.
    cbn [json.encode_pairs fst json.object_items].
    rewrite scanstring_escape.
    pose proof (head_ok_encode x (S level)
                  (EmptyString +:+ json.newline_indent level +:+ "}" +:+ rest)
                  (representable_not_opaque x Hxrep)) as Hhead.
    change (json.skip_ws (": " +:+ ?t)) with (String ":" (String " " t)).
    cbn [Ascii.eqb Bool.eqb].
    change (json.skip_ws (String " " ?t)) with (json.skip_ws t).
    rewrite skip_ws_head_ok by exact Hhead.
    destruct (Hx Hxrep (S level) fuel
                (EmptyString +:+ json.newline_indent level +:+ "}" +:+ rest)
                ltac:(lia) eq_refl) as [_ ->].
    rewrite append_nil_l, skip_ws_newline_indent. reflexivity.
  - apply Forall_cons_1 in Hall as [Hy Hys]. cbn [snd] in Hy.
    cbn [forallb fst snd] in Hrep. apply andb_prop in Hrep as [Hyrep Hysrep].
    apply andb_prop in Hyrep as [_ Hyrep].
    destruct fuel as [| fuel]; [cbn in Hfuel; lia |].
    change (pairs_need ((k, x) :: (k2, y) :: ys))
      with (S (Nat.max (need x) (pairs_need ((k2, y) :: ys)))) in Hfuel.
    destruct (IH Hys Hysrep k2 y fuel rest Hy Hyrep ltac:(lia)) as [Hok Hitems].
    destruct (Hy Hyrep (S level) (need y) EmptyString ltac:(lia) eq_refl) as [Hyok _].
    pose proof (head_ok_encode x (S level)
                  (fst (json.encode_pairs (json.encode (S level))
                          ("," +:+ json.newline_indent (S level)) false
                          ((k2, y) :: ys))
                   +:+ json.newline_indent level +:+ "}" +:+ rest)
                  (representable_not_opaque x Hxrep)) as Hhead.
    pose proof (Hx Hxrep (S level) fuel
                  (fst (json.encode_pairs (json.encode (S level))
                          ("," +:+ json.newline_indent (S level)) false
                          ((k2, y) :: ys))
                   +:+ json.newline_indent level +:+ "}" +:+ rest)
                  ltac:(lia)) as Hscan.
    clear IH.
    cbn [json.encode_pairs] in *.
    destruct (json.encode (S level) y) as [sy oky].
    destruct (json.encode_pairs (json.encode (S level))
                ("," +:+ json.newline_indent (S level)) false ys) as [sr okr].
    cbn [snd fst] in *. subst oky okr. cbn [snd fst] in *.
    split; [reflexivity |].
    cbn [json.object_items].
    rewrite scanstring_escape.
    change (json.skip_ws (": " +:+ ?t)) with (String ":" (String " " t)).
    cbn [Ascii.eqb Bool.eqb].
    change (json.skip_ws (String " " ?t)) with (json.skip_ws t).
    rewrite skip_ws_head_ok by exact Hhead.
    destruct (Hscan eq_refl) as [_ ->].
    unfold json.encode_basestring.
    autorewrite with strings in *.
    change (json.skip_ws (String "," ?r)) with (String "," r).
    cbn [Ascii.eqb Bool.eqb].
    rewrite skip_ws_newline_indent.
    change (json.skip_ws (String dquote ?r)) with (String dquote r).
    cbv beta match. rewrite Ascii.eqb_refl.
    by rewrite Hitems.
Qed.
Lemma dict_set_fresh (acc : dict) (k : string) (v : pyval) :
  existsb (String.eqb k) (map fst acc) = false ->
  dict_set acc k v = acc ++ [(k, v)].
Proof.
  induction acc as [| [k' v'] acc IH]; [reflexivity |].
  cbn [map fst existsb dict_set]. intros H.
  apply orb_false_elim in H as [Hk Hacc].
  rewrite String.eqb_sym, Hk. cbn [app]. by rewrite IH.
Qed.

Lemma existsb_key_app (k : string) (a b : dict) :
  existsb (String.eqb k) (map fst (a ++ b)) =
  existsb (String.eqb k) (map fst a) || existsb (String.eqb k) (map fst b).
Proof. by rewrite map_app, existsb_app. Qed.

Lemma dict_update_distinct (d acc : dict) :
  distinct_keys d = true ->
  forallb (fun kv => negb (existsb (String.eqb (fst kv)) (map fst acc))) d = true ->
  dict_update acc d = acc ++ d.
Proof.
  revert acc. induction d as [| [k v] d IH]; intros acc Hd Hacc.
  - cbn. by rewrite app_nil_r.
  - cbn [distinct_keys] in Hd. apply andb_prop in Hd as [Hk Hd].
    cbn [forallb fst] in Hacc. apply andb_prop in Hacc as [Hkacc Hacc].
    apply negb_true_iff in Hk, Hkacc.
    unfold dict_update. cbn [fold_left fst snd].
    rewrite dict_set_fresh by exact Hkacc.
    change (dict_update (acc ++ [(k, v)]) d = acc ++ (k, v) :: d).
    rewrite IH; [by rewrite <- app_assoc | exact Hd |].
    clear IH Hd. induction d as [| [k2 v2] d IHd]; [reflexivity |].
    cbn [forallb fst] in *. apply andb_prop in Hacc as [Hk2 Hacc].
    cbn [map fst existsb] in Hk. apply orb_false_elim in Hk as [Hkk2 Hk].
    rewrite existsb_key_app. cbn [map fst existsb].
    apply negb_true_iff in Hk2. rewrite Hk2, String.eqb_sym, Hkk2. cbn.
    by apply IHd.
Qed.

Lemma dict_of_pairs_distinct (d : dict) :
  distinct_keys d = true -> json.dict_of_pairs d = d.
Proof.
  intros Hd. unfold json.dict_of_pairs. rewrite dict_update_distinct; [done | done |].
  clear Hd. induction d as [| [k v] d IH]; [reflexivity | exact IH].
Qed.

Lemma scan_once_array (fuel : nat) (r : string) :
  json.scan_once (S fuel) (String "[" r) =
  match json.skip_ws r with
  | String c' r' =>
      if Ascii.eqb c' "]" then json.Parsed (VList []) r'
      else json.parsed_map VList (json.array_items fuel (String c' r'))
  | EmptyString => json.Malformed
  end.
Proof. reflexivity. Qed.

Lemma scan_once_object (fuel : nat) (r : string) :
  json.scan_once (S fuel) (String "{" r) =
  match json.skip_ws r with
  | String c' r' =>
      if Ascii.eqb c' "}" then json.Parsed (VDict []) r'
      else if Ascii.eqb c' dquote then
        json.parsed_map (fun pairs => VDict (json.dict_of_pairs pairs))
          (json.object_items fuel r')
      else json.Malformed
  | EmptyString => json.Malformed
  end.
Proof. reflexivity. Qed.

(** Every representable value is read back from its encoding. *)
Lemma json_round_trip (v : pyval) : round_trips v.
Proof.
  induction v as [| b | n | s | l IH | d IH |] using pyval_ind';
    intros Hrep level fuel rest Hfuel Hrest.
  - destruct fuel as [| fuel]; [cbn in Hfuel; lia |]. split; reflexivity.
  - destruct fuel as [| fuel]; [cbn in Hfuel; lia |]. destruct b; split; reflexivity.
  - destruct fuel as [| fuel]; [cbn in Hfuel; lia |]. split; [reflexivity |].
    by apply scan_once_str_of_Z.
  - destruct fuel as [| fuel]; [cbn in Hfuel; lia |]. split; [reflexivity |].
    apply scan_encode_basestring.
  - destruct l as [| x xs].
    { destruct fuel as [| fuel]; [cbn in Hfuel; lia |]. split; reflexivity. }
    apply Forall_cons_1 in IH as [Hx Hxs].
    cbn [json_representable forallb] in Hrep. apply andb_prop in Hrep as [Hxrep Hxsrep].
    destruct fuel as [| fuel]; [cbn in Hfuel; lia |].
    change (need (VList (x :: xs))) with (S (items_need (x :: xs))) in Hfuel.
    destruct (array_items_round_trip level xs Hxs Hxsrep x fuel rest Hx Hxrep
                ltac:(lia)) as [Hok Hitems].
    destruct (Hx Hxrep (S level) (need x) EmptyString ltac:(lia) eq_refl) as [Hxok _].
    pose proof (head_ok_encode x (S level)
                  (fst (json.encode_items (json.encode (S level))
                          ("," +:+ json.newline_indent (S level)) false xs)
                   +:+ json.newline_indent level +:+ "]" +:+ rest)
                  (representable_not_opaque x Hxrep)) as Hhead.
    cbn [json.encode json.encode_items].
    destruct (json.encode (S level) x) as [sx okx].
    destruct (json.encode_items (json.encode (S level))
                ("," +:+ json.newline_indent (S level)) false xs) as [sr okr].
    cbn [fst snd] in *. subst okx okr. cbn [fst snd].
    split; [reflexivity |].
    autorewrite with strings in *.
    rewrite scan_once_array.
    rewrite skip_ws_newline_indent, skip_ws_head_ok by exact Hhead.
    destruct (head_ok_inv _ Hhead) as (c & r & Htext & _ & Hbracket).
    rewrite Htext in *. cbv beta match. rewrite Hbracket, Hitems. reflexivity.
  - destruct d as [| [k x] ys].
    { destruct fuel as [| fuel]; [cbn in Hfuel; lia |]. split; reflexivity. }
    apply Forall_cons_1 in IH as [Hx Hys]. cbn [snd] in Hx.
    cbn [json_representable] in Hrep. apply andb_prop in Hrep as [Hdistinct Hrep].
    cbn [forallb fst snd] in Hrep. apply andb_prop in Hrep as [Hxrep Hysrep].
    apply andb_prop in Hxrep as [_ Hxrep].
    destruct fuel as [| fuel]; [cbn in Hfuel; lia |].
    change (need (VDict ((k, x) :: ys))) with (S (pairs_need ((k, x) :: ys))) in Hfuel.
    destruct (object_items_round_trip level ys Hys Hysrep k x fuel rest Hx Hxrep
                ltac:(lia)) as [Hok Hitems].
    destruct (Hx Hxrep (S level) (need x) EmptyString ltac:(lia) eq_refl) as [Hxok _].
    cbn [json.encode json.encode_pairs].
    destruct (json.encode (S level) x) as [sx okx].
    destruct (json.encode_pairs (json.encode (S level))
                ("," +:+ json.newline_indent (S level)) false ys) as [sr okr].
    cbn [fst snd] in *. subst okx okr. cbn [fst snd].
    split; [reflexivity |].
    unfold json.encode_basestring. autorewrite with strings in *.
    rewrite scan_once_object.
    rewrite skip_ws_newline_indent.
    change (json.skip_ws (String dquote ?r)) with (String dquote r).
    cbv beta match.
    replace (Ascii.eqb dquote "}") with false by reflexivity.
    rewrite Ascii.eqb_refl, Hitems.
    cbn [json.parsed_map]. by rewrite dict_of_pairs_distinct.
  - discriminate Hrep.
Qed.

Lemma encode_complete (v : pyval) (level : nat) :
  json_representable v = true -> snd (json.encode level v) = true.
Proof.
  intros Hrep.
  by destruct (json_round_trip v Hrep level (need v) EmptyString ltac:(lia) eq_refl).
Qed.

Lemma encode_items_complete (level : nat) (sep : string) (first : bool) (xs : list pyval) :
  forallb json_representable xs = true ->
  snd (json.encode_items (json.encode level) sep first xs) = true.
Proof.
  revert first. induction xs as [| x xs IH]; intros first Hrep; [reflexivity |].
  cbn [forallb] in Hrep. apply andb_prop in Hrep as [Hx Hxs].
  cbn [json.encode_items]. pose proof (encode_complete x level Hx) as Hok.
  specialize (IH false Hxs).
  destruct (json.encode level x) as [sx okx]. cbn [snd] in Hok. subst okx.
  by destruct (json.encode_items (json.encode level) sep false xs).
Qed.

Lemma encode_pairs_complete (level : nat) (sep : string) (first : bool) (d : dict) :
  forallb (fun kv => valid_utf8 (fst kv) && json_representable (snd kv)) d = true ->
  snd (json.encode_pairs (json.encode level) sep first d) = true.
Proof.
  revert first. induction d as [| [k x] d IH]; intros first Hrep; [reflexivity |].
  cbn [forallb fst snd] in Hrep. apply andb_prop in Hrep as [Hx Hd].
  apply andb_prop in Hx as [_ Hx].
  cbn [json.encode_pairs]. pose proof (encode_complete x level Hx) as Hok.
  specialize (IH false Hd).
  destruct (json.encode level x) as [sx okx]. cbn [snd] in Hok. subst okx.
  by destruct (json.encode_pairs (json.encode level) sep false d).
Qed.

Lemma items_need_le_length (level : nat) (xs : list pyval) :
  Forall (fun x => forall lv, json_representable x = true ->
                              (need x <= 2 * String.length (fst (json.encode lv x)))%nat) xs ->
  forallb json_representable xs = true ->
  forall x : pyval,
    json_representable x = true ->
    (need x <= 2 * String.length (fst (json.encode (S level) x)))%nat ->
    (items_need (x :: xs)
     <= 2 * String.length
              (fst (json.encode (S level) x)
               +:+ fst (json.encode_items (json.encode (S level))
                          ("," +:+ json.newline_indent (S level)) false xs)) + 1)%nat.
Proof.
  induction xs as [| y ys IH]; intros Hall Hrep x Hxrep Hx.
  - cbn [items_need fold_right json.encode_items fst].
    rewrite append_nil_r. lia.
  - apply Forall_cons_1 in Hall as [Hy Hys].
    cbn [forallb] in Hrep. apply andb_prop in Hrep as [Hyrep Hysrep].
    specialize (IH Hys Hysrep y Hyrep (Hy (S level) Hyrep)).
    destruct (json_round_trip y Hyrep (S level) (need y) EmptyString ltac:(lia) eq_refl)
      as [Hyok _].
    change (items_need (x :: y :: ys))
      with (S (Nat.max (need x) (items_need (y :: ys)))).
    cbn [json.encode_items].
    destruct (json.encode (S level) y) as [sy oky]. cbn [fst snd] in *. subst oky.
    destruct (json.encode_items (json.encode (S level))
                ("," +:+ json.newline_indent (S level)) false ys) as [sr okr].
    cbn [fst snd] in *.
    rewrite !length_append in *. cbn [String.length] in *. lia.
Qed.

Lemma pairs_need_le_length (level : nat) (ys : dict) :
  Forall (fun kv => forall lv, json_representable (snd kv) = true ->
                               (need (snd kv)
                                <= 2 * String.length (fst (json.encode lv (snd kv))))%nat) ys ->
  forallb (fun kv => valid_utf8 (fst kv) && json_representable (snd kv)) ys = true ->
  forall (k : string) (x : pyval),
    json_representable x = true ->
    (need x <= 2 * String.length (fst (json.encode (S level) x)))%nat ->
    (pairs_need ((k, x) :: ys)
     <= 2 * String.length
              (fst (json.encode (S level) x)
               +:+ fst (json.encode_pairs (json.encode (S level))
                          ("," +:+ json.newline_indent (S level)) false ys)) + 1)%nat.
Proof.
  induction ys as [| [k2 y] ys IH]; intros Hall Hrep k x Hxrep Hx.
  - cbn [pairs_need fold_right json.encode_pairs fst snd].
    rewrite append_nil_r. lia.
  - apply Forall_cons_1 in Hall as [Hy Hys]. cbn [snd] in Hy.
    cbn [forallb fst snd] in Hrep. apply andb_prop in Hrep as [Hyrep Hysrep].
    apply andb_prop in Hyrep as [_ Hyrep].
    specialize (IH Hys Hysrep k2 y Hyrep (Hy (S level) Hyrep)).
    destruct (json_round_trip y Hyrep (S level) (need y) EmptyString ltac:(lia) eq_refl)
      as [Hyok _].
    change (pairs_need ((k, x) :: (k2, y) :: ys))
      with (S (Nat.max (need x) (pairs_need ((k2, y) :: ys)))).
    cbn [json.encode_pairs].
    destruct (json.encode (S level) y) as [sy oky]. cbn [fst snd] in *. subst oky.
    destruct (json.encode_pairs (json.encode (S level))
                ("," +:+ json.newline_indent (S level)) false ys) as [sr okr].
    cbn [fst snd] in *.
    rewrite !length_append in *. cbn [String.length] in *. lia.
Qed.

(** The fuel [json.loads] starts with is enough for an encoding. *)
Lemma need_le_length (v : pyval) (level : nat) :
  json_representable v = true ->
  (need v <= 2 * String.length (fst (json.encode level v)))%nat.
Proof.
  revert level.
  induction v as [| b | n | s | l IH | d IH |] using pyval_ind'; intros level Hrep.
  - cbn. lia.
  - destruct b; cbn; lia.
  - cbn [need json.encode fst].
    destruct (str_of_Z_head n EmptyString) as (c & r & Htext & _).
    rewrite append_nil_r in Htext. rewrite Htext. cbn [String.length]. lia.
  - cbn [need json.encode fst]. unfold json.encode_basestring.
    cbn [String.length]. lia.
  - destruct l as [| x xs]; [cbn; lia |].
    apply Forall_cons_1 in IH as [Hx Hxs].
    cbn [json_representable forallb] in Hrep. apply andb_prop in Hrep as [Hxrep Hxsrep].
    pose proof (items_need_le_length level xs Hxs Hxsrep x Hxrep (Hx (S level) Hxrep))
      as Hitems.
    change (need (VList (x :: xs))) with (S (items_need (x :: xs))).
    pose proof (encode_complete x (S level) Hxrep) as Hxok.
    pose proof (encode_items_complete (S level)
                  ("," +:+ json.newline_indent (S level)) false xs Hxsrep) as Hxsok.
    cbn [json.encode json.encode_items].
    destruct (json.encode (S level) x) as [sx okx].
    destruct (json.encode_items (json.encode (S level))
                ("," +:+ json.newline_indent (S level)) false xs) as [sr okr].
    cbn [fst snd] in *. subst okx okr. cbn [fst].
    rewrite !length_append in *. cbn [String.length] in *. lia.
  - destruct d as [| [k x] ys]; [cbn; lia |].
    apply Forall_cons_1 in IH as [Hx Hys]. cbn [snd] in Hx.
    cbn [json_representable] in Hrep. apply andb_prop in Hrep as [_ Hrep].
    cbn [forallb fst snd] in Hrep. apply andb_prop in Hrep as [Hxrep Hysrep].
    apply andb_prop in Hxrep as [_ Hxrep].
    pose proof (pairs_need_le_length level ys Hys Hysrep k x Hxrep (Hx (S level) Hxrep))
      as Hitems.
    change (need (VDict ((k, x) :: ys))) with (S (pairs_need ((k, x) :: ys))).
    pose proof (encode_complete x (S level) Hxrep) as Hxok.
    pose proof (encode_pairs_complete (S level)
                  ("," +:+ json.newline_indent (S level)) false ys Hysrep) as Hysok.
    cbn [json.encode json.encode_pairs].
    destruct (json.encode (S level) x) as [sx okx].
    destruct (json.encode_pairs (json.encode (S level))
                ("," +:+ json.newline_indent (S level)) false ys) as [sr okr].
    cbn [fst snd] in *. subst okx okr. cbn [fst].
    rewrite !length_append in *. cbn [String.length] in *. lia.
  - discriminate Hrep.
Qed.

(** [json.loads(json.dumps(v, ensure_ascii=False, indent=2)) == v] *)
Lemma loads_encode (v : pyval) :
  json_representable v = true ->
  snd (json.encode 0 v) = true
  /\ json.loads (fst (json.encode 0 v)) = json.Parsed v EmptyString.
Proof.
  intros Hrep.
  pose proof (need_le_length v 0 Hrep) as Hneed.
  pose proof (head_ok_encode v 0 EmptyString (representable_not_opaque v Hrep)) as Hhead.
  rewrite append_nil_r in Hhead.
  destruct (json_round_trip v Hrep 0%nat
              (2 * String.length (fst (json.encode 0 v)) + 2)%nat EmptyString
              ltac:(lia) eq_refl) as [Hok Hscan].
  split; [exact Hok |].
  unfold json.loads. rewrite skip_ws_head_ok by exact Hhead.
  rewrite append_nil_r in Hscan. by rewrite Hscan.
Qed.

(** ** The encoding is UTF-8 text *)

Lemma transparent_of_valid_bounded (n : nat) (a : string) :
  (String.length a <= n)%nat -> valid_utf8 a = true -> transparent a.
Proof.
  revert a. induction n as [| n IH]; intros a Hlen Hvalid t.
  - destruct a; [reflexivity | simpl in Hlen; lia].
  - destruct a as [| b0 r0]; [reflexivity |].
    rewrite append_cons. cbn [valid_utf8] in *. cbn [String.length] in Hlen.
    destruct (byte_in b0 0 127).
    { apply IH; [lia | exact Hvalid]. }
    destruct r0 as [| b1 r1]; [discriminate |].
    rewrite append_cons. cbn [String.length] in Hlen.
    destruct (byte_in b0 194 223).
    { apply andb_prop in Hvalid as [-> Hvalid]. apply IH; [lia | exact Hvalid]. }
    destruct r1 as [| b2 r2]; [discriminate |].
    rewrite append_cons. cbn [String.length] in Hlen.
    destruct (lead3 b0 b1).
    { apply andb_prop in Hvalid as [-> Hvalid]. apply IH; [lia | exact Hvalid]. }
    destruct r2 as [| b3 r3]; [discriminate |].
    rewrite append_cons. cbn [String.length] in Hlen.
    apply andb_prop in Hvalid as [Hvalid Hr3].
    rewrite Hvalid. apply IH; [lia | exact Hr3].
Qed.

Lemma transparent_of_valid (a : string) : valid_utf8 a = true -> transparent a.
Proof. apply (transparent_of_valid_bounded (String.length a)). lia. Qed.

Lemma valid_of_transparent (a : string) : transparent a -> valid_utf8 a = true.
Proof. intros H. specialize (H EmptyString). by rewrite append_nil_r in H. Qed.

Lemma transparent_app (a b : string) :
  transparent a -> transparent b -> transparent (a +:+ b).
Proof. intros Ha Hb t. by rewrite append_assoc, Ha, Hb. Qed.

Lemma transparent_nil : transparent EmptyString.
Proof. intros t. reflexivity. Qed.

Lemma escape_char_low (c : ascii) :
  byte_in c 0 127 = true -> transparent (json.escape_char c).
Proof.
  intros Hc t.
  destruct c as [[] [] [] [] [] [] [] []]; try discriminate Hc; reflexivity.
Qed.

Lemma escape_char_high (c : ascii) :
  byte_in c 0 127 = false -> json.escape_char c = String c EmptyString.
Proof.
  intros Hc.
  destruct c as [[] [] [] [] [] [] [] []]; try discriminate Hc; reflexivity.
Qed.

Lemma cont_byte_high (c : ascii) : cont_byte c = true -> byte_in c 0 127 = false.
Proof.
  intros Hc.
  destruct c as [[] [] [] [] [] [] [] []]; try discriminate Hc; reflexivity.
Qed.

Lemma lead3_high (b0 b1 : ascii) : lead3 b0 b1 = true -> byte_in b1 0 127 = false.
Proof.
  unfold lead3, cont_byte, byte_in. intros H.
  apply not_true_is_false. intros Hlow.
  rewrite ?orb_true_iff, ?andb_true_iff, ?N.leb_le in *. lia.
Qed.

Lemma lead4_high (b0 b1 : ascii) : lead4 b0 b1 = true -> byte_in b1 0 127 = false.
Proof.
  unfold lead4, cont_byte, byte_in. intros H.
  apply not_true_is_false. intros Hlow.
  rewrite ?orb_true_iff, ?andb_true_iff, ?N.leb_le in *. lia.
Qed.

Lemma escape_valid_bounded (n : nat) (s : string) :
  (String.length s <= n)%nat -> valid_utf8 s = true -> valid_utf8 (json.escape s) = true.
Proof.
  revert s. induction n as [| n IH]; intros s Hlen Hvalid.
  - destruct s; [reflexivity | simpl in Hlen; lia].
  - destruct s as [| b0 r0]; [reflexivity |].
    cbn [json.escape]. cbn [valid_utf8] in Hvalid. cbn [String.length] in Hlen.
    destruct (byte_in b0 0 127) eqn:Hb0.
    { rewrite escape_char_low by exact Hb0. apply IH; [lia | exact Hvalid]. }
    rewrite (escape_char_high b0 Hb0), append_cons, append_nil_l.
    destruct r0 as [| b1 r1]; [discriminate |].
    cbn [json.escape String.length] in *.
    destruct (byte_in b0 194 223) eqn:H2.
    { apply andb_prop in Hvalid as [Hb1 Hvalid].
      rewrite (escape_char_high b1 (cont_byte_high b1 Hb1)), append_cons, append_nil_l.
      cbn [valid_utf8]. rewrite Hb0, H2, Hb1. apply IH; [lia | exact Hvalid]. }
    destruct r1 as [| b2 r2]; [discriminate |].
    cbn [json.escape String.length] in *.
    destruct (lead3 b0 b1) eqn:H3.
    { apply andb_prop in Hvalid as [Hb2 Hvalid].
      rewrite (escape_char_high b1 (lead3_high b0 b1 H3)), append_cons, append_nil_l.
      rewrite (escape_char_high b2 (cont_byte_high b2 Hb2)), append_cons, append_nil_l.
      cbn [valid_utf8]. rewrite Hb0, H2, H3, Hb2. apply IH; [lia | exact Hvalid]. }
    destruct r2 as [| b3 r3]; [discriminate |].
    cbn [json.escape String.length] in *.
    apply andb_prop in Hvalid as [Hvalid Hr3].
    apply andb_prop in Hvalid as [Hvalid Hb3].
    apply andb_prop in Hvalid as [H4 Hb2].
    rewrite (escape_char_high b1 (lead4_high b0 b1 H4)), append_cons, append_nil_l.
    rewrite (escape_char_high b2 (cont_byte_high b2 Hb2)), append_cons, append_nil_l.
    rewrite (escape_char_high b3 (cont_byte_high b3 Hb3)), append_cons, append_nil_l.
    cbn [valid_utf8]. rewrite Hb0, H2, H3, H4, Hb2, Hb3. apply IH; [lia | exact Hr3].
Qed.

Lemma transparent_basestring (s : string) :
  valid_utf8 s = true -> transparent (json.encode_basestring s).
Proof.
  intros Hs. unfold json.encode_basestring.
  change (String dquote (json.escape s +:+ String dquote EmptyString))
    with (String dquote EmptyString +:+ json.escape s +:+ String dquote EmptyString).
  apply transparent_app; [intros t; reflexivity |].
  apply transparent_app; [| intros t; reflexivity].
  apply transparent_of_valid, (escape_valid_bounded (String.length s)); [lia | exact Hs].
Qed.

Lemma transparent_digits (u : uint) : transparent (NilEmpty.string_of_uint u).
Proof. induction u; intros t; cbn [NilEmpty.string_of_uint]; try reflexivity; apply IHu. Qed.

Lemma transparent_str_of_Z (n : Z) : transparent (str_of_Z n).
Proof.
  unfold str_of_Z. destruct n as [| p | p]; cbn [Z.to_int NilZero.string_of_int].
  - intros t. reflexivity.
  - unfold NilZero.string_of_uint.
    destruct (Pos.to_uint p) eqn:Hu; try (rewrite <- Hu; apply transparent_digits).
    intros t. reflexivity.
  - intros t. rewrite append_cons. cbn [valid_utf8].
    change (byte_in "-" 0 127) with true. cbv beta match.
    unfold NilZero.string_of_uint.
    destruct (Pos.to_uint p) eqn:Hu; try (rewrite <- Hu; apply transparent_digits).
    reflexivity.
Qed.

Lemma transparent_newline_indent (level : nat) : transparent (json.newline_indent level).
Proof.
  unfold json.newline_indent. apply transparent_app; [intros t; reflexivity |].
  induction level as [| n IH]; [apply transparent_nil |].
  cbn [json.spaces]. apply transparent_app; [intros t; reflexivity | exact IH].
Qed.
Lemma transparent_items (level : nat) (sep : string) (xs : list pyval) :
  transparent sep ->
  Forall (fun x => forall lv, json_representable x = true ->
                              transparent (fst (json.encode lv x))) xs ->
  forallb json_representable xs = true ->
  forall first : bool,
    transparent (fst (json.encode_items (json.encode level) sep first xs)).
Proof.
  intros Hsep. induction xs as [| x xs IH]; intros Hall Hrep first.
  - apply transparent_nil.
  - apply Forall_cons_1 in Hall as [Hx Hxs].
    cbn [forallb] in Hrep. apply andb_prop in Hrep as [Hxrep Hxsrep].
    specialize (IH Hxs Hxsrep false). specialize (Hx level Hxrep).
    cbn [json.encode_items].
    destruct (json.encode level x) as [sx okx].
    destruct (json.encode_items (json.encode level) sep false xs) as [sr okr].
    cbn [fst] in *.
    assert (Hbuf : transparent (if first then EmptyString else sep))
      by (destruct first; [apply transparent_nil | exact Hsep]).
    destruct okx; cbn [fst]; repeat apply transparent_app; assumption.
Qed.

Lemma transparent_pairs (level : nat) (sep : string) (d : dict) :
  transparent sep ->
  Forall (fun kv => forall lv, json_representable (snd kv) = true ->
                               transparent (fst (json.encode lv (snd kv)))) d ->
  forallb (fun kv => valid_utf8 (fst kv) && json_representable (snd kv)) d = true ->
  forall first : bool,
    transparent (fst (json.encode_pairs (json.encode level) sep first d)).
Proof.
  intros Hsep. induction d as [| [k x] d IH]; intros Hall Hrep first.
  - apply transparent_nil.
  - apply Forall_cons_1 in Hall as [Hx Hd]. cbn [snd] in Hx.
    cbn [forallb fst snd] in Hrep. apply andb_prop in Hrep as [Hxrep Hdrep].
    apply andb_prop in Hxrep as [Hk Hxrep].
    specialize (IH Hd Hdrep false). specialize (Hx level Hxrep).
    cbn [json.encode_pairs].
    destruct (json.encode level x) as [sx okx].
    destruct (json.encode_pairs (json.encode level) sep false d) as [sr okr].
    cbn [fst] in *.
    assert (Hbuf : transparent (if first then EmptyString else sep))
      by (destruct first; [apply transparent_nil | exact Hsep]).
    pose proof (transparent_basestring k Hk) as Hkey.
    assert (Hcolon : transparent ": ") by (intros t; reflexivity).
    destruct okx; cbn [fst].
    + apply transparent_app; [exact Hbuf |]. apply transparent_app; [exact Hkey |].
      apply transparent_app; [exact Hcolon |]. by apply transparent_app.
    + apply transparent_app; [exact Hbuf |]. apply transparent_app; [exact Hkey |].
      by apply transparent_app.
Qed.

Lemma transparent_encode (v : pyval) (level : nat) :
  json_representable v = true -> transparent (fst (json.encode level v)).
Proof.
  revert level.
  induction v as [| b | n | s | l IH | d IH |] using pyval_ind'; intros level Hrep.
  - intros t. reflexivity.
  - destruct b; intros t; reflexivity.
  - apply transparent_str_of_Z.
  - by apply transparent_basestring.
  - destruct l as [| x xs]; [intros t; reflexivity |].
    assert (Hsep : transparent ("," +:+ json.newline_indent (S level))).
    { apply transparent_app; [intros t; reflexivity | apply transparent_newline_indent]. }
    pose proof (transparent_items (S level) _ (x :: xs) Hsep IH Hrep true) as Hbody.
    pose proof (transparent_newline_indent level) as Hni.
    pose proof (transparent_newline_indent (S level)) as Hni'.
    assert (Hopen : transparent "[") by (intros t; reflexivity).
    assert (Hclose : transparent "]") by (intros t; reflexivity).
    cbn [json.encode].
    destruct (json.encode_items (json.encode (S level))
                ("," +:+ json.newline_indent (S level)) true (x :: xs)) as [body ok].
    cbn [fst] in *.
    destruct ok; cbn [fst]; repeat apply transparent_app; assumption.
  - destruct d as [| [k x] ys]; [intros t; reflexivity |].
    cbn [json_representable] in Hrep. apply andb_prop in Hrep as [_ Hrep].
    assert (Hsep : transparent ("," +:+ json.newline_indent (S level))).
    { apply transparent_app; [intros t; reflexivity | apply transparent_newline_indent]. }
    pose proof (transparent_pairs (S level) _ ((k, x) :: ys) Hsep IH Hrep true) as Hbody.
    pose proof (transparent_newline_indent level) as Hni.
    pose proof (transparent_newline_indent (S level)) as Hni'.
    assert (Hopen : transparent "{") by (intros t; reflexivity).
    assert (Hclose : transparent "}") by (intros t; reflexivity).
    cbn [json.encode].
    destruct (json.encode_pairs (json.encode (S level))
                ("," +:+ json.newline_indent (S level)) true ((k, x) :: ys)) as [body ok].
    cbn [fst] in *.
    destruct ok; cbn [fst]; repeat apply transparent_app; assumption.
  - discriminate Hrep.
Qed.

Lemma encode_is_text (v : pyval) :
  json_representable v = true -> valid_utf8 (fst (json.encode 0 v)) = true.
Proof. intros Hrep. by apply valid_of_transparent, transparent_encode. Qed.

(** ** [save_pet] then [load_pet] *)

Lemma writable_not_empty (w : world) (path : string) :
  writable w path = true -> path <> EmptyString.
Proof. intros H ->. discriminate H. Qed.

Lemma writable_opens (w : world) (path : string) :
  writable w path = true ->
  open_write path w =
  (Return tt, World (heap w) (<[path := File EmptyString]> (disk w)) (out w)).
Proof.
  unfold writable, open_write. intros H.
  destruct (is_empty_string path); [discriminate |]. cbn [negb andb] in H.
  destruct (disk w !! path) as [[c |] |]; [reflexivity | discriminate |].
  destruct (create (disk w) path) as [[] | e |]; [reflexivity | discriminate ..].
Qed.

Lemma not_writable_stays (w : world) (path : string) :
  writable w path = false ->
  snd (open_write path w) = w /\ fst (open_write path w) <> Return tt.
Proof.
  unfold writable, open_write. intros H.
  destruct (is_empty_string path); [by split |]. cbn [negb andb] in H.
  destruct (disk w !! path) as [[c |] |]; [discriminate | by split |].
  destruct (create (disk w) path) as [[] | e |]; [discriminate | by split ..].
Qed.

Lemma save_pet_writes (pet_data : loc) (d : dict) (filename : string) (w : world) :
  heap w !! pet_data = Some d ->
  json_representable (VDict d) = true ->
  json.within_limits (fst (json.encode 0 (VDict d))) = true ->
  writable w filename = true ->
  v5.save_pet pet_data filename w =
  (Return tt,
   World (heap w)
     (<[filename := File (fst (json.encode 0 (VDict d)))]> (disk w))
     (out w ++ [Print ("✅ 寵物資料已儲存到 " +:+ filename)])).
Proof.
  intros Hd Hrep Hlimits Hwritable.
  destruct (loads_encode (VDict d) Hrep) as [Hok _].
  pose proof (encode_is_text (VDict d) Hrep) as Htext.
  unfold v5.save_pet, try_except.
  step by (by apply writable_opens).
  step by (unfold deref; cbn [heap]; rewrite Hd; reflexivity).
  unfold json_dump.
  destruct (json.encode 0 (VDict d)) as [text complete]. cbn [fst snd] in *.
  subst complete. rewrite Htext, Hlimits. cbn [andb].
  step by (step by (unfold write; cbn [disk]; rewrite lookup_insert_eq; reflexivity);
           reflexivity).
  unfold print, emit. cbn [heap disk out].
  by rewrite insert_insert_eq, append_nil_l.
Qed.

Lemma load_pet_reads (filename text rest : string) (v : pyval) (w : world) :
  filename <> EmptyString ->
  disk w !! filename = Some (File text) ->
  valid_utf8 text = true ->
  json.within_limits text = true ->
  json.loads text = json.Parsed v rest ->
  v5.load_pet filename w =
  (Return v, emitted w [Print ("✅ 成功讀取 " +:+ filename)]).
Proof.
  intros Hname Hfile Htext Hlimits Hloads. unfold v5.load_pet, try_except.
  assert (Hload : json_load filename w = (Return v, w)).
  { unfold json_load, read_text.
    step by (step by (by apply read_bytes_file); rewrite Htext; reflexivity).
    by rewrite Hlimits, Hloads. }
  step by exact Hload. reflexivity.
Qed.

Lemma save_then_load (pet_data : loc) (d : dict) (filename : string) (w : world) :
  heap w !! pet_data = Some d ->
  json_representable (VDict d) = true ->
  json.within_limits (fst (json.encode 0 (VDict d))) = true ->
  writable w filename = true ->
  (v5.save_pet pet_data filename ;; v5.load_pet filename) w =
  (Return (VDict d),
   World (heap w)
     (<[filename := File (fst (json.encode 0 (VDict d)))]> (disk w))
     (out w ++ [Print ("✅ 寵物資料已儲存到 " +:+ filename);
                Print ("✅ 成功讀取 " +:+ filename)])).
Proof.
  intros Hd Hrep Hlimits Hwritable.
  destruct (loads_encode (VDict d) Hrep) as [_ Hloads].
  pose proof (encode_is_text (VDict d) Hrep) as Htext.
  step by (by apply save_pet_writes).
  erewrite load_pet_reads;
    [| by eapply writable_not_empty | cbn [disk]; apply lookup_insert_eq
     | exact Htext | exact Hlimits | exact Hloads].
  unfold emitted. cbn [heap disk out]. by rewrite <- app_assoc.
Qed.




(** ** Where an image is looked for *)

(** X1. [_get_img_path] always answers, without touching anything. A path it
    returns is on the disk, and is the one under [assets/images] or, only
    when that one is missing, the one two directories up; it returns
    nothing exactly when both are missing. *)
Theorem get_img_path_finds_what_exists (filename : string) (w : world) :
  let primary := path_join v5.ASSETS_DIR filename in
  let fallback := path_join (path_join (path_join ".." "..") v5.ASSETS_DIR) filename in
  exists r : option string,
    v5._get_img_path filename w = (Return r, w)
    /\ match r with
       | Some p =>
           is_Some (disk w !! p)
           /\ (p = primary \/ (p = fallback /\ disk w !! primary = None))
       | None => disk w !! primary = None /\ disk w !! fallback = None
       end.
Proof.
  intros primary fallback. rewrite get_img_path_result.
  fold primary. fold fallback.
  destruct (disk w !! primary) as [n |] eqn:Hdp.
  - exists (Some primary). split; [reflexivity |]. split; [| by left].
    rewrite Hdp. by eexists.
  - destruct (disk w !! fallback) as [n |] eqn:Hdf.
    + exists (Some fallback). split; [reflexivity |]. split; [| by right].
      rewrite Hdf. by eexists.
    + exists None. by split.
Qed.

(** X2. An absolute file name leaves the assets directory: [os.path.join] drops
    what stands before it, so [show_image] displays the file at that very
    path. *)
Theorem show_image_absolute_path
    (filename content : string) (width : Z) (w : world) :
  starts_with "/" filename = true ->
  disk w !! filename = Some (File content) ->
  v5.show_image JUPYTER filename width w =
  (Return tt,
   emitted w
     [DisplayHTML
        (v5.image_markup (str_of_Z width)
           ("data:image/png;base64," +:+ b64encode content))]).
Proof.
  intros Habs Hfile.
  assert (Hjoin : forall a, path_join a filename = filename)
    by (intros a; unfold path_join; by rewrite Habs).
  assert (Hne : is_empty_string filename = false)
    by (destruct filename; [discriminate | reflexivity]).
  assert (Hread : read_bytes filename w = (Return content, w))
    by (unfold read_bytes; by rewrite Hne, Hfile).
  unfold v5.show_image.
  step by (rewrite get_img_path_result, !Hjoin, Hfile; reflexivity).
  cbv beta iota.
  step by (apply try_return; step by exact Hread; reflexivity).
  reflexivity.
Qed.

Lemma show_image_absolute_path_witness :
  v5.show_image JUPYTER "/tmp/cat.png" 200
    (World ∅ {[ "/tmp/cat.png"%string := File "abc" ]} []) =
  (Return tt,
   emitted (World ∅ {[ "/tmp/cat.png"%string := File "abc" ]} [])
     [DisplayHTML (v5.image_markup "200" "data:image/png;base64,YWJj")]).
Proof.
  apply (show_image_absolute_path "/tmp/cat.png" "abc" 200); reflexivity.
Defined.

(** X3. An image that is in neither place is skipped without a word: nothing
    is displayed, nothing is printed, nothing is raised. *)
Theorem show_image_missing_is_silent (filename : string) (width : Z) (w : world) :
  disk w !! path_join v5.ASSETS_DIR filename = None ->
  disk w !! path_join (path_join (path_join ".." "..") v5.ASSETS_DIR) filename = None ->
  v5.show_image JUPYTER filename width w = (Return tt, w).
Proof.
  intros Hp Hf. unfold v5.show_image.
  step by (rewrite get_img_path_result, Hp, Hf; reflexivity).
  reflexivity.
Qed.

Lemma show_image_missing_is_silent_witness :
  v5.show_image JUPYTER "happy.png" 200 empty_world = (Return tt, empty_world).
Proof.
  apply (show_image_missing_is_silent "happy.png" 200 empty_world); reflexivity.
Defined.

(** ** [create_pet] *)

Lemma eqb_sym_false (a b : string) : String.eqb a b = false -> String.eqb b a = false.
Proof. rewrite !String.eqb_neq. congruence. Qed.

Lemma not_key_of_each (k : string) (d : dict) :
  existsb (String.eqb k) (map fst d) = false ->
  forallb (fun kv => negb (String.eqb (fst kv) k)) d = true.
Proof.
  induction d as [| [k' v] d IH]; [reflexivity |].
  cbn [map fst existsb forallb]. intros H.
  apply orb_false_iff in H as [Hk Hd].
  by rewrite (eqb_sym_false _ _ Hk), IH.
Qed.

Lemma distinct_keys_app (a b : dict) :
  distinct_keys (a ++ b) = true ->
  distinct_keys b = true
  /\ forallb (fun kv => negb (existsb (String.eqb (fst kv)) (map fst a))) b = true.
Proof.
  induction a as [| [k v] a IH]; cbn [app distinct_keys].
  - intros H. split; [exact H |]. by apply forallb_forall.
  - intros H. apply andb_true_iff in H as [Hk Hrest].
    destruct (IH Hrest) as [Hb Hall]. split; [exact Hb |].
    apply negb_true_iff in Hk. rewrite existsb_key_app in Hk.
    apply orb_false_iff in Hk as [_ Hkb].
    pose proof (not_key_of_each k b Hkb) as Hnot.
    rewrite forallb_forall in *. intros kv Hin.
    specialize (Hall kv Hin). specialize (Hnot kv Hin).
    cbn [map fst existsb]. rewrite negb_orb. by rewrite Hnot, Hall.
Qed.

Lemma create_pet_steps
    (name : pyval) (hp hunger mood : option pyval) (kwargs : dict) (w : world) :
  distinct_keys (base_record name hp hunger mood ++ kwargs) = true ->
  v5.create_pet name hp hunger mood kwargs w =
  (Return (fresh_loc (heap w)),
   World (<[fresh_loc (heap w) := base_record name hp hunger mood ++ kwargs]> (heap w))
     (disk w) (out w)).
Proof.
  intros Hdistinct. destruct (distinct_keys_app _ _ Hdistinct) as [Hk Hfresh].
  unfold v5.create_pet, alloc, update_in_place, bind, ret. cbn [heap disk out].
  rewrite lookup_insert_eq, insert_insert_eq.
  fold (base_record name hp hunger mood).
  by rewrite dict_update_distinct.
Qed.

(** X4. [create_pet] puts a new record into the store, at a place no record
    held: the fields [name], [hp], [hunger] and [mood] (100, 50 and
    ["normal"] where the caller gave none), then the extra attributes, in
    the order they were given. Nothing else changes. *)
Theorem create_pet_builds_the_record
    (name : pyval) (hp hunger mood : option pyval) (kwargs : dict) (w : world) :
  distinct_keys (base_record name hp hunger mood ++ kwargs) = true ->
  heap w !! fresh_loc (heap w) = None
  /\ v5.create_pet name hp hunger mood kwargs w =
     (Return (fresh_loc (heap w)),
      World
        (<[fresh_loc (heap w) :=
             [ ("name"%string, name);
               ("hp"%string, match hp with Some v => v | None => VInt 100 end);
               ("hunger"%string, match hunger with Some v => v | None => VInt 50 end);
               ("mood"%string, match mood with Some v => v | None => VStr "normal" end) ]
             ++ kwargs]> (heap w))
        (disk w) (out w)).
Proof.
  intros Hdistinct. split.
  - apply not_elem_of_dom. unfold fresh_loc. apply is_fresh.
  - by apply create_pet_steps.
Qed.

Lemma create_pet_builds_the_record_witness :
  v5.create_pet (VStr "Fluffy") (Some (VInt 80)) None None
    [("happiness"%string, VInt 70); ("max_hp"%string, VInt 120)] (world_with byte_record) =
  (Return 1%nat,
   World (<[1%nat := [ ("name"%string, VStr "Fluffy"); ("hp"%string, VInt 80);
                       ("hunger"%string, VInt 50); ("mood"%string, VStr "normal");
                       ("happiness"%string, VInt 70); ("max_hp"%string, VInt 120) ]]>
            {[ 0%nat := byte_record ]}) ∅ []).
Proof.
  apply (create_pet_builds_the_record (VStr "Fluffy") (Some (VInt 80)) None None
           [("happiness"%string, VInt 70); ("max_hp"%string, VInt 120)]
           (world_with byte_record)).
  reflexivity.
Defined.

(** X5. A pet fresh from [create_pet] is shown with what was given and, for
    the rest, with the defaults of [create_pet] (HP 100, hunger 50, mood
    normal), not with those of [show_pet_dict] (HP 0, hunger 0). *)
Theorem created_pet_is_shown_with_its_defaults
    (name : string) (hp hunger : option Z) (mood : option string) (w : world) :
  (pet <- v5.create_pet (VStr name) (optional_Z hp) (optional_Z hunger)
            (optional_str mood) [] ;;
   v5.show_pet_dict TERMINAL pet) w =
  (Return tt,
   World
     (<[fresh_loc (heap w) :=
          base_record (VStr name) (optional_Z hp) (optional_Z hunger) (optional_str mood)]>
        (heap w))
     (disk w)
     (out w ++
      [ Print ("(^." +:+ match mood with Some m => m | None => "normal" end
               +:+ ".^) [Pet is " +:+ match mood with Some m => m | None => "normal" end
               +:+ "]");
        Print ("--- " +:+ name +:+ " ---");
        Print ("HP: " +:+ str_of_Z (match hp with Some n => n | None => 100 end) +:+ "/100");
        Print ("Hunger: " +:+ str_of_Z (match hunger with Some n => n | None => 50 end)
               +:+ "/100") ])).
Proof.
  step by (apply create_pet_steps; reflexivity).
  rewrite app_nil_r.
  set (d := base_record _ _ _ _).
  set (w1 := World _ _ _).
  assert (Hd : heap w1 !! fresh_loc (heap w) = Some d) by apply lookup_insert_eq.
  unfold v5.show_pet_dict.
  do 5 (step by (by apply get_some)).
  subst d w1.
  destruct hp as [hp |], hunger as [hunger |], mood as [mood |];
    unfold v5.show_pet, v5.show_stats; run; cbn;
    rewrite <- ?app_assoc; reflexivity.
Qed.

(** ** What [save_pet] and [load_pet] touch *)

Lemma open_write_shape (path : string) (w : world) :
  exists r w', open_write path w = (r, w')
    /\ heap w' = heap w /\ out w' = out w.
Proof.
  unfold open_write. destruct (is_empty_string path); [by eexists _, _ |].
  destruct (disk w !! path) as [[c |] |]; [by eexists _, _ .. |].
  destruct (create (disk w) path) as [[] | e |]; by eexists _, _.
Qed.

Lemma json_dump_shape (obj : pyval) (path : string) (w : world) :
  exists r w', json_dump obj path w = (r, w')
    /\ heap w' = heap w /\ out w' = out w.
Proof.
  unfold json_dump. destruct (json.encode 0 obj) as [text complete].
  destruct (valid_utf8 text && json.within_limits text); [| by eexists _, _].
  unfold bind, write.
  destruct (disk w !! path) as [[c |] |]; [| by eexists _, _ | by eexists _, _].
  destruct complete; by eexists _, _.
Qed.

(** Everything [save_pet] can do: it ends without raising; the store is
    left alone; and when it returns it has printed one line (the success or
    the failure). *)
Lemma save_pet_shape (pet_data : loc) (filename : string) (w : world) :
  exists r w', v5.save_pet pet_data filename w = (r, w')
    /\ (forall e, r <> Raise e)
    /\ heap w' = heap w
    /\ (r = Return tt -> exists ev, out w' = out w ++ [ev]).
Proof.
  unfold v5.save_pet, try_except.
  destruct (open_write_shape filename w) as (r1 & w1 & Ho & Hh1 & Ho1).
  unfold bind at 1. rewrite Ho.
  destruct r1 as [[] | e |].
  - unfold bind at 1, deref.
    destruct (heap w1 !! pet_data) as [d |].
    + destruct (json_dump_shape (VDict d) filename w1) as (r2 & w2 & Hj & Hh2 & Ho2).
      unfold bind at 1. rewrite Hj.
      destruct r2 as [[] | e |].
      * eexists _, _. split; [reflexivity |]. cbn [heap disk out].
        repeat split; try done; try congruence.
        intros _. eexists. by rewrite Ho2, Ho1.
      * eexists _, _. split; [reflexivity |]. cbn [heap disk out].
        repeat split; try done; try congruence.
        intros _. eexists. by rewrite Ho2, Ho1.
      * eexists _, _. split; [reflexivity |].
        repeat split; try done; try congruence.
    + eexists _, _. split; [reflexivity |]. repeat split; try done.
  - eexists _, _. split; [reflexivity |]. cbn [heap disk out].
    repeat split; try done.
    intros _. eexists. by rewrite Ho1.
  - eexists _, _. split; [reflexivity |]. repeat split; try done.
Qed.

(** X6. No exception leaves [save_pet], whatever the record, the path and the
    disk; and a call that returns has printed exactly one line. *)
Theorem save_pet_never_raises (pet_data : loc) (filename : string) (w : world) :
  (forall e, fst (v5.save_pet pet_data filename w) <> Raise e)
  /\ (fst (v5.save_pet pet_data filename w) = Return tt ->
      exists ev, out (snd (v5.save_pet pet_data filename w)) = out w ++ [ev]).
Proof.
  destruct (save_pet_shape pet_data filename w) as (r & w' & -> & Hr & _ & Hout).
  by split.
Qed.

Lemma open_write_raises (path : string) (e : exn) (w : world) :
  fst (open_write path w) = Raise e -> open_write path w = (Raise e, w).
Proof.
  unfold open_write. destruct (is_empty_string path); [by intros [= ->] |].
  destruct (disk w !! path) as [[c |] |]; [discriminate | by intros [= ->] |].
  destruct (create (disk w) path) as [[] | e' |]; [discriminate | | discriminate].
  by intros [= ->].
Qed.

Lemma json_load_same_disk (path : string) (w w' : world) :
  disk w' = disk w -> fst (json_load path w') = fst (json_load path w).
Proof.
  intros Hdisk. unfold json_load, read_text, read_bytes, bind. rewrite Hdisk.
  destruct (is_empty_string path); [reflexivity |].
  destruct (disk w !! path) as [[c |] |]; try reflexivity.
  - destruct (valid_utf8 c); [| reflexivity].
    unfold ret. destruct (json.within_limits c); [| reflexivity].
    destruct (json.loads c); reflexivity.
  - unfold refuse. destruct (absent_error (disk w) path); reflexivity.
Qed.

Lemma load_pet_same_disk (filename : string) (w w' : world) :
  disk w' = disk w -> fst (v5.load_pet filename w') = fst (v5.load_pet filename w).
Proof.
  intros Hdisk. unfold v5.load_pet, try_except.
  pose proof (json_load_same_disk filename w w' Hdisk) as Hsame.
  pose proof (json_load_keeps_world filename w) as Hw.
  pose proof (json_load_keeps_world filename w') as Hw'.
  destruct (json_load filename w) as [r w1] eqn:Hload.
  destruct (json_load filename w') as [r' w1'] eqn:Hload'.
  cbn [fst snd] in *. subst r' w1 w1'.
  destruct r as [data | e |].
  - rewrite (bind_return _ _ _ _ _ Hload), (bind_return _ _ _ _ _ Hload').
    reflexivity.
  - rewrite (bind_raise _ _ _ _ _ Hload), (bind_raise _ _ _ _ _ Hload').
    destruct e; reflexivity.
  - rewrite (bind_unmodelled _ _ _ _ Hload), (bind_unmodelled _ _ _ _ Hload').
    reflexivity.
Qed.

(** X7. A save that cannot open its file touches nothing. When [open]
    raises (the path is a directory, its directory is not there, it runs
    through a regular file), [save_pet] prints the failure and returns: the
    store and the disk are what they were, so a [load_pet] that follows
    gives what it would have given before, not the record. *)
Theorem save_pet_that_cannot_open_touches_nothing
    (pet_data : loc) (filename : string) (e : exn) (w : world) :
  fst (open_write filename w) = Raise e ->
  writable w filename = false
  /\ v5.save_pet pet_data filename w =
     (Return tt, emitted w [PrintExn "❌ 儲存失敗: " e])
  /\ fst ((v5.save_pet pet_data filename ;; v5.load_pet filename) w) =
     fst (v5.load_pet filename w).
Proof.
  intros Hopen.
  assert (Hsave : v5.save_pet pet_data filename w =
                  (Return tt, emitted w [PrintExn "❌ 儲存失敗: " e])).
  { unfold v5.save_pet, try_except.
    erewrite bind_raise by (by apply open_write_raises). reflexivity. }
  split; [| split; [exact Hsave |]].
  - destruct (writable w filename) eqn:Hwritable; [| reflexivity].
    rewrite (writable_opens _ _ Hwritable) in Hopen. discriminate Hopen.
  - erewrite bind_return by exact Hsave. by apply load_pet_same_disk.
Qed.

(** A save under a directory that is not there, over a save that is. *)
Lemma save_pet_that_cannot_open_touches_nothing_witness :
  let w := World {[ 0%nat := byte_record ]} {[ "save.json"%string := File "{}" ]} [] in
  fst (open_write "saves/pet.json" w) = Raise FileNotFoundError
  /\ writable w "saves/pet.json" = false
  /\ v5.save_pet 0%nat "saves/pet.json" w =
     (Return tt, emitted w [PrintExn "❌ 儲存失敗: " FileNotFoundError])
  /\ fst ((v5.save_pet 0%nat "saves/pet.json" ;; v5.load_pet "saves/pet.json") w) =
     fst (v5.load_pet "saves/pet.json" w).
Proof.
  split; [reflexivity |].
  exact (save_pet_that_cannot_open_touches_nothing 0%nat "saves/pet.json"
           FileNotFoundError
           (World {[ 0%nat := byte_record ]} {[ "save.json"%string := File "{}" ]} [])
           eq_refl).
Defined.

Lemma load_pet_shape (filename : string) (w : world) :
  (exists v ev, v5.load_pet filename w = (Return v, emitted w [ev]))
  \/ v5.load_pet filename w = (Unmodelled, w).
Proof.
  unfold v5.load_pet, try_except.
  pose proof (json_load_keeps_world filename w) as Hw.
  destruct (json_load filename w) as [[data | e |] w'] eqn:Hload;
    cbn [snd] in Hw; subst w'.
  - left. erewrite bind_return by exact Hload. by eexists _, _.
  - left. erewrite bind_raise by exact Hload. destruct e; by eexists _, _.
  - right. by erewrite bind_unmodelled by exact Hload.
Qed.

(** X8. [load_pet] only reads: the store and the disk are after the call what
    they were before, and the call has printed exactly one line. *)
Theorem load_pet_only_reads (filename : string) (w : world) :
  heap (snd (v5.load_pet filename w)) = heap w
  /\ disk (snd (v5.load_pet filename w)) = disk w
  /\ (fst (v5.load_pet filename w) <> Unmodelled ->
      exists ev, out (snd (v5.load_pet filename w)) = out w ++ [ev]).
Proof.
  destruct (load_pet_shape filename w) as [(v & ev & ->) | ->]; cbn.
  - split; [reflexivity |]. split; [reflexivity |]. intros _. by eexists.
  - split; [reflexivity |]. split; [reflexivity |]. intros H. by destruct H.
Qed.

(** X9. A pet made by [create_pet], saved and loaded again, comes back as the
    record that was made: the four fields, then the extra attributes. (The
    record is made of [None], [bool], [int], [str], [list] and [dict]
    values, its text stays within the limits of the interpreter, and the
    path is one that [open] opens for writing.) *)
Theorem created_pet_survives_save_and_load
    (name : pyval) (hp hunger mood : option pyval) (kwargs : dict)
    (filename : string) (w : world) :
  json_representable (VDict (base_record name hp hunger mood ++ kwargs)) = true ->
  json.within_limits
    (fst (json.encode 0 (VDict (base_record name hp hunger mood ++ kwargs)))) = true ->
  writable w filename = true ->
  fst ((pet <- v5.create_pet name hp hunger mood kwargs ;;
        v5.save_pet pet filename ;;
        v5.load_pet filename) w) =
  Return (VDict (base_record name hp hunger mood ++ kwargs)).
Proof.
  intros Hrep Hlimits Hwritable.
  set (d := base_record name hp hunger mood ++ kwargs) in *.
  assert (Hdistinct : distinct_keys d = true).
  { cbn [json_representable] in Hrep. by apply andb_true_iff in Hrep as [? _]. }
  step by (by apply create_pet_steps).
  fold d.
  erewrite save_then_load;
    [reflexivity | cbn [heap]; apply lookup_insert_eq | exact Hrep | exact Hlimits
     | exact Hwritable].
Qed.

Lemma created_pet_survives_save_and_load_witness :
  fst ((pet <- v5.create_pet (VStr "Fluffy") None None None
                 [("happiness"%string, VInt 70)] ;;
        v5.save_pet pet "fluffy.json" ;;
        v5.load_pet "fluffy.json") empty_world) =
  Return (VDict [ ("name"%string, VStr "Fluffy"); ("hp"%string, VInt 100);
                  ("hunger"%string, VInt 50); ("mood"%string, VStr "normal");
                  ("happiness"%string, VInt 70) ]).
Proof.
  exact (created_pet_survives_save_and_load (VStr "Fluffy") None None None
           [("happiness"%string, VInt 70)] "fluffy.json" empty_world
           eq_refl eq_refl eq_refl).
Defined.

(** ** The HUD *)

(** X10. A record without [hp] (and without [max_hp]) has no health on the
    console and full health on the display: the two branches of
    [render_hud] read [hp] with different defaults, 0 and 100. *)
Theorem render_hud_defaults_differ_by_mode
    (player : loc) (d : dict) (name gold : string) (w : world) :
  heap w !! player = Some d ->
  dict_lookup d "hp" = None ->
  dict_lookup d "max_hp" = None ->
  py_str (dict_get d "name" (VStr "Player")) = Return name ->
  py_str (dict_get d "gold" (VInt 0)) = Return gold ->
  v5.render_hud TERMINAL player w =
  (Return tt,
   emitted w [Print "--- HUD ---";
              Print (name +:+ " | HP: 0/100 | Gold: " +:+ gold)])
  /\ v5.render_hud JUPYTER player w =
     (Return tt,
      emitted w [DisplayHTML (v5.hud_markup name "#00C851" "100" "100" "100" gold)]).
Proof.
  intros Hd Hhp Hmax Hname Hgold.
  assert (Hget_hp : forall v, dict_get d "hp" v = v)
    by (intros v; unfold dict_get; by rewrite Hhp).
  assert (Hget_max : forall v, dict_get d "max_hp" v = v)
    by (intros v; unfold dict_get; by rewrite Hmax).
  split.
  - unfold v5.render_hud.
    step.
    step by (apply get_some; cbn [heap emitted]; exact Hd).
    step by (unfold lift; rewrite Hname; reflexivity).
    step by (apply get_some; cbn [heap emitted]; exact Hd).
    step by (unfold lift; rewrite Hget_hp; reflexivity).
    step by (apply get_some; cbn [heap emitted]; exact Hd).
    step by (unfold lift; rewrite Hget_max; reflexivity).
    step by (apply get_some; cbn [heap emitted]; exact Hd).
    step by (unfold lift; rewrite Hgold; reflexivity).
    run. cbn [heap disk out].
    rewrite <- app_assoc. reflexivity.
  - unfold v5.render_hud.
    do 4 (step by (by apply get_some)).
    rewrite Hget_hp, Hget_max.
    step by (unfold v5.hud_percent; run; vm_compute; reflexivity).
    step by (unfold lift; rewrite Hname; reflexivity).
    step. step.
    step by (unfold lift; rewrite Hgold; reflexivity).
    reflexivity.
Qed.

Lemma render_hud_defaults_differ_by_mode_witness :
  v5.render_hud TERMINAL 0%nat (world_with [("name"%string, VStr "Hero")]) =
  (Return tt,
   emitted (world_with [("name"%string, VStr "Hero")])
     [Print "--- HUD ---"; Print "Hero | HP: 0/100 | Gold: 0"])
  /\ v5.render_hud JUPYTER 0%nat (world_with [("name"%string, VStr "Hero")]) =
     (Return tt,
      emitted (world_with [("name"%string, VStr "Hero")])
        [DisplayHTML (v5.hud_markup "Hero" "#00C851" "100" "100" "100" "0")]).
Proof.
  apply (render_hud_defaults_differ_by_mode 0%nat [("name"%string, VStr "Hero")]
           "Hero" "0" (world_with [("name"%string, VStr "Hero")]));
    reflexivity.
Defined.

Lemma hud_percent_bounds (hp max_hp : pyval) (w w' : world) (pct : Z) :
  v5.hud_percent hp max_hp w = (Return pct, w') -> 0 <= pct <= 100 /\ w' = w.
Proof.
  unfold v5.hud_percent, bind, lift, ret.
  destruct (py_true_div hp max_hp) as [ratio | e |]; [| discriminate | discriminate].
  destruct (int_of_float (float_mul_int ratio 100)) as [n | e |];
    [| discriminate | discriminate].
  intros [= <- <-]. split; [lia | reflexivity].
Qed.

Lemma get_missing (l : loc) (k : string) (default : pyval) (w : world) :
  heap w !! l = None -> get l k default w = (Unmodelled, w).
Proof. intros H. unfold get, deref, bind. by rewrite H. Qed.

(** X11. Whatever the record holds, a HUD that [render_hud] displays has a bar
    between 0 and 100 percent wide, green above 50 and red otherwise. *)
Theorem render_hud_bar_stays_in_its_track (player : loc) (w w' : world) :
  v5.render_hud JUPYTER player w = (Return tt, w') ->
  exists (name hp max_hp gold : string) (pct : Z),
    0 <= pct <= 100
    /\ w' = emitted w
              [DisplayHTML
                 (v5.hud_markup name (if 50 <? pct then "#00C851" else "#ff4444")
                    (str_of_Z pct) hp max_hp gold)].
Proof.
  unfold v5.render_hud. intros H.
  destruct (heap w !! player) as [d |] eqn:Hd.
  2: { erewrite bind_unmodelled in H by (by apply get_missing). discriminate H. }
  do 4 (erewrite bind_return in H by (by apply get_some)).
  cbv beta in H.
  destruct (v5.hud_percent (dict_get d "hp" (VInt 100)) (dict_get d "max_hp" (VInt 100)) w)
    as [[pct | e |] w1] eqn:Hpct.
  2: { erewrite bind_raise in H by exact Hpct. discriminate H. }
  2: { erewrite bind_unmodelled in H by exact Hpct. discriminate H. }
  destruct (hud_percent_bounds _ _ _ _ _ Hpct) as [Hbounds ->].
  erewrite bind_return in H by exact Hpct. cbv beta in H.
  unfold lift, bind in H.
  destruct (py_str (dict_get d "name" (VStr "Player"))) as [name | e |];
    [| discriminate H | discriminate H].
  destruct (py_str (dict_get d "hp" (VInt 100))) as [hp | e |];
    [| discriminate H | discriminate H].
  destruct (py_str (dict_get d "max_hp" (VInt 100))) as [max_hp | e |];
    [| discriminate H | discriminate H].
  destruct (py_str (dict_get d "gold" (VInt 0))) as [gold | e |];
    [| discriminate H | discriminate H].
  injection H as <-. by exists name, hp, max_hp, gold, pct.
Qed.

Lemma render_hud_bar_stays_in_its_track_witness :
  exists (name hp max_hp gold : string) (pct : Z),
    0 <= pct <= 100
    /\ emitted (world_with (hero 250 100))
         [DisplayHTML (v5.hud_markup "Hero" "#00C851" "100" "250" "100" "50")] =
       emitted (world_with (hero 250 100))
         [DisplayHTML
            (v5.hud_markup name (if 50 <? pct then "#00C851" else "#ff4444")
               (str_of_Z pct) hp max_hp gold)].
Proof.
  apply (render_hud_bar_stays_in_its_track 0%nat (world_with (hero 250 100))).
  vm_compute. reflexivity.
Defined.

(** X12. Out of a maximum of 100, the HUD shows [hp] percent for every [hp]
    from 0 to 100 but three: binary floating point makes 29, 57 and 58 come
    out one percent short. *)
Theorem hud_percent_of_a_hundred (hp : Z) (w : world) :
  0 <= hp <= 100 ->
  v5.hud_percent (VInt hp) (VInt 100) w =
  (Return (if (hp =? 29) || (hp =? 57) || (hp =? 58) then hp - 1 else hp), w).
Proof.
  intros Hhp.
  assert (Hall : forallb percent_of_hundred_holds (upto 101) = true)
    by (vm_compute; reflexivity).
  rewrite forallb_forall in Hall.
  specialize (Hall hp ltac:(apply in_upto; lia)).
  unfold percent_of_hundred_holds in Hall.
  destruct (hud_percent_any_world (VInt hp) (VInt 100) w empty_world) as [Hfst Hsnd].
  destruct (v5.hud_percent (VInt hp) (VInt 100) empty_world) as [[pct | e |] w0];
    try discriminate.
  destruct (v5.hud_percent (VInt hp) (VInt 100) w) as [r w1].
  simpl in Hfst, Hsnd. subst r w1.
  apply Z.eqb_eq in Hall. by rewrite Hall.
Qed.

Lemma hud_percent_of_a_hundred_witness :
  v5.hud_percent (VInt 57) (VInt 100) empty_world = (Return 56, empty_world).
Proof.
  apply (hud_percent_of_a_hundred 57 empty_world). lia.
Defined.

(** ** The dashboard and the battle log *)

Lemma same_store_refl (w : world) : same_store w w.
Proof. reflexivity. Qed.

Lemma same_store_trans (w1 w2 w3 : world) :
  same_store w1 w2 -> same_store w2 w3 -> same_store w1 w3.
Proof. unfold same_store. congruence. Qed.

Lemma same_store_emit (w : world) (ev : event) : same_store w (emitted w [ev]).
Proof. reflexivity. Qed.

(** Two sequences with the same first computation agree when what follows
    agrees on every world with the same store. *)
Lemma bind_same_store {A B} (m : M A) (k1 k2 : A -> M B) (w : world) :
  preserves same_store m ->
  (forall a w', heap w' = heap w -> k1 a w' = k2 a w') ->
  bind m k1 w = bind m k2 w.
Proof.
  intros Hm Hk. unfold bind. specialize (Hm w).
  destruct (m w) as [[a | e |] w']; [| reflexivity | reflexivity].
  by apply Hk.
Qed.

Lemma truthy_empty (e : loc) (w : world) :
  heap w !! e = Some [] -> v5.truthy (Some e) w = (Return false, w).
Proof. intros H. unfold v5.truthy, deref, bind. by rewrite H. Qed.

(** X13. An enemy record without any field counts as no enemy: the dashboard
    is, in either mode, the one drawn when no enemy is passed. *)
Theorem show_dashboard_empty_enemy_is_no_enemy
    (MODE : mode) (player enemy : loc) (logs : list string) (w : world) :
  heap w !! enemy = Some [] ->
  v5.show_dashboard MODE player (Some enemy) logs w =
  v5.show_dashboard MODE player None logs w.
Proof.
  intros Hempty. destruct MODE; unfold v5.show_dashboard.
  - apply bind_same_store.
    { apply preserves_create_card; [apply same_store_refl | apply same_store_trans]. }
    intros card w1 H1.
    erewrite (bind_return (v5.truthy (Some enemy)))
      by (apply truthy_empty; by rewrite H1).
    reflexivity.
  - apply bind_same_store; [apply preserves_emit, same_store_emit |].
    intros [] w1 H1.
    apply bind_same_store;
      [apply preserves_get; [apply same_store_refl | apply same_store_trans] |].
    intros name w2 H2.
    apply bind_same_store; [apply preserves_lift, same_store_refl |].
    intros name' w3 H3.
    apply bind_same_store;
      [apply preserves_get; [apply same_store_refl | apply same_store_trans] |].
    intros hp w4 H4.
    apply bind_same_store; [apply preserves_lift, same_store_refl |].
    intros hp' w5 H5.
    apply bind_same_store; [apply preserves_emit, same_store_emit |].
    intros [] w6 H6.
    erewrite (bind_return (v5.truthy (Some enemy)))
      by (apply truthy_empty; congruence).
    reflexivity.
Qed.

Lemma show_dashboard_empty_enemy_is_no_enemy_witness :
  v5.show_dashboard JUPYTER 0%nat (Some 1%nat) ["hit"]%string
    (World (<[1%nat := []]> {[ 0%nat := hero 40 100 ]}) ∅ []) =
  v5.show_dashboard JUPYTER 0%nat None ["hit"]%string
    (World (<[1%nat := []]> {[ 0%nat := hero 40 100 ]}) ∅ []).
Proof.
  apply (show_dashboard_empty_enemy_is_no_enemy JUPYTER 0%nat 1%nat ["hit"]%string).
  reflexivity.
Defined.

(** X14. A player record without any field gets no card at all on the display
    (the place of the card stays empty), and is printed as [None] on the
    console. *)
Theorem show_dashboard_empty_player_has_no_card
    (player : loc) (logs : list string) (w : world) :
  heap w !! player = Some [] ->
  v5.show_dashboard JUPYTER player None logs w =
    (Return tt,
     emitted w
       [DisplayHTML
          (v5.dashboard_markup EmptyString v5.EMPTY_SLOT
             (concat_strings (map v5.log_row (rev (last_n 5 logs)))))])
  /\ v5.show_dashboard TERMINAL player None logs w =
     (Return tt,
      emitted w
        ([Print "--- DASHBOARD ---";
          Print "Player: None | HP: None";
          Print "--- LOGS ---"]
         ++ map (fun entry => Print ("> " +:+ entry)) (last_n 3 logs))).
Proof.
  intros Hempty. split.
  - unfold v5.show_dashboard.
    step by (unfold v5._create_card, deref, bind; rewrite Hempty; reflexivity).
    step. step. reflexivity.
  - unfold v5.show_dashboard.
    step. step by (by apply get_some). step.
    step by (by apply get_some). step.
    step. step. step. step.
    rewrite print_each_prints. unfold emitted; cbn [heap disk out].
    by rewrite <- !app_assoc.
Qed.

Lemma show_dashboard_empty_player_has_no_card_witness :
  v5.show_dashboard JUPYTER 0%nat None [] (world_with []) =
  (Return tt,
   emitted (world_with [])
     [DisplayHTML (v5.dashboard_markup EmptyString v5.EMPTY_SLOT EmptyString)]).
Proof.
  apply (show_dashboard_empty_player_has_no_card 0%nat [] (world_with [])).
  reflexivity.
Defined.

(** X15. [show_battle_log] shows a window on the end of the log. On the
    display: the last ten messages (all of them when there are fewer), the
    most recent first. On the console: a header, then the last five
    messages, the oldest of them first. *)
Theorem show_battle_log_window (messages : list string) (w : world) :
  v5.show_battle_log JUPYTER messages w =
    (Return tt,
     emitted w
       [DisplayHTML
          (v5.battle_log_markup
             (concat_strings (map v5.log_row (rev (last_n 10 messages)))))])
  /\ v5.show_battle_log TERMINAL messages w =
     (Return tt,
      emitted w
        (Print "--- BATTLE LOG ---"
         :: map (fun msg => Print ("> " +:+ msg)) (last_n 5 messages)))
  /\ (forall n, (length (last_n n messages) <= n)%nat
                /\ (exists older, messages = older ++ last_n n messages)
                /\ ((length messages <= n)%nat -> last_n n messages = messages))
  /\ (forall older newest,
        messages = older ++ [newest] ->
        rev (last_n 10 messages) = newest :: rev (last_n 9 older)).
Proof.
  split; [| split; [| split]].
  - reflexivity.
  - unfold v5.show_battle_log. step.
    rewrite print_each_prints. unfold emitted; cbn [heap disk out].
    by rewrite <- app_assoc.
  - intros n. split; [apply last_n_length |]. split; [apply last_n_suffix |].
    intros Hshort. unfold last_n.
    replace (length messages - n)%nat with 0%nat by lia. reflexivity.
  - intros older newest ->. apply (last_n_newest_first 10 older newest). lia.
Qed.

(** ** Chat *)

(** X16. The style of a bubble only matters for a bubble of the AI on the
    display: a bubble of the user is the same whatever the style, so is
    every line printed on the console, and a style that is none of [cute],
    [tech] and [evil] gives the bubble of the style [normal]. *)
Theorem show_chat_bubble_style_fallbacks
    (MODE : mode) (speaker message style style' : string) (is_user : bool) (w : world) :
  v5.show_chat_bubble MODE speaker message true style w =
    v5.show_chat_bubble MODE speaker message true style' w
  /\ v5.show_chat_bubble TERMINAL speaker message is_user style w =
     v5.show_chat_bubble TERMINAL speaker message is_user style' w
  /\ (style <> "cute"%string -> style <> "tech"%string -> style <> "evil"%string ->
      v5.show_chat_bubble MODE speaker message is_user style w =
      v5.show_chat_bubble MODE speaker message is_user "normal" w).
Proof.
  split; [| split].
  - destruct MODE; reflexivity.
  - reflexivity.
  - intros Hcute Htech Hevil.
    apply String.eqb_neq in Hcute, Htech, Hevil.
    destruct MODE; [| reflexivity].
    unfold v5.show_chat_bubble. by rewrite Hcute, Htech, Hevil.
Qed.

(** On the console the user is always called [You], whatever name was
    passed; on the display the bubble carries the name that was passed, on
    the right for the user ([flex-end], green) and on the left for the AI. *)
Theorem show_chat_bubble_sides (speaker message style : string) (w : world) :
  v5.show_chat_bubble TERMINAL speaker message true style w =
    (Return tt, emitted w [Print ("[You]: " +:+ message)])
  /\ v5.show_chat_bubble TERMINAL speaker message false style w =
     (Return tt, emitted w [Print ("[" +:+ speaker +:+ "]: " +:+ message)])
  /\ v5.show_chat_bubble JUPYTER speaker message true style w =
     (Return tt,
      emitted w
        [DisplayHTML
           (v5.chat_markup "flex-end" "right" speaker "#DCF8C6" "auto" "0" message)])
  /\ exists bg_color,
       v5.show_chat_bubble JUPYTER speaker message false style w =
       (Return tt,
        emitted w
          [DisplayHTML
             (v5.chat_markup "flex-start" "left" speaker bg_color "0" "auto" message)])
       /\ bg_color <> "#DCF8C6"%string.
Proof.
  split; [reflexivity |]. split; [reflexivity |]. split; [reflexivity |].
  unfold v5.show_chat_bubble.
  destruct (String.eqb style "cute"); [by eexists |].
  destruct (String.eqb style "tech"); [by eexists |].
  destruct (String.eqb style "evil"); by eexists.
Qed.

(** ** [set_mindset] *)

Lemma take_chars_prefix (n : nat) (s : string) :
  exists rest, s = take_chars n s +:+ rest.
Proof.
  revert n. induction s as [| c r IH]; intros n; [by exists EmptyString |].
  cbn [take_chars]. destruct (cont_byte c).
  - destruct (IH n) as [rest Hrest]. exists rest.
    rewrite append_cons. by rewrite <- Hrest.
  - destruct n as [| n']; [by exists (String c r) |].
    destruct (IH n') as [rest Hrest]. exists rest.
    rewrite append_cons. by rewrite <- Hrest.
Qed.

Lemma take_chars_count (n : nat) (s : string) :
  (char_count (take_chars n s) <= n)%nat.
Proof.
  revert n. induction s as [| c r IH]; intros n; [cbn; lia |].
  cbn [take_chars]. destruct (cont_byte c) eqn:Hc.
  - cbn [char_count]. rewrite Hc. apply IH.
  - destruct n as [| n']; [cbn; lia |].
    cbn [char_count]. rewrite Hc. specialize (IH n'). lia.
Qed.

Lemma take_chars_all (n : nat) (s : string) :
  (char_count s <= n)%nat -> take_chars n s = s.
Proof.
  revert n. induction s as [| c r IH]; intros n; [reflexivity |].
  cbn [take_chars char_count]. destruct (cont_byte c).
  - intros H. by rewrite IH.
  - destruct n as [| n']; [lia |].
    intros H. rewrite IH; [reflexivity | lia].
Qed.

(** X17. On the console [set_mindset] prints a preview of the text: its first
    twenty characters (the whole text when it has no more), always followed
    by three dots. *)
Theorem set_mindset_prints_a_preview (personality_text : string) (w : world) :
  exists shown rest,
    v5.set_mindset TERMINAL personality_text w =
      (Return tt, emitted w [Print ("[SYSTEM] Updating Mindset: " +:+ shown +:+ "...")])
    /\ personality_text = shown +:+ rest
    /\ (char_count shown <= 20)%nat
    /\ ((char_count personality_text <= 20)%nat -> shown = personality_text).
Proof.
  destruct (take_chars_prefix 20 personality_text) as [rest Hrest].
  exists (take_chars 20 personality_text), rest.
  split; [reflexivity |]. split; [exact Hrest |].
  split; [apply take_chars_count | apply take_chars_all].
Qed.

(** ** The finale *)

Lemma play_sound_known (tag url : string) (w : world) :
  v5.lookup_sound v5.SOUND_LIBRARY tag = Some url ->
  v5.play_sound JUPYTER tag w = (Return tt, emitted w [DisplayAudio url true]).
Proof. intros H. unfold v5.play_sound. by rewrite H. Qed.

(** X18. On the display, [celebrate] and [show_credits] end with a sound of the
    library ([level_up] and [heal]), played at once: the warning for an
    unknown sound cannot appear. On the console they only print (a
    heading, a trophy of eight lines, the credits as one text); the sound is
    named in the last line. *)
Theorem finale_plays_library_sounds (author_name : string) (w : world) :
  (exists url,
     v5.lookup_sound v5.SOUND_LIBRARY "level_up" = Some url
     /\ v5.celebrate JUPYTER w =
        (Return tt, emitted w [DisplayHTML v5.celebration_html; DisplayAudio url true]))
  /\ (exists url,
        v5.lookup_sound v5.SOUND_LIBRARY "heal" = Some url
        /\ v5.show_credits JUPYTER author_name w =
           (Return tt,
            emitted w [DisplayHTML (v5.credits_markup author_name);
                       DisplayAudio url true]))
  /\ (exists trophy,
        v5.celebrate TERMINAL w =
        (Return tt,
         emitted w
           (Print "🎉 CONGRATULATIONS! 🎉"
            :: map Print trophy ++ [Print "[SOUND] Playing level_up sound."]))
        /\ length trophy = 8%nat)
  /\ v5.show_credits TERMINAL author_name w =
     (Return tt,
      emitted w
        [Print (lines ["=== CREDITS ==="; "Director: " +:+ author_name;
                       "Art: Ys the Cat"; "Engine: Python 3"; "Library: pet_lib v5.0";
                       "Based on: Cyber-Pet Course"; "THANK YOU FOR PLAYING!"]);
         Print "[SOUND] Playing heal sound."]).
Proof.
  split; [| split; [| split]].
  - eexists. split; [reflexivity |].
    unfold v5.celebrate. step.
    erewrite play_sound_known by reflexivity.
    unfold emitted. cbn [heap disk out]. by rewrite <- app_assoc.
  - eexists. split; [reflexivity |].
    unfold v5.show_credits. step.
    erewrite play_sound_known by reflexivity.
    unfold emitted. cbn [heap disk out]. by rewrite <- app_assoc.
  - eexists [_; _; _; _; _; _; _; _]. split; [| reflexivity].
    unfold v5.celebrate. run. cbn [heap disk out map].
    rewrite <- !app_assoc. reflexivity.
  - unfold v5.show_credits. run. cbn [heap disk out].
    rewrite <- !app_assoc. reflexivity.
Qed.

(** ** What every presenter leaves alone *)

Section OutputOnly.

Variable P : event -> Prop.
Hypothesis P_print : forall line, P (Print line).
Hypothesis P_print_exn : forall prefix e, P (PrintExn prefix e).

Lemma only_refl (w : world) : only P w w.
Proof using Type. exists []. split; [by rewrite emitted_nil | constructor]. Qed.

Lemma only_trans (w1 w2 w3 : world) : only P w1 w2 -> only P w2 w3 -> only P w1 w3.
Proof using Type.
  intros (evs & -> & H) (evs' & -> & H'). exists (evs ++ evs').
  split; [apply emitted_app | by apply Forall_app].
Qed.

Lemma only_emit (ev : event) : P ev -> preserves (only P) (emit ev).
Proof using Type.
  intros Hev w. exists [ev]. split; [reflexivity | by repeat constructor].
Qed.

Local Hint Resolve only_refl only_trans only_emit : core.

(** Splits a computation into its steps; an output must satisfy [P]. *)
Ltac frame_only :=
  pose proof only_refl; pose proof only_trans;
  repeat match goal with
    | |- preserves _ (bind _ _) => apply preserves_bind; [solve [auto] | | intros ?]
    | |- preserves _ (ret _) => apply preserves_ret; solve [auto]
    | |- preserves _ (raise _) => apply preserves_raise; solve [auto]
    | |- preserves _ unmodelled => apply preserves_unmodelled; solve [auto]
    | |- preserves _ (lift _) => apply preserves_lift; solve [auto]
    | |- preserves _ (deref _) => apply preserves_deref; solve [auto]
    | |- preserves _ (path_exists _) => apply preserves_path_exists; solve [auto]
    | |- preserves _ (read_bytes _) => apply preserves_read_bytes; solve [auto]
    | |- preserves _ (emit _) => apply only_emit; solve [auto]
    | |- preserves _ (try_except _ _) =>
        apply preserves_try;
          [solve [auto] | | let e := fresh "e" in let h := fresh "h" in
                             intros e h; try destruct e; intros [= <-]]
    | |- preserves _ (match ?x with _ => _ end) => destruct x
    | |- preserves _ (let (_, _) := ?x in _) => destruct x
    | |- preserves _ _ => solve [auto]
    end.

Variable MODE : mode.
Hypothesis P_display : MODE = JUPYTER -> forall ev, P ev.

Lemma only_render_html (html_content : string) :
  preserves (only P) (v5._render_html MODE html_content).
Proof using P_display.
  unfold v5._render_html. destruct MODE eqn:HM; frame_only.
Qed.

Lemma only_show_image (filename : string) (width : Z) :
  preserves (only P) (v5.show_image MODE filename width).
Proof using P_print P_print_exn P_display.
  unfold v5.show_image, print, print_exn.
  pose proof only_render_html.
  pose proof (preserves_get_img_path (only P) only_refl only_trans).
  destruct MODE eqn:HM; frame_only.
Qed.

Lemma only_show_pet (mood : pyval) : preserves (only P) (v5.show_pet MODE mood).
Proof using P_print P_print_exn P_display.
  unfold v5.show_pet, print. pose proof only_show_image.
  destruct MODE eqn:HM; frame_only.
Qed.

Lemma only_show_stats (name hp hunger happiness : pyval) :
  preserves (only P) (v5.show_stats MODE name hp hunger happiness).
Proof using P_print P_display.
  unfold v5.show_stats, print. pose proof only_render_html.
  pose proof (preserves_create_bar (only P) only_refl only_trans).
  destruct MODE eqn:HM; frame_only.
Qed.

Lemma only_show_pet_dict (pet_data : loc) :
  preserves (only P) (v5.show_pet_dict MODE pet_data).
Proof using P_print P_print_exn P_display.
  unfold v5.show_pet_dict.
  pose proof only_show_pet. pose proof only_show_stats.
  pose proof (preserves_get (only P) only_refl only_trans).
  frame_only.
Qed.

Lemma only_render_hud (player : loc) : preserves (only P) (v5.render_hud MODE player).
Proof using P_print P_display.
  unfold v5.render_hud, print. pose proof only_render_html.
  pose proof (preserves_get (only P) only_refl only_trans).
  pose proof (preserves_hud_percent (only P) only_refl only_trans).
  destruct MODE eqn:HM; frame_only.
Qed.

Lemma only_print_each (prefix : string) (l : list string) :
  preserves (only P) (v5.print_each prefix l).
Proof using P_print.
  induction l as [| x rest IH]; simpl; unfold print; frame_only.
Qed.

Lemma only_show_dashboard (player : loc) (enemy : option loc) (logs : list string) :
  preserves (only P) (v5.show_dashboard MODE player enemy logs).
Proof using P_print P_display.
  unfold v5.show_dashboard, print.
  pose proof only_render_html. pose proof only_print_each.
  pose proof (preserves_get (only P) only_refl only_trans).
  pose proof (preserves_truthy (only P) only_refl only_trans).
  pose proof (preserves_create_card (only P) only_refl only_trans).
  destruct MODE eqn:HM; frame_only.
Qed.

Lemma only_play_sound (sound_name : string) :
  preserves (only P) (v5.play_sound MODE sound_name).
Proof using P_print P_print_exn P_display.
  unfold v5.play_sound, print, print_exn.
  destruct MODE eqn:HM; frame_only.
Qed.

Lemma only_present (c : call) : preserves (only P) (present MODE c).
Proof using P_print P_print_exn P_display.
  pose proof only_render_html. pose proof only_print_each. pose proof only_play_sound.
  destruct c; cbn [present].
  - apply only_show_image.
  - apply only_show_pet.
  - apply only_show_stats.
  - unfold v5.say, print. destruct MODE eqn:HM; frame_only.
  - unfold v5.set_label, print. destruct MODE eqn:HM; frame_only.
  - apply only_show_pet_dict.
  - apply only_render_hud.
  - apply only_show_dashboard.
  - unfold v5.show_battle_log, print. destruct MODE eqn:HM; frame_only.
  - apply only_play_sound.
  - unfold v5.show_chat_bubble, print. destruct MODE eqn:HM; frame_only.
  - unfold v5.set_mindset, print. destruct MODE eqn:HM; frame_only.
  - unfold v5.celebrate, print. destruct MODE eqn:HM; frame_only.
  - unfold v5.show_credits, print. destruct MODE eqn:HM; frame_only.
Qed.

End OutputOnly.

(** X19. No presenter, in either mode, touches the store of records or the
    disk: all a call does to the world is to add outputs after those that
    were there. *)
Theorem presenters_only_add_outputs (MODE : mode) (c : call) (w : world) :
  exists evs,
    snd (present MODE c w) =
    World (heap w) (disk w) (out w ++ evs).
Proof.
  destruct (only_present (fun _ => True) (fun _ => I) (fun _ _ => I) MODE
              (fun _ _ => I) c w) as (evs & Hevs & _).
  by exists evs.
Qed.

(** X20. Without a display surface nothing is ever handed to the display:
    whatever a presenter adds to the outputs was printed. *)
Theorem terminal_presenters_only_print (c : call) (w : world) :
  exists evs,
    snd (present TERMINAL c w) = World (heap w) (disk w) (out w ++ evs)
    /\ Forall console evs.
Proof.
  apply (only_present console (fun _ => I) (fun _ _ => I) TERMINAL).
  discriminate.
Qed.

(** ** Which presenters can raise *)

Lemma safe_ret {A} (a : A) : never_raises (ret a).
Proof. intros w e. discriminate. Qed.

Lemma safe_unmodelled {A} : never_raises (@unmodelled A).
Proof. intros w e. discriminate. Qed.

Lemma safe_emit (ev : event) : never_raises (emit ev).
Proof. intros w e. discriminate. Qed.

Lemma safe_bind {A B} (m : M A) (k : A -> M B) :
  never_raises m -> (forall a, never_raises (k a)) -> never_raises (bind m k).
Proof.
  intros Hm Hk w e. unfold bind. specialize (Hm w).
  destruct (m w) as [[a | e' |] w']; cbn [fst] in *.
  - apply Hk.
  - by destruct (Hm e').
  - discriminate.
Qed.

Lemma safe_str (v : pyval) : never_raises (lift (py_str v)).
Proof. intros w e. unfold lift. by destruct v as [| [] | | | | |]. Qed.

Lemma safe_deref (l : loc) : never_raises (deref l).
Proof. intros w e. unfold deref. by destruct (heap w !! l). Qed.

Lemma safe_get (l : loc) (k : string) (default : pyval) : never_raises (get l k default).
Proof. unfold get. apply safe_bind; [apply safe_deref | intros d; apply safe_ret]. Qed.

Lemma safe_path_exists (path : string) : never_raises (path_exists path).
Proof. intros w e. discriminate. Qed.

(** A [try] whose handler takes every exception, and does not raise. *)
Lemma safe_try {A} (body : M A) (handler : exn -> option (M A)) :
  (forall e, exists h, handler e = Some h /\ never_raises h) ->
  never_raises (try_except body handler).
Proof.
  intros Hh w e. unfold try_except.
  destruct (body w) as [[a | e' |] w']; [discriminate | | discriminate].
  destruct (Hh e') as (h & -> & Hsafe). apply Hsafe.
Qed.

Ltac safe :=
  repeat match goal with
    | |- never_raises (bind _ _) => apply safe_bind; [| intros ?]
    | |- never_raises (ret _) => apply safe_ret
    | |- never_raises unmodelled => apply safe_unmodelled
    | |- never_raises (emit _) => apply safe_emit
    | |- never_raises (lift (py_str _)) => apply safe_str
    | |- never_raises (deref _) => apply safe_deref
    | |- never_raises (get _ _ _) => apply safe_get
    | |- never_raises (path_exists _) => apply safe_path_exists
    | |- never_raises (try_except _ _) =>
        apply safe_try; intros ?; eexists; split; [reflexivity |]
    | |- never_raises (match ?x with _ => _ end) => destruct x
    | |- never_raises _ => solve [auto]
    end.

Lemma safe_render_html (MODE : mode) (html_content : string) :
  never_raises (v5._render_html MODE html_content).
Proof. unfold v5._render_html. safe. Qed.

Lemma safe_print_each (prefix : string) (l : list string) :
  never_raises (v5.print_each prefix l).
Proof. induction l as [| x rest IH]; simpl; unfold print; safe. Qed.

Lemma safe_truthy (enemy : option loc) : never_raises (v5.truthy enemy).
Proof. unfold v5.truthy. safe. Qed.

Lemma safe_show_image (MODE : mode) (filename : string) (width : Z) :
  never_raises (v5.show_image MODE filename width).
Proof.
  pose proof safe_render_html.
  unfold v5.show_image, v5._get_img_path, print, print_exn. safe.
Qed.

Lemma safe_show_pet (MODE : mode) (mood : pyval) : never_raises (v5.show_pet MODE mood).
Proof. pose proof safe_show_image. unfold v5.show_pet, print. safe. Qed.

Lemma safe_play_sound (MODE : mode) (sound_name : string) :
  never_raises (v5.play_sound MODE sound_name).
Proof. unfold v5.play_sound, print, print_exn. safe. Qed.

Lemma safe_present_terminal (c : call) : never_raises (present TERMINAL c).
Proof.
  pose proof safe_print_each. pose proof safe_truthy.
  destruct c; cbn [present].
  - apply safe_show_image.
  - apply safe_show_pet.
  - unfold v5.show_stats, print. safe.
  - unfold v5.say, print. safe.
  - unfold v5.set_label, print. safe.
  - pose proof safe_show_pet. unfold v5.show_pet_dict, v5.show_stats, print. safe.
  - unfold v5.render_hud, print. safe.
  - unfold v5.show_dashboard, print. safe.
  - unfold v5.show_battle_log, print. safe.
  - apply safe_play_sound.
  - unfold v5.show_chat_bubble, print. safe.
  - unfold v5.set_mindset, print. safe.
  - unfold v5.celebrate, print. safe.
  - unfold v5.show_credits, print. safe.
Qed.

Lemma safe_present_display (c : call) :
  computes c = false -> never_raises (present JUPYTER c).
Proof.
  intros Hc.
  pose proof safe_render_html. pose proof safe_play_sound.
  destruct c; try discriminate Hc; cbn [present].
  - apply safe_show_image.
  - apply safe_show_pet.
  - unfold v5.say. safe.
  - unfold v5.set_label. safe.
  - unfold v5.show_battle_log. safe.
  - apply safe_play_sound.
  - unfold v5.show_chat_bubble. safe.
  - unfold v5.set_mindset. safe.
  - unfold v5.celebrate. safe.
  - unfold v5.show_credits. safe.
Qed.

Lemma returns_or_unmodelled (m : M unit) (w : world) :
  never_raises m -> fst (m w) = Return tt \/ fst (m w) = Unmodelled.
Proof.
  intros Hsafe. specialize (Hsafe w).
  destruct (fst (m w)) as [[] | e |]; [by left | by destruct (Hsafe e) | by right].
Qed.

(** X21. Without a display surface none of the presenters that do not pause
    (all but [show_animation] and [show_thinking], which raise on a negative
    pause) raises, whatever it is given, as long as the [int]s it formats
    are [printable]: the console branches only format their arguments. A
    call returns (or formats a value whose text is not modelled). *)
Theorem terminal_presenters_never_raise (c : call) (w : world) :
  printable_call w c ->
  fst (present TERMINAL c w) = Return tt \/ fst (present TERMINAL c w) = Unmodelled.
Proof. intros _. apply returns_or_unmodelled, safe_present_terminal. Qed.

Lemma terminal_presenters_never_raise_witness :
  fst (present TERMINAL (ShowStats (VStr "Byte") (VInt 80) (VStr "thirty") VNone)
         empty_world) = Return tt
  \/ fst (present TERMINAL (ShowStats (VStr "Byte") (VInt 80) (VStr "thirty") VNone)
          empty_world) = Unmodelled.
Proof.
  apply (terminal_presenters_never_raise
           (ShowStats (VStr "Byte") (VInt 80) (VStr "thirty") VNone) empty_world).
  split.
  - repeat constructor.
  - intros l d H. vm_compute in H. discriminate H.
Defined.

(** X22. With a display surface, those of these presenters that do not
    compute with their arguments ([show_image], [show_pet], [say],
    [set_label], [show_battle_log], [play_sound], [show_chat_bubble],
    [set_mindset], [celebrate], [show_credits]) never raise either, under
    the same condition: a file that cannot be read is reported, an unknown
    sound is reported. *)
Theorem display_presenters_that_never_raise (c : call) (w : world) :
  computes c = false ->
  printable_call w c ->
  fst (present JUPYTER c w) = Return tt \/ fst (present JUPYTER c w) = Unmodelled.
Proof. intros Hc _. by apply returns_or_unmodelled, safe_present_display. Qed.

Lemma display_presenters_that_never_raise_witness :
  fst (present JUPYTER (ShowImage "missing.png" 200) empty_world) = Return tt
  \/ fst (present JUPYTER (ShowImage "missing.png" 200) empty_world) = Unmodelled.
Proof.
  apply (display_presenters_that_never_raise (ShowImage "missing.png" 200) empty_world).
  - reflexivity.
  - split.
    + repeat constructor.
    + intros l d H. vm_compute in H. discriminate H.
Defined.

Lemma show_stats_text_hp (name hp : string) (shown : pyval) (hunger happiness : pyval)
    (w : world) :
  py_str shown = Return name ->
  v5.show_stats JUPYTER shown (VStr hp) hunger happiness w = (Raise TypeError, w).
Proof.
  intros Hname. unfold v5.show_stats.
  step by (unfold lift; rewrite Hname; reflexivity).
  reflexivity.
Qed.

Lemma show_pet_keeps_going (MODE : mode) (mood : pyval) (m : string) (w : world) :
  py_str mood = Return m ->
  exists w', v5.show_pet MODE mood w = (Return tt, w').
Proof.
  intros Hm. unfold v5.show_pet.
  destruct MODE.
  - erewrite bind_return by (unfold lift; rewrite Hm; reflexivity). cbv beta.
    pose proof (show_image_returns JUPYTER (m +:+ ".png") 200 w) as Hret.
    destruct (v5.show_image JUPYTER (m +:+ ".png") 200 w) as [r w'].
    cbn [fst] in Hret. subst r. by exists w'.
  - erewrite bind_return by (unfold lift; rewrite Hm; reflexivity). by eexists.
Qed.

(** X23. A record whose [hp] is a text, where a number is expected, is printed
    as it is on the console, but makes every presenter that computes with
    it raise on the display: [show_stats], [render_hud] and [show_pet_dict]
    raise [TypeError], [show_dashboard] raises too. *)
Theorem text_hp_raises_on_the_display
    (pet : loc) (d : dict) (hp name mood : string) (max_hp : Z) (w : world) :
  heap w !! pet = Some d ->
  dict_lookup d "hp" = Some (VStr hp) ->
  dict_get d "max_hp" (VInt 100) = VInt max_hp ->
  0 < max_hp ->
  (forall default, py_str (dict_get d "name" default) = Return name) ->
  py_str (dict_get d "mood" (VStr "normal")) = Return mood ->
  (forall hunger happiness,
     v5.show_stats JUPYTER (VStr name) (VStr hp) hunger happiness w = (Raise TypeError, w))
  /\ v5.render_hud JUPYTER pet w = (Raise TypeError, w)
  /\ fst (v5.show_pet_dict JUPYTER pet w) = Raise TypeError
  /\ (exists e, fst (v5.show_dashboard JUPYTER pet None [] w) = Raise e)
  /\ v5.show_stats TERMINAL (VStr name) (VStr hp) (VInt 0) VNone w =
     (Return tt,
      emitted w [Print ("--- " +:+ name +:+ " ---");
                 Print ("HP: " +:+ hp +:+ "/100");
                 Print "Hunger: 0/100"]).
Proof.
  intros Hd Hhp Hmax Hpos Hname Hmood.
  assert (Hget : forall default, dict_get d "hp" default = VStr hp)
    by (intros default; unfold dict_get; by rewrite Hhp).
  split; [| split; [| split; [| split]]].
  - intros hunger happiness. by apply (show_stats_text_hp name).
  - unfold v5.render_hud.
    do 4 (step by (by apply get_some)).
    rewrite Hget, Hmax. reflexivity.
  - unfold v5.show_pet_dict.
    do 5 (step by (by apply get_some)).
    destruct (show_pet_keeps_going JUPYTER _ mood w Hmood) as [w1 Hshow].
    step by exact Hshow.
    rewrite Hget. by rewrite (show_stats_text_hp name).
  - unfold v5.show_dashboard.
    assert (Hcard : exists e w1, v5._create_card pet false w = (Raise e, w1)).
    { unfold v5._create_card.
      step by (unfold deref; rewrite Hd; reflexivity).
      destruct d as [| kv d']; [discriminate Hhp |].
      do 4 (step by (by apply get_some)).
      step by (unfold lift; rewrite Hmood; reflexivity).
      destruct (get_img_path_found (mood +:+ ".png") w) as (found & Hfound & Hon_disk).
      step by exact Hfound.
      rewrite Hget, Hmax.
      destruct found as [img_path |].
      - destruct (Hon_disk img_path eq_refl) as [n Hn].
        destruct (read_bytes_found img_path n w Hn) as [[c Hc] | [e He]].
        + step by (step by exact Hc; reflexivity).
          step by (unfold lift; cbn [py_gt_int]; reflexivity).
          assert (Hlt : (0 <? max_hp) = true) by (apply Z.ltb_lt; lia).
          rewrite Hlt. by eexists _, _.
        + erewrite bind_raise by (erewrite bind_raise by exact He; reflexivity).
          by eexists _, _.
      - step.
        step by (unfold lift; cbn [py_gt_int]; reflexivity).
        assert (Hlt : (0 <? max_hp) = true) by (apply Z.ltb_lt; lia).
        rewrite Hlt. by eexists _, _. }
    destruct Hcard as (e & w1 & Hcard).
    exists e. by erewrite bind_raise by exact Hcard.
  - unfold v5.show_stats. run. cbn [heap disk out].
    rewrite <- !app_assoc. reflexivity.
Qed.

Lemma text_hp_raises_on_the_display_witness :
  fst (v5.show_pet_dict JUPYTER 0%nat
         (world_with [("name"%string, VStr "Byte"); ("hp"%string, VStr "full")])) =
  Raise TypeError.
Proof.
  apply (text_hp_raises_on_the_display 0%nat
           [("name"%string, VStr "Byte"); ("hp"%string, VStr "full")]
           "full" "Byte" "normal" 100
           (world_with [("name"%string, VStr "Byte"); ("hp"%string, VStr "full")]));
    reflexivity.
Defined.

(** ** Animation and pauses *)

Lemma tbind_return {A B} (m : Timed A) (k : A -> Timed B) (s s' : stage) (a : A) :
  m s = (Return a, s') -> tbind m k s = k a s'.
Proof. intros H. unfold tbind. by rewrite H. Qed.

Lemma tbind_raise {A B} (m : Timed A) (k : A -> Timed B) (s s' : stage) (e : exn) :
  m s = (Raise e, s') -> tbind m k s = (Raise e, s').
Proof. intros H. unfold tbind. by rewrite H. Qed.

Lemma skipn_app_length {A} (l l' : list A) : skipn (length l) (l ++ l') = l'.
Proof. induction l as [| x l IH]; [reflexivity | exact IH]. Qed.

Lemma perform_emitted {A} (m : M A) (r : outcome A) (evs : list event) (s : stage) :
  m (scene s) = (r, emitted (scene s) evs) ->
  perform m s = (r, Stage (emitted (scene s) evs) (timeline s ++ map Output evs)).
Proof.
  intros H. unfold perform. rewrite H. cbn [emitted out].
  by rewrite skipn_app_length.
Qed.

Lemma time_sleep_accepted (seconds : number) (s : stage) :
  accepted seconds = true ->
  time_sleep seconds s = (Return tt, Stage (scene s) (timeline s ++ [Sleep seconds])).
Proof.
  unfold accepted, time_sleep.
  destruct seconds as [n | [sign | sign | | sign m e]]; try discriminate; try reflexivity.
  - intros H. apply andb_true_iff in H as [H0 H1].
    apply Z.leb_le in H0. apply Z.ltb_lt in H1.
    replace (Z.abs n <? 2 ^ 33) with true by (symmetry; apply Z.ltb_lt; lia).
    replace (n <? 0) with false by (symmetry; apply Z.ltb_ge; lia).
    reflexivity.
  - destruct sign; [discriminate |]. intros ->. reflexivity.
Qed.

Lemma time_sleep_refused (seconds : number) (s : stage) :
  refused seconds = true -> time_sleep seconds s = (Raise ValueError, s).
Proof.
  unfold refused, time_sleep.
  destruct seconds as [n | [sign | sign | | sign m e]]; try discriminate.
  - intros H. apply andb_true_iff in H as [H0 H1].
    apply Z.ltb_lt in H0. apply Z.ltb_lt in H1.
    replace (Z.abs n <? 2 ^ 33) with true by (symmetry; apply Z.ltb_lt; lia).
    replace (n <? 0) with true by (symmetry; apply Z.ltb_lt; lia).
    reflexivity.
  - destruct sign; [| discriminate]. intros H.
    apply andb_true_iff in H as [-> H1]. apply negb_true_iff in H1. by rewrite H1.
Qed.

(** X24. On the console [show_animation] prints the frames in order, each
    followed by the pause; of no frame it makes nothing. *)
Theorem show_animation_on_the_console
    (frames : list string) (delay : number) (s : stage) :
  accepted delay = true ->
  v5.show_animation TERMINAL frames delay s =
  (Return tt,
   Stage (emitted (scene s) (map Print frames))
     (timeline s ++ flat_map (fun frame => [Output (Print frame); Sleep delay]) frames)).
Proof.
  intros Hdelay. unfold v5.show_animation.
  revert s. induction frames as [| frame rest IH]; intros s.
  - cbn [for_each map flat_map]. unfold tret. destruct s as [w tl].
    by rewrite emitted_nil, app_nil_r.
  - cbn [for_each].
    erewrite tbind_return.
    2: { erewrite tbind_return by (by apply (perform_emitted _ _ [Print frame])).
         by apply time_sleep_accepted. }
    rewrite IH. cbn [scene timeline map flat_map].
    rewrite emitted_app, <- !app_assoc. reflexivity.
Qed.

Lemma show_animation_on_the_console_witness :
  v5.show_animation TERMINAL ["(o_o)"; "(-_-)"]%string half_second (Stage empty_world []) =
  (Return tt,
   Stage (emitted empty_world [Print "(o_o)"; Print "(-_-)"])
     [Output (Print "(o_o)"); Sleep half_second;
      Output (Print "(-_-)"); Sleep half_second]).
Proof.
  apply (show_animation_on_the_console ["(o_o)"; "(-_-)"]%string half_second
           (Stage empty_world [])).
  reflexivity.
Defined.

(** X25. On the display every frame that is not the name of an image (a name
    ending in [.png] or [.jpg], in lower case) is printed, after the output
    was cleared and before the pause. *)
Theorem show_animation_of_text_frames
    (frames : list string) (delay : number) (s : stage) :
  accepted delay = true ->
  forallb (fun frame => negb (is_image frame)) frames = true ->
  v5.show_animation JUPYTER frames delay s =
  (Return tt,
   Stage (emitted (scene s) (map Print frames))
     (timeline s ++
      flat_map (fun frame => [ClearOutput true; Output (Print frame); Sleep delay])
        frames)).
Proof.
  intros Hdelay Htext. unfold v5.show_animation.
  revert s. induction frames as [| frame rest IH]; intros s.
  - cbn [for_each map flat_map]. unfold tret. destruct s as [w tl].
    by rewrite emitted_nil, app_nil_r.
  - cbn [forallb] in Htext. apply andb_true_iff in Htext as [Hframe Hrest].
    apply negb_true_iff in Hframe. unfold is_image in Hframe.
    cbn [for_each].
    erewrite tbind_return.
    2: { erewrite tbind_return by reflexivity.
         rewrite Hframe.
         erewrite tbind_return by (by apply (perform_emitted _ _ [Print frame])).
         by apply time_sleep_accepted. }
    rewrite (IH Hrest). cbn [scene timeline map flat_map].
    rewrite emitted_app, <- !app_assoc. reflexivity.
Qed.

Lemma show_animation_of_text_frames_witness :
  v5.show_animation JUPYTER ["cat.gif"; "dog.PNG"]%string (IntNum 1) (Stage empty_world []) =
  (Return tt,
   Stage (emitted empty_world [Print "cat.gif"; Print "dog.PNG"])
     [ClearOutput true; Output (Print "cat.gif"); Sleep (IntNum 1);
      ClearOutput true; Output (Print "dog.PNG"); Sleep (IntNum 1)]).
Proof.
  apply (show_animation_of_text_frames ["cat.gif"; "dog.PNG"]%string (IntNum 1)
           (Stage empty_world []));
    reflexivity.
Defined.

Lemma perform_show_image_returns (filename : string) (width : Z) (s : stage) :
  exists s', perform (v5.show_image JUPYTER filename width) s = (Return tt, s').
Proof.
  unfold perform.
  pose proof (show_image_returns JUPYTER filename width (scene s)) as Hret.
  destruct (v5.show_image JUPYTER filename width (scene s)) as [r w'].
  cbn [fst] in Hret. subst r. by eexists.
Qed.

Lemma display_frame_refused (frame : string) (delay : number) (s : stage) :
  refused delay = true ->
  exists s',
    (clear_output true ;;
     (if ends_with ".png" frame || ends_with ".jpg" frame
      then perform (v5.show_image JUPYTER frame 200)
      else perform (print frame)) ;;
     time_sleep delay)%timed s = (Raise ValueError, s').
Proof.
  intros Hdelay.
  erewrite tbind_return by reflexivity.
  destruct (ends_with ".png" frame || ends_with ".jpg" frame).
  - destruct (perform_show_image_returns frame 200
                (Stage (scene s) (timeline s ++ [ClearOutput true]))) as [s' Hs'].
    erewrite tbind_return by exact Hs'.
    rewrite time_sleep_refused by exact Hdelay. by eexists.
  - erewrite tbind_return by reflexivity.
    rewrite time_sleep_refused by exact Hdelay. by eexists.
Qed.

(** X26. A negative pause is refused by [time.sleep], and nothing catches the
    [ValueError]: an animation stops after its first frame was shown, the
    frames that follow are never shown. An animation of no frame does not
    pause, and returns. *)
Theorem show_animation_negative_delay
    (MODE : mode) (frame : string) (rest : list string) (delay : number) (s : stage) :
  refused delay = true ->
  fst (v5.show_animation MODE (frame :: rest) delay s) = Raise ValueError
  /\ v5.show_animation TERMINAL (frame :: rest) delay s =
     (Raise ValueError,
      Stage (emitted (scene s) [Print frame]) (timeline s ++ [Output (Print frame)]))
  /\ v5.show_animation MODE [] delay s = (Return tt, s).
Proof.
  intros Hdelay.
  assert (Hterminal :
            v5.show_animation TERMINAL (frame :: rest) delay s =
            (Raise ValueError,
             Stage (emitted (scene s) [Print frame])
               (timeline s ++ [Output (Print frame)]))).
  { unfold v5.show_animation. cbn [for_each].
    erewrite tbind_raise; [reflexivity |].
    erewrite tbind_return by (by apply (perform_emitted _ _ [Print frame])).
    by apply time_sleep_refused. }
  split; [| split; [exact Hterminal | by destruct MODE]].
  destruct MODE; [| by rewrite Hterminal].
  destruct (display_frame_refused frame delay s Hdelay) as [s' Hs'].
  unfold v5.show_animation. cbn [for_each].
  by erewrite tbind_raise by exact Hs'.
Qed.

Lemma show_animation_negative_delay_witness :
  fst (v5.show_animation JUPYTER ["a"; "b"]%string (IntNum (-1)) (Stage empty_world [])) =
  Raise ValueError.
Proof.
  apply (show_animation_negative_delay JUPYTER "a" ["b"]%string (IntNum (-1))
           (Stage empty_world [])).
  reflexivity.
Defined.

(** X27. [show_thinking] shows its indicator, pauses, and then clears the
    output; on the console it prints and pauses. With a negative pause the
    [ValueError] of [time.sleep] leaves the function before the output is
    cleared: the indicator stays. *)
Theorem show_thinking_clears_after_the_pause
    (prompt : string) (thinking_time : number) (s : stage) :
  (accepted thinking_time = true ->
   v5.show_thinking JUPYTER prompt thinking_time s =
     (Return tt,
      Stage (emitted (scene s) [DisplayHTML (v5.thinking_markup prompt)])
        (timeline s ++ [Output (DisplayHTML (v5.thinking_markup prompt));
                        Sleep thinking_time; ClearOutput true]))
   /\ v5.show_thinking TERMINAL prompt thinking_time s =
      (Return tt,
       Stage (emitted (scene s) [Print ("Thinking about: '" +:+ prompt +:+ "'...")])
         (timeline s ++ [Output (Print ("Thinking about: '" +:+ prompt +:+ "'..."));
                         Sleep thinking_time])))
  /\ (refused thinking_time = true ->
      v5.show_thinking JUPYTER prompt thinking_time s =
      (Raise ValueError,
       Stage (emitted (scene s) [DisplayHTML (v5.thinking_markup prompt)])
         (timeline s ++ [Output (DisplayHTML (v5.thinking_markup prompt))]))).
Proof.
  split.
  - intros Hok. split.
    + unfold v5.show_thinking.
      erewrite tbind_return
        by (by apply (perform_emitted _ _ [DisplayHTML (v5.thinking_markup prompt)])).
      erewrite tbind_return by (by apply time_sleep_accepted).
      unfold clear_output, log_action. cbn [scene timeline map].
      by rewrite <- !app_assoc.
    + unfold v5.show_thinking.
      erewrite tbind_return
        by (by apply (perform_emitted _ _ [Print ("Thinking about: '" +:+ prompt +:+ "'...")])).
      rewrite time_sleep_accepted by exact Hok. cbn [scene timeline map].
      by rewrite <- !app_assoc.
  - intros Hbad. unfold v5.show_thinking.
    erewrite tbind_return
      by (by apply (perform_emitted _ _ [DisplayHTML (v5.thinking_markup prompt)])).
    erewrite tbind_raise by (by apply time_sleep_refused).
    reflexivity.
Qed.

(** ** The stat panel of v2.0 against the one of v5.0 *)

Lemma v2_show_stats_ints
    (name : string) (hp hunger : Z) (happiness : option Z) (w : world) :
  v2.show_stats JUPYTER (VStr name) (VInt hp) (VInt hunger) (optional_int happiness) w =
  (Return tt,
   emitted w
     [DisplayHTML
        (v5.container_markup
           (v5.title_markup name
            +:+ v5.bar_markup "HP" (str_of_Z hp)
                  (level_color (classify hp)) (str_of_Z (Z.min hp 100))
            +:+ v5.bar_markup "Hunger" (str_of_Z hunger)
                  (level_color (classify (100 - hunger))) (str_of_Z (Z.min hunger 100))
            +:+ match happiness with
                | Some h =>
                    v5.bar_markup "Happiness" (str_of_Z h)
                      (level_color (classify h)) (str_of_Z (Z.min h 100))
                | None => EmptyString
                end))]).
Proof.
  unfold v2.show_stats.
  step. step by apply v2_create_bar_int. step by apply v2_create_bar_int.
  destruct happiness as [h |]; cbn [optional_int].
  - step by (step by (apply v2_create_bar_int); reflexivity).
    run. by rewrite !append_assoc.
  - run. by rewrite !append_assoc, append_nil_r.
Qed.

Lemma append_cancel_head (a x y : string) : a +:+ x = a +:+ y -> x = y.
Proof.
  induction a as [| c a IH]; [done |].
  rewrite !append_cons. intros [= H]. by apply IH.
Qed.

Lemma level_color_cancel (l1 l2 : level) (r1 r2 : string) :
  level_color l1 +:+ r1 = level_color l2 +:+ r2 -> l1 = l2.
Proof.
  destruct l1, l2; try reflexivity; cbn [level_color];
    rewrite !append_cons; intros H; discriminate H.
Qed.

Lemma classify_mirror (v : Z) : classify v = classify (100 - v) <-> v = 50.
Proof.
  unfold classify.
  destruct (Z.ltb_spec v 20), (Z.ltb_spec v 50),
           (Z.ltb_spec (100 - v) 20), (Z.ltb_spec (100 - v) 50);
    split; intros Heq; try discriminate Heq; try lia; reflexivity.
Qed.

(** X28. The stat panels of v2.0 and of v5.0 are the same for a hunger of 50
    (the hunger of a pet fresh from [create_pet]) and differ for every
    other hunger: the colour of the hunger bar is never the same. *)
Theorem stat_panels_agree_only_at_fifty
    (name : string) (hp hunger : Z) (happiness : option Z) (w : world) :
  v2.show_stats JUPYTER (VStr name) (VInt hp) (VInt hunger) (optional_int happiness) w =
  v5.show_stats JUPYTER (VStr name) (VInt hp) (VInt hunger) (optional_int happiness) w
  <-> hunger = 50.
Proof.
  rewrite v2_show_stats_ints, v5_show_stats_ints. split.
  - intros H. apply classify_mirror.
    apply (f_equal (fun r => out (snd r))) in H. cbn [snd out emitted] in H.
    apply app_inv_head in H. injection H as H.
    unfold v5.container_markup, lines in H.
    rewrite !append_nil_l, !append_assoc in H.
    repeat (apply append_cancel_head in H).
    unfold v5.bar_markup, lines in H.
    rewrite !append_nil_l, !append_assoc in H.
    repeat (apply append_cancel_head in H).
    symmetry. eapply level_color_cancel. exact H.
  - intros ->. reflexivity.
Qed.

(** ** A save that fails *)

Lemma encode_items_cons (enc : pyval -> string * bool) (sep : string) (first : bool)
    (x : pyval) (rest : list pyval) :
  json.encode_items enc sep first (x :: rest) =
  if snd (enc x)
  then ((if first then EmptyString else sep) +:+ fst (enc x)
        +:+ fst (json.encode_items enc sep false rest),
        snd (json.encode_items enc sep false rest))
  else ((if first then EmptyString else sep) +:+ fst (enc x), false).
Proof.
  cbn [json.encode_items]. destruct (enc x) as [sx []]; cbn [fst snd]; [| reflexivity].
  by destruct (json.encode_items enc sep false rest).
Qed.

Lemma encode_pairs_cons (enc : pyval -> string * bool) (sep : string) (first : bool)
    (k : string) (x : pyval) (rest : dict) :
  json.encode_pairs enc sep first ((k, x) :: rest) =
  if snd (enc x)
  then ((if first then EmptyString else sep) +:+ json.encode_basestring k +:+ ": "
        +:+ fst (enc x) +:+ fst (json.encode_pairs enc sep false rest),
        snd (json.encode_pairs enc sep false rest))
  else ((if first then EmptyString else sep) +:+ json.encode_basestring k +:+ ": "
        +:+ fst (enc x), false).
Proof.
  cbn [json.encode_pairs]. destruct (enc x) as [sx []]; cbn [fst snd]; [| reflexivity].
  by destruct (json.encode_pairs enc sep false rest).
Qed.

Lemma encode_list_cons (level : nat) (x : pyval) (xs : list pyval) :
  json.encode level (VList (x :: xs)) =
  if snd (json.encode_items (json.encode (S level))
            ("," +:+ json.newline_indent (S level)) true (x :: xs))
  then ("[" +:+ json.newline_indent (S level)
        +:+ fst (json.encode_items (json.encode (S level))
                   ("," +:+ json.newline_indent (S level)) true (x :: xs))
        +:+ json.newline_indent level +:+ "]", true)
  else ("[" +:+ json.newline_indent (S level)
        +:+ fst (json.encode_items (json.encode (S level))
                   ("," +:+ json.newline_indent (S level)) true (x :: xs)), false).
Proof.
  cbn [json.encode].
  by destruct (json.encode_items (json.encode (S level))
                 ("," +:+ json.newline_indent (S level)) true (x :: xs)) as [body []].
Qed.

Lemma encode_dict_cons (level : nat) (kv : string * pyval) (d : dict) :
  json.encode level (VDict (kv :: d)) =
  if snd (json.encode_pairs (json.encode (S level))
            ("," +:+ json.newline_indent (S level)) true (kv :: d))
  then ("{" +:+ json.newline_indent (S level)
        +:+ fst (json.encode_pairs (json.encode (S level))
                   ("," +:+ json.newline_indent (S level)) true (kv :: d))
        +:+ json.newline_indent level +:+ "}", true)
  else ("{" +:+ json.newline_indent (S level)
        +:+ fst (json.encode_pairs (json.encode (S level))
                   ("," +:+ json.newline_indent (S level)) true (kv :: d)), false).
Proof.
  cbn [json.encode].
  by destruct (json.encode_pairs (json.encode (S level))
                 ("," +:+ json.newline_indent (S level)) true (kv :: d)) as [body []].
Qed.

(** *** What is complete is representable *)

Lemma complete_items (enc : pyval -> string * bool) (sep : string) (first : bool)
    (xs : list pyval) :
  snd (json.encode_items enc sep first xs) = true ->
  forallb (fun x => snd (enc x)) xs = true.
Proof.
  revert first. induction xs as [| x rest IH]; intros first; [reflexivity |].
  rewrite encode_items_cons. cbn [forallb].
  destruct (snd (enc x)); cbn [snd]; [| discriminate].
  intros H. by rewrite (IH false).
Qed.

Lemma complete_pairs (enc : pyval -> string * bool) (sep : string) (first : bool)
    (d : dict) :
  snd (json.encode_pairs enc sep first d) = true ->
  forallb (fun kv => snd (enc (snd kv))) d = true.
Proof.
  revert first. induction d as [| [k x] rest IH]; intros first; [reflexivity |].
  rewrite encode_pairs_cons. cbn [forallb snd].
  destruct (snd (enc x)); cbn [snd]; [| discriminate].
  intros H. by rewrite (IH false).
Qed.

Lemma complete_is_representable (v : pyval) :
  forall level,
    well_formed v = true ->
    snd (json.encode level v) = true ->
    json_representable v = true.
Proof.
  induction v as [| b | n | s | l IH | d IH |] using pyval_ind'; intros level Hwf Hok;
    try reflexivity; try exact Hwf; try discriminate Hok.
  - destruct l as [| x xs]; [reflexivity |].
    rewrite encode_list_cons in Hok.
    destruct (snd (json.encode_items _ _ true (x :: xs))) eqn:Hitems;
      [| discriminate Hok].
    apply complete_items in Hitems.
    cbn [json_representable well_formed] in *.
    rewrite forallb_forall in *. rewrite List.Forall_forall in IH.
    intros y Hy. apply (IH y Hy (S level)); [by apply Hwf | by apply Hitems].
  - destruct d as [| kv d']; [reflexivity |].
    rewrite encode_dict_cons in Hok.
    destruct (snd (json.encode_pairs _ _ true (kv :: d'))) eqn:Hpairs;
      [| discriminate Hok].
    apply complete_pairs in Hpairs.
    cbn [json_representable well_formed] in *.
    apply andb_true_iff in Hwf as [Hdistinct Hwf]. rewrite Hdistinct. cbn [andb].
    rewrite forallb_forall in *. rewrite List.Forall_forall in IH.
    intros y Hy. specialize (Hwf y Hy). apply andb_true_iff in Hwf as [Hkey Hval].
    rewrite Hkey. cbn [andb].
    apply (IH y Hy (S level)); [exact Hval | by apply Hpairs].
Qed.

(** *** What was written is text *)

Lemma transparent_items_any (level : nat) (sep : string) (xs : list pyval) :
  transparent sep ->
  Forall (fun x => transparent (fst (json.encode level x))) xs ->
  forall first : bool,
    transparent (fst (json.encode_items (json.encode level) sep first xs)).
Proof.
  intros Hsep. induction xs as [| x rest IH]; intros Hall first.
  - apply transparent_nil.
  - apply Forall_cons_1 in Hall as [Hx Hrest].
    assert (Hbuf : transparent (if first then EmptyString else sep))
      by (destruct first; [apply transparent_nil | exact Hsep]).
    rewrite encode_items_cons. destruct (snd (json.encode level x)); cbn [fst].
    + apply transparent_app; [exact Hbuf |]. apply transparent_app; [exact Hx |].
      by apply IH.
    + by apply transparent_app.
Qed.

Lemma transparent_pairs_any (level : nat) (sep : string) (d : dict) :
  transparent sep ->
  Forall (fun kv => valid_utf8 (fst kv) = true
                    /\ transparent (fst (json.encode level (snd kv)))) d ->
  forall first : bool,
    transparent (fst (json.encode_pairs (json.encode level) sep first d)).
Proof.
  intros Hsep. induction d as [| [k x] rest IH]; intros Hall first.
  - apply transparent_nil.
  - apply Forall_cons_1 in Hall as [[Hk Hx] Hrest]. cbn [fst snd] in Hk, Hx.
    assert (Hbuf : transparent (if first then EmptyString else sep))
      by (destruct first; [apply transparent_nil | exact Hsep]).
    pose proof (transparent_basestring k Hk) as Hkey.
    assert (Hcolon : transparent ": ") by (intros t; reflexivity).
    rewrite encode_pairs_cons. destruct (snd (json.encode level x)); cbn [fst].
    + apply transparent_app; [exact Hbuf |]. apply transparent_app; [exact Hkey |].
      apply transparent_app; [exact Hcolon |]. apply transparent_app; [exact Hx |].
      by apply IH.
    + apply transparent_app; [exact Hbuf |]. apply transparent_app; [exact Hkey |].
      by apply transparent_app.
Qed.

Lemma transparent_any (v : pyval) :
  forall level, well_formed v = true -> transparent (fst (json.encode level v)).
Proof.
  induction v as [| b | n | s | l IH | d IH |] using pyval_ind'; intros level Hwf;
    try (by apply transparent_encode).
  - destruct l as [| x xs]; [by apply transparent_encode |].
    assert (Hitems : forall first,
               transparent
                 (fst (json.encode_items (json.encode (S level))
                         ("," +:+ json.newline_indent (S level)) first (x :: xs)))).
    { apply transparent_items_any.
      - apply transparent_app; [intros t; reflexivity | apply transparent_newline_indent].
      - cbn [well_formed] in Hwf. rewrite forallb_forall in Hwf.
        rewrite List.Forall_forall in *. intros y Hy. apply IH; [exact Hy | by apply Hwf]. }
    assert (Hopen : transparent "[") by (intros t; reflexivity).
    rewrite encode_list_cons.
    destruct (snd (json.encode_items _ _ true (x :: xs))); cbn [fst].
    + apply transparent_app; [exact Hopen |].
      apply transparent_app; [apply transparent_newline_indent |].
      apply transparent_app; [apply Hitems |].
      apply transparent_app; [apply transparent_newline_indent | intros t; reflexivity].
    + apply transparent_app; [exact Hopen |].
      apply transparent_app; [apply transparent_newline_indent | apply Hitems].
  - destruct d as [| kv d']; [by apply transparent_encode |].
    assert (Hpairs : forall first,
               transparent
                 (fst (json.encode_pairs (json.encode (S level))
                         ("," +:+ json.newline_indent (S level)) first (kv :: d')))).
    { apply transparent_pairs_any.
      - apply transparent_app; [intros t; reflexivity | apply transparent_newline_indent].
      - cbn [well_formed] in Hwf. apply andb_true_iff in Hwf as [_ Hwf].
        rewrite forallb_forall in Hwf.
        rewrite List.Forall_forall in *. intros y Hy.
        specialize (Hwf y Hy). apply andb_true_iff in Hwf as [Hkey Hval].
        split; [exact Hkey | by apply IH]. }
    assert (Hopen : transparent "{") by (intros t; reflexivity).
    rewrite encode_dict_cons.
    destruct (snd (json.encode_pairs _ _ true (kv :: d'))); cbn [fst].
    + apply transparent_app; [exact Hopen |].
      apply transparent_app; [apply transparent_newline_indent |].
      apply transparent_app; [apply Hpairs |].
      apply transparent_app; [apply transparent_newline_indent | intros t; reflexivity].
    + apply transparent_app; [exact Hopen |].
      apply transparent_app; [apply transparent_newline_indent | apply Hpairs].
  - apply transparent_nil.
Qed.


(** *** What was cut short is rejected *)

Lemma opaque_or_not (v : pyval) : v = VOpaque \/ v <> VOpaque.
Proof. destruct v; (by left) || (by right). Qed.

Lemma skip_ws_encode (v : pyval) (level : nat) :
  v <> VOpaque ->
  json.skip_ws (fst (json.encode level v)) = fst (json.encode level v).
Proof.
  intros Hv. apply skip_ws_head_ok.
  pose proof (head_ok_encode v level EmptyString Hv) as H.
  by rewrite append_nil_r in H.
Qed.

(** The item at which the encoder stopped. *)
Lemma array_items_cut_item (level : nat) (y : pyval) (fuel : nat) :
  cut_short_is_rejected y ->
  well_formed y = true ->
  snd (json.encode (S level) y) = false ->
  (2 * String.length (fst (json.encode (S level) y)) + 2 <= fuel)%nat ->
  json.array_items fuel (json.skip_ws (fst (json.encode (S level) y))) = json.Malformed.
Proof.
  intros Hy Hwf Hbad Hfuel.
  destruct fuel as [| f]; [lia |].
  destruct (opaque_or_not y) as [-> | Hopaque].
  - destruct f as [| f]; [cbn in Hfuel; lia | reflexivity].
  - rewrite skip_ws_encode by exact Hopaque.
    cbn [json.array_items]. rewrite (Hy Hwf (S level) f Hbad) by lia. reflexivity.
Qed.

Lemma array_items_cut (level : nat) (xs : list pyval) :
  Forall cut_short_is_rejected xs ->
  forallb well_formed xs = true ->
  forall (x : pyval) (fuel : nat),
    json_representable x = true ->
    snd (json.encode_items (json.encode (S level))
           ("," +:+ json.newline_indent (S level)) false xs) = false ->
    (2 * String.length
           (fst (json.encode (S level) x)
            +:+ fst (json.encode_items (json.encode (S level))
                       ("," +:+ json.newline_indent (S level)) false xs)) + 2
     <= fuel)%nat ->
    json.array_items fuel
      (fst (json.encode (S level) x)
       +:+ fst (json.encode_items (json.encode (S level))
                  ("," +:+ json.newline_indent (S level)) false xs))
    = json.Malformed.
Proof.
  induction xs as [| y ys IH]; intros Hall Hwf x fuel Hx Hbad Hfuel;
    [discriminate Hbad |].
  apply Forall_cons_1 in Hall as [Hy Hys].
  cbn [forallb] in Hwf. apply andb_prop in Hwf as [Hywf Hyswf].
  pose proof (need_le_length x (S level) Hx) as Hneed.
  destruct fuel as [| f]; [lia |].
  rewrite encode_items_cons in *.
  destruct (snd (json.encode (S level) y)) eqn:Hyok; cbn [fst snd] in *.
  - pose proof (complete_is_representable y (S level) Hywf Hyok) as Hyrep.
    rewrite !length_append in Hfuel. cbn [String.length] in Hfuel.
    rewrite !append_assoc in *.
    cbn [json.array_items].
    destruct (json_round_trip x Hx (S level) f
                ("," +:+ json.newline_indent (S level)
                 +:+ fst (json.encode (S level) y)
                 +:+ fst (json.encode_items (json.encode (S level))
                            ("," +:+ json.newline_indent (S level)) false ys))
                ltac:(lia) eq_refl) as [_ ->].
    change ("," +:+ ?t) with (String "," t).
    change (json.skip_ws (String "," ?r)) with (String "," r).
    cbn [Ascii.eqb Bool.eqb].
    rewrite skip_ws_newline_indent.
    rewrite skip_ws_head_ok
      by (apply head_ok_encode, representable_not_opaque, Hyrep).
    rewrite (IH Hys Hyswf y f Hyrep Hbad); [reflexivity |].
    rewrite !length_append. lia.
  - rewrite !length_append in Hfuel. cbn [String.length] in Hfuel.
    rewrite !append_assoc in *.
    cbn [json.array_items].
    destruct (json_round_trip x Hx (S level) f
                ("," +:+ json.newline_indent (S level)
                 +:+ fst (json.encode (S level) y))
                ltac:(lia) eq_refl) as [_ ->].
    change ("," +:+ ?t) with (String "," t).
    change (json.skip_ws (String "," ?r)) with (String "," r).
    cbn [Ascii.eqb Bool.eqb].
    rewrite skip_ws_newline_indent.
    rewrite (array_items_cut_item level y f Hy Hywf Hyok); [reflexivity | lia].
Qed.


(** The value at which the encoder stopped, after its key: *)
Lemma object_items_cut_value (level : nat) (k : string) (y : pyval) (fuel : nat) :
  cut_short_is_rejected y ->
  well_formed y = true ->
  snd (json.encode (S level) y) = false ->
  (2 * String.length (fst (json.encode (S level) y)) + 2 <= fuel)%nat ->
  json.object_items fuel
    (json.escape k +:+ String dquote (": " +:+ fst (json.encode (S level) y)))
  = json.Malformed.
Proof.
  intros Hy Hwf Hbad Hfuel.
  destruct fuel as [| f]; [lia |].
  cbn [json.object_items]. rewrite scanstring_escape.
  change (json.skip_ws (": " +:+ ?t)) with (String ":" (String " " t)).
  cbn [Ascii.eqb Bool.eqb].
  change (json.skip_ws (String " " ?t)) with (json.skip_ws t).
  destruct (opaque_or_not y) as [-> | Hopaque].
  - destruct f as [| f]; [cbn in Hfuel; lia | reflexivity].
  - rewrite skip_ws_encode by exact Hopaque.
    rewrite (Hy Hwf (S level) f Hbad) by lia. reflexivity.
Qed.

Lemma object_items_cut (level : nat) (ys : dict) :
  Forall (fun kv => cut_short_is_rejected (snd kv)) ys ->
  forallb (fun kv => valid_utf8 (fst kv) && well_formed (snd kv)) ys = true ->
  forall (k : string) (x : pyval) (fuel : nat),
    json_representable x = true ->
    snd (json.encode_pairs (json.encode (S level))
           ("," +:+ json.newline_indent (S level)) false ys) = false ->
    (2 * String.length
           (fst (json.encode (S level) x)
            +:+ fst (json.encode_pairs (json.encode (S level))
                       ("," +:+ json.newline_indent (S level)) false ys)) + 2
     <= fuel)%nat ->
    json.object_items fuel
      (json.escape k
       +:+ String dquote
             (": " +:+ fst (json.encode (S level) x)
              +:+ fst (json.encode_pairs (json.encode (S level))
                         ("," +:+ json.newline_indent (S level)) false ys)))
    = json.Malformed.
Proof.
  induction ys as [| [k2 y] ys IH]; intros Hall Hwf k x fuel Hx Hbad Hfuel;
    [discriminate Hbad |].
  apply Forall_cons_1 in Hall as [Hy Hys]. cbn [snd] in Hy.
  cbn [forallb fst snd] in Hwf. apply andb_prop in Hwf as [Hywf Hyswf].
  apply andb_prop in Hywf as [_ Hywf].
  pose proof (need_le_length x (S level) Hx) as Hneed.
  pose proof (representable_not_opaque x Hx) as Hxopaque.
  destruct fuel as [| f]; [lia |].
  rewrite encode_pairs_cons in *.
  destruct (snd (json.encode (S level) y)) eqn:Hyok; cbn [fst snd] in *.
  - pose proof (complete_is_representable y (S level) Hywf Hyok) as Hyrep.
    rewrite !length_append in Hfuel. cbn [String.length] in Hfuel.
    cbn [json.object_items]. rewrite scanstring_escape.
    change (json.skip_ws (": " +:+ ?t)) with (String ":" (String " " t)).
    cbn [Ascii.eqb Bool.eqb].
    change (json.skip_ws (String " " ?t)) with (json.skip_ws t).
    rewrite skip_ws_head_ok by (by apply head_ok_encode).
    unfold json.encode_basestring.
    rewrite !append_assoc.
    destruct (json_round_trip x Hx (S level) f
                ("," +:+ json.newline_indent (S level)
                 +:+ String dquote (json.escape k2 +:+ String dquote EmptyString)
                 +:+ ": " +:+ fst (json.encode (S level) y)
                 +:+ fst (json.encode_pairs (json.encode (S level))
                            ("," +:+ json.newline_indent (S level)) false ys))
                ltac:(lia) eq_refl) as [_ ->].
    change ("," +:+ ?t) with (String "," t).
    change (json.skip_ws (String "," ?r)) with (String "," r).
    cbn [Ascii.eqb Bool.eqb].
    rewrite skip_ws_newline_indent.
    autorewrite with strings.
    change (json.skip_ws (String dquote ?r)) with (String dquote r).
    cbv beta match. rewrite Ascii.eqb_refl.
    assert (Hitems := IH Hys Hyswf k2 y f Hyrep Hbad
                        ltac:(rewrite !length_append; lia)).
    autorewrite with strings in Hitems. by rewrite Hitems.
  - rewrite !length_append in Hfuel. cbn [String.length] in Hfuel.
    cbn [json.object_items]. rewrite scanstring_escape.
    change (json.skip_ws (": " +:+ ?t)) with (String ":" (String " " t)).
    cbn [Ascii.eqb Bool.eqb].
    change (json.skip_ws (String " " ?t)) with (json.skip_ws t).
    rewrite skip_ws_head_ok by (by apply head_ok_encode).
    unfold json.encode_basestring.
    rewrite !append_assoc.
    destruct (json_round_trip x Hx (S level) f
                ("," +:+ json.newline_indent (S level)
                 +:+ String dquote (json.escape k2 +:+ String dquote EmptyString)
                 +:+ ": " +:+ fst (json.encode (S level) y))
                ltac:(lia) eq_refl) as [_ ->].
    change ("," +:+ ?t) with (String "," t).
    change (json.skip_ws (String "," ?r)) with (String "," r).
    cbn [Ascii.eqb Bool.eqb].
    rewrite skip_ws_newline_indent.
    autorewrite with strings.
    change (json.skip_ws (String dquote ?r)) with (String dquote r).
    cbv beta match. rewrite Ascii.eqb_refl.
    assert (Hvalue := object_items_cut_value level k2 y f Hy Hywf Hyok ltac:(lia)).
    autorewrite with strings in Hvalue. by rewrite Hvalue.
Qed.


Lemma cut_short_everywhere (v : pyval) : cut_short_is_rejected v.
Proof.
  induction v as [| b | n | s | l IH | d IH |] using pyval_ind';
    intros Hwf level fuel Hbad Hfuel; try discriminate Hbad.
  - destruct b; discriminate Hbad.
  - destruct l as [| x xs]; [discriminate Hbad |].
    apply Forall_cons_1 in IH as [Hx Hxs].
    cbn [well_formed forallb] in Hwf. apply andb_prop in Hwf as [Hxwf Hxswf].
    rewrite encode_list_cons in *.
    destruct (snd (json.encode_items _ _ true (x :: xs))) eqn:Hitems;
      [discriminate Hbad |].
    cbn [fst] in *.
    destruct fuel as [| f]; [lia |].
    rewrite !length_append in Hfuel. cbn [String.length] in Hfuel.
    change ("[" +:+ ?t) with (String "[" t).
    rewrite scan_once_array, skip_ws_newline_indent.
    rewrite encode_items_cons in *.
    destruct (snd (json.encode (S level) x)) eqn:Hxok; cbn [fst snd] in *.
    + pose proof (complete_is_representable x (S level) Hxwf Hxok) as Hxrep.
      rewrite append_nil_l in *.
      pose proof (head_ok_encode x (S level)
                    (fst (json.encode_items (json.encode (S level))
                            ("," +:+ json.newline_indent (S level)) false xs))
                    (representable_not_opaque x Hxrep)) as Hhead.
      rewrite skip_ws_head_ok by exact Hhead.
      destruct (head_ok_inv _ Hhead) as (c & r & Heq & _ & Hc).
      rewrite Heq. cbv beta iota. rewrite Hc. rewrite <- Heq.
      rewrite (array_items_cut level xs Hxs Hxswf x f Hxrep Hitems); [reflexivity |].
      rewrite !length_append in *. lia.
    + rewrite append_nil_l in *.
      destruct (opaque_or_not x) as [-> | Hopaque]; [reflexivity |].
      pose proof (head_ok_encode x (S level) EmptyString Hopaque) as Hhead.
      rewrite append_nil_r in Hhead.
      rewrite skip_ws_head_ok by exact Hhead.
      destruct (head_ok_inv _ Hhead) as (c & r & Heq & _ & Hc).
      rewrite Heq. cbv beta iota. rewrite Hc. rewrite <- Heq.
      destruct f as [| f]; [lia |].
      cbn [json.array_items]. rewrite (Hx Hxwf (S level) f Hxok) by lia. reflexivity.
  - destruct d as [| [k x] d']; [discriminate Hbad |].
    apply Forall_cons_1 in IH as [Hx Hd]. cbn [snd] in Hx.
    cbn [well_formed forallb fst snd] in Hwf.
    apply andb_prop in Hwf as [_ Hwf]. apply andb_prop in Hwf as [Hxwf Hdwf].
    apply andb_prop in Hxwf as [_ Hxwf].
    rewrite encode_dict_cons in *.
    destruct (snd (json.encode_pairs _ _ true ((k, x) :: d'))) eqn:Hpairs;
      [discriminate Hbad |].
    cbn [fst] in *.
    destruct fuel as [| f]; [lia |].
    rewrite !length_append in Hfuel. cbn [String.length] in Hfuel.
    change ("{" +:+ ?t) with (String "{" t).
    rewrite scan_once_object, skip_ws_newline_indent.
    rewrite encode_pairs_cons in *.
    unfold json.encode_basestring in *.
    destruct (snd (json.encode (S level) x)) eqn:Hxok; cbn [fst snd] in *.
    + pose proof (complete_is_representable x (S level) Hxwf Hxok) as Hxrep.
      repeat (rewrite !length_append in Hfuel; cbn [String.length] in Hfuel).
      assert (Hcut := object_items_cut level d' Hd Hdwf k x f Hxrep Hpairs
                        ltac:(rewrite !length_append; lia)).
      autorewrite with strings in *.
      change (json.skip_ws (String dquote ?r)) with (String dquote r).
      cbv beta iota. rewrite Ascii.eqb_refl.
      replace (Ascii.eqb dquote "}") with false by reflexivity.
      by rewrite Hcut.
    + repeat (rewrite !length_append in Hfuel; cbn [String.length] in Hfuel).
      assert (Hcut := object_items_cut_value level k x f Hx Hxwf Hxok ltac:(lia)).
      autorewrite with strings in *.
      change (json.skip_ws (String dquote ?r)) with (String dquote r).
      cbv beta iota. rewrite Ascii.eqb_refl.
      replace (Ascii.eqb dquote "}") with false by reflexivity.
      by rewrite Hcut.
  - destruct fuel as [| f]; [cbn in Hfuel; lia | reflexivity].
Qed.

(** The text of a well-formed value that is not JSON-representable stops
    where [TypeError] was raised, and [json.loads] rejects it. *)
Lemma loads_cut_short (d : dict) :
  well_formed (VDict d) = true ->
  json_representable (VDict d) = false ->
  snd (json.encode 0 (VDict d)) = false
  /\ valid_utf8 (fst (json.encode 0 (VDict d))) = true
  /\ json.loads (fst (json.encode 0 (VDict d))) = json.Malformed.
Proof.
  intros Hwf Hrep.
  assert (Hbad : snd (json.encode 0 (VDict d)) = false).
  { destruct (snd (json.encode 0 (VDict d))) eqn:Hok; [| reflexivity].
    by rewrite (complete_is_representable (VDict d) 0%nat Hwf Hok) in Hrep. }
  split; [exact Hbad |]. split.
  - by apply valid_of_transparent, transparent_any.
  - unfold json.loads.
    rewrite skip_ws_encode by discriminate.
    by rewrite (cut_short_everywhere (VDict d) Hwf 0%nat _ Hbad) by lia.
Qed.


Lemma save_pet_cut_short (pet_data : loc) (d : dict) (filename : string) (w : world) :
  heap w !! pet_data = Some d ->
  well_formed (VDict d) = true ->
  json_representable (VDict d) = false ->
  json.within_limits (fst (json.encode 0 (VDict d))) = true ->
  writable w filename = true ->
  v5.save_pet pet_data filename w =
  (Return tt,
   World (heap w)
     (<[filename := File (fst (json.encode 0 (VDict d)))]> (disk w))
     (out w ++ [PrintExn "❌ 儲存失敗: " TypeError])).
Proof.
  intros Hd Hwf Hrep Hlimits Hwritable.
  destruct (loads_cut_short d Hwf Hrep) as (Hbad & Htext & _).
  unfold v5.save_pet.
  assert (Hbody :
            (open_write filename ;;
             d0 <- deref pet_data ;;
             json_dump (VDict d0) filename ;;
             print ("✅ 寵物資料已儲存到 " +:+ filename)) w =
            (Raise TypeError,
             World (heap w)
               (<[filename := File (fst (json.encode 0 (VDict d)))]> (disk w))
               (out w))).
  { step by (by apply writable_opens).
    step by (unfold deref; cbn [heap]; rewrite Hd; reflexivity).
    unfold json_dump.
    destruct (json.encode 0 (VDict d)) as [text complete]. cbn [fst snd] in *.
    subst complete. rewrite Htext, Hlimits. cbn [andb].
    erewrite bind_raise; [reflexivity |].
    step by (unfold write; cbn [disk]; rewrite lookup_insert_eq; reflexivity).
    cbn [heap disk out]. by rewrite insert_insert_eq, append_nil_l. }
  by erewrite try_raise by (exact Hbody || reflexivity).
Qed.

Lemma save_cut_short_then_load
    (pet_data : loc) (d : dict) (filename : string) (w : world) :
  heap w !! pet_data = Some d ->
  well_formed (VDict d) = true ->
  json_representable (VDict d) = false ->
  json.within_limits (fst (json.encode 0 (VDict d))) = true ->
  writable w filename = true ->
  (v5.save_pet pet_data filename ;; v5.load_pet filename) w =
  (Return VNone,
   World (heap w)
     (<[filename := File (fst (json.encode 0 (VDict d)))]> (disk w))
     (out w ++ [PrintExn "❌ 儲存失敗: " TypeError;
                PrintExn "❌ 讀取失敗: " JSONDecodeError])).
Proof.
  intros Hd Hwf Hrep Hlimits Hwritable.
  destruct (loads_cut_short d Hwf Hrep) as (_ & Htext & Hloads).
  step by (by apply save_pet_cut_short).
  set (w1 := World _ _ _).
  assert (Hload : (data <- json_load filename ;;
                   print ("✅ 成功讀取 " +:+ filename) ;;
                   ret data) w1 = (Raise JSONDecodeError, w1)).
  { erewrite bind_raise; [reflexivity |].
    eapply json_load_malformed;
      [by eapply writable_not_empty | cbn [disk]; apply lookup_insert_eq
       | exact Htext | exact Hlimits | exact Hloads]. }
  unfold v5.load_pet.
  erewrite try_raise by (exact Hload || reflexivity).
  subst w1. unfold print_exn, emit, bind, ret. cbn [heap disk out].
  by rewrite <- app_assoc.
Qed.

(** X29. A save that fails still overwrites. When the record holds something
    JSON cannot represent (an object, a set) and the path is one that [open]
    opens for writing, [save_pet] has already replaced what the file held
    by the beginning of the new text when [TypeError] stops it; it prints
    the failure, and the [load_pet] that follows rejects the file and
    returns [None]: the previous save is lost. *)
Theorem failed_save_destroys_the_previous_save
    (pet_data : loc) (d : dict) (filename : string) (w : world) :
  heap w !! pet_data = Some d ->
  well_formed (VDict d) = true ->
  json_representable (VDict d) = false ->
  json.within_limits (fst (json.encode 0 (VDict d))) = true ->
  writable w filename = true ->
  exists w',
    (v5.save_pet pet_data filename ;; v5.load_pet filename) w = (Return VNone, w')
    /\ heap w' = heap w
    /\ disk w' !! filename = Some (File (fst (json.encode 0 (VDict d))))
    /\ out w' = out w ++ [PrintExn "❌ 儲存失敗: " TypeError;
                         PrintExn "❌ 讀取失敗: " JSONDecodeError].
Proof.
  intros Hd Hwf Hrep Hlimits Hwritable. eexists. split.
  - by apply save_cut_short_then_load.
  - cbn [heap disk out]. split; [reflexivity |]. split; [| reflexivity].
    apply lookup_insert_eq.
Qed.

(** A record with a field that JSON cannot represent, saved over a good
    save: the file is left with the beginning of the new text. *)
Lemma failed_save_destroys_the_previous_save_witness :
  let d := [("name"%string, VStr "Byte"); ("toys"%string, VOpaque)] in
  let w := World {[ 0%nat := d ]} {[ "save.json"%string := File (q "{'name': 'Byte'}") ]} [] in
  (exists w',
     (v5.save_pet 0%nat "save.json" ;; v5.load_pet "save.json") w = (Return VNone, w')
     /\ heap w' = heap w
     /\ disk w' !! "save.json"%string = Some (File (fst (json.encode 0 (VDict d))))
     /\ out w' = out w ++ [PrintExn "❌ 儲存失敗: " TypeError;
                          PrintExn "❌ 讀取失敗: " JSONDecodeError])
  /\ fst (json.encode 0 (VDict d)) = lines ["{"; q "  'name': 'Byte',"; q "  'toys': "].
Proof.
  split; [| reflexivity].
  exact (failed_save_destroys_the_previous_save 0%nat
           [("name"%string, VStr "Byte"); ("toys"%string, VOpaque)] "save.json"
           (World {[ 0%nat := [("name"%string, VStr "Byte"); ("toys"%string, VOpaque)] ]}
                  {[ "save.json"%string := File (q "{'name': 'Byte'}") ]} [])
           eq_refl eq_refl eq_refl eq_refl eq_refl).
Defined.
